(** * Roadmap builder: date normalisation and grid positioning

    A shallow embedding of the date interpretation and grid-positioning
    engine of the roadmap builder ([DateUtility], [ConfigUtility] and the
    span computations of [RoadmapGenerator]), with the properties of its
    specification stated and settled against it.

    Modelling conventions.
    - JavaScript strings are [string]s of 8-bit characters (ASCII text).
    - JavaScript numbers are integers that a number holds exactly;
      [NaN] is [None] in [JsNum].
    - A [Date] object is its time value in milliseconds ([None] is
      [Invalid Date]).  The time zone of the host is ECMAScript's
      [LocalTZA], a field of the environment: a date-only ISO string is
      parsed as midnight in UTC and [toISOString] prints UTC, while a
      date-time string without offset, [new Date(y, m, d)], [setMonth]
      and the getters work in local time.
    - [Date.parse] is fixed by ECMAScript only on valid ISO calendar
      dates; on every other string it is implementation-defined, and is
      a parameter ([engineParse]) of the environment.
    - [Array.prototype.sort] is the stable sort under a consistent
      comparator; under any other the order is the implementation's own,
      a parameter ([engineSort]) of the environment.
    - The wall clock and the ambient flags that the code reads are fields
      of an explicit environment [Env].  What the code writes to the
      console is not modelled. *)

From Stdlib Require Import ZArith Lia Bool List Ascii String.
From stdpp Require Import base strings gmap.

Local Open Scope Z_scope.

(* ================================================================== *)
(** * JavaScript strings and numbers *)
(* ================================================================== *)

Module Js.

(** A JavaScript number that is an integer, or [NaN]. *)
Definition JsNum := option Z.

Definition chars (s : string) : list ascii := list_ascii_of_string s.
Definition str (l : list ascii) : string := string_of_list_ascii l.

Definition code (c : ascii) : Z := Z.of_N (N_of_ascii c).

Definition isDigit (c : ascii) : bool := (48 <=? code c) && (code c <=? 57).
Definition isLower (c : ascii) : bool := (97 <=? code c) && (code c <=? 122).
Definition isUpper (c : ascii) : bool := (65 <=? code c) && (code c <=? 90).
(** [\w] of a regular expression: letters, digits and underscore. *)
Definition isWord (c : ascii) : bool :=
  isDigit c || isLower c || isUpper c || (code c =? 95).
(** White space of [trim], of [\s] and of [parseInt]: TAB, LF, VT, FF,
    CR and space. *)
Definition isSpace (c : ascii) : bool :=
  ((9 <=? code c) && (code c <=? 13)) || (code c =? 32).

Definition digitVal (c : ascii) : Z := code c - 48.

Definition upperChar (c : ascii) : ascii :=
  if isLower c then ascii_of_N (Z.to_N (code c - 32)) else c.
Definition lowerChar (c : ascii) : ascii :=
  if isUpper c then ascii_of_N (Z.to_N (code c + 32)) else c.

Definition toUpperCase (s : string) : string := str (map upperChar (chars s)).
Definition toLowerCase (s : string) : string := str (map lowerChar (chars s)).

Fixpoint dropWhile {A} (p : A -> bool) (l : list A) : list A :=
  match l with
  | [] => []
  | x :: r => if p x then dropWhile p r else l
  end.

Fixpoint takeWhile {A} (p : A -> bool) (l : list A) : list A :=
  match l with
  | [] => []
  | x :: r => if p x then x :: takeWhile p r else []
  end.

Definition trimList (l : list ascii) : list ascii :=
  rev (dropWhile isSpace (rev (dropWhile isSpace l))).

Definition trim (s : string) : string := str (trimList (chars s)).

(** [s.includes(c)] for a one-character needle. *)
Definition includesChar (c : ascii) (s : string) : bool :=
  existsb (Ascii.eqb c) (chars s).

Fixpoint stripPrefix (p l : list ascii) : option (list ascii) :=
  match p, l with
  | [], _ => Some l
  | a :: p', b :: l' => if Ascii.eqb a b then stripPrefix p' l' else None
  | _ :: _, [] => None
  end.

Fixpoint includesList (needle l : list ascii) : bool :=
  match stripPrefix needle l with
  | Some _ => true
  | None => match l with
            | [] => false
            | _ :: r => includesList needle r
            end
  end.

(** [s.includes(needle)]. *)
Definition includes (needle s : string) : bool :=
  includesList (chars needle) (chars s).

(** [s.split(sep)] where the separator is one character of the class
    [p]; the pieces are never fewer than one. *)
Fixpoint splitList (p : ascii -> bool) (l : list ascii)
  : list (list ascii) :=
  match l with
  | [] => [[]]
  | c :: r =>
      if p c then [] :: splitList p r
      else match splitList p r with
           | piece :: rest => (c :: piece) :: rest
           | [] => [[c]]
           end
  end.

Definition split (p : ascii -> bool) (s : string) : list string :=
  map str (splitList p (chars s)).

Definition isSlash (c : ascii) : bool := code c =? 47.
Definition isDash (c : ascii) : bool := code c =? 45.
(** The class [[\/\-]]. *)
Definition isSep (c : ascii) : bool := isSlash c || isDash c.

(** A falsy string ([undefined], [null] or the empty string) is no
    value. *)
Definition truthy (o : option string) : option string :=
  match o with
  | Some s => if String.eqb s EmptyString then None else Some s
  | None => None
  end.

(** [a || b] on optional strings. *)
Definition orElse (a b : option string) : option string :=
  match truthy a with
  | Some s => Some s
  | None => b
  end.

Definition decimalValue (ds : list ascii) : Z :=
  fold_left (fun acc c => 10 * acc + digitVal c) ds 0.

Definition isHexDigit (c : ascii) : bool :=
  isDigit c || ((97 <=? code c) && (code c <=? 102))
            || ((65 <=? code c) && (code c <=? 70)).

Definition hexVal (c : ascii) : Z :=
  if isDigit c then code c - 48
  else if isLower c then code c - 87 else code c - 55.

Definition hexValue (ds : list ascii) : Z :=
  fold_left (fun acc c => 16 * acc + hexVal c) ds 0.

(** [parseInt(s)] without a radix: leading white space, an optional
    sign, an optional [0x] prefix, then the longest run of digits. *)
Definition parseInt (s : string) : JsNum :=
  let l := dropWhile isSpace (chars s) in
  let '(neg, l1) :=
    match l with
    | c :: r => if code c =? 45 then (true, r)
                else if code c =? 43 then (false, r) else (false, l)
    | [] => (false, l)
    end in
  let hex :=
    match l1 with
    | z :: x :: _ => (code z =? 48) && ((code x =? 120) || (code x =? 88))
    | _ => false
    end in
  let magnitude :=
    if hex then
      match takeWhile isHexDigit (skipn 2 l1) with
      | [] => None
      | ds => Some (hexValue ds)
      end
    else
      match takeWhile isDigit l1 with
      | [] => None
      | ds => Some (decimalValue ds)
      end in
  match magnitude with
  | Some v => Some (if neg then - v else v)
  | None => None
  end.

Definition digitChar (d : Z) : ascii := ascii_of_N (Z.to_N (48 + d)).

Fixpoint decimalDigits (fuel : nat) (n : Z) (acc : list ascii)
  : list ascii :=
  match fuel with
  | O => acc
  | S fuel' =>
      let acc' := digitChar (n mod 10) :: acc in
      if n <? 10 then acc' else decimalDigits fuel' (n / 10) acc'
  end.

(** [String(n)] for an integer that a number holds exactly: plain
    digits, after a minus sign for a negative number.  (From 10^21 on
    [String] prints a number with an exponent; the integers of the code
    are years, days, columns and indices, far below that.) *)
Definition intToString (n : Z) : string :=
  let mag := Z.abs n in
  let ds := decimalDigits (S (Z.to_nat (Z.log2 mag))) mag [] in
  str (if n <? 0 then "-"%char :: ds else ds).

(** [String(n)]. *)
Definition numToString (n : JsNum) : string :=
  match n with
  | Some v => intToString v
  | None => "NaN"
  end.

(** [s.padStart(2, '0')]. *)
Definition padStart2 (s : string) : string :=
  match String.length s with
  | 0%nat => "00" +:+ s
  | 1%nat => "0" +:+ s
  | _ => s
  end.

(** Comparisons of numbers: every comparison with [NaN] is false. *)
Definition ltN (a b : JsNum) : bool :=
  match a, b with Some x, Some y => x <? y | _, _ => false end.
Definition leN (a b : JsNum) : bool :=
  match a, b with Some x, Some y => x <=? y | _, _ => false end.
Definition gtN (a b : JsNum) : bool := ltN b a.
Definition geN (a b : JsNum) : bool := leN b a.
Definition addN (a b : JsNum) : JsNum :=
  match a, b with Some x, Some y => Some (x + y) | _, _ => None end.

(** A number is truthy when it is neither [NaN] nor 0. *)
Definition truthyNum (a : JsNum) : bool :=
  match a with Some x => negb (x =? 0) | None => false end.

(** [a > b] on strings: lexicographic on the character codes. *)
Fixpoint gtList (a b : list ascii) : bool :=
  match a, b with
  | [], _ => false
  | _ :: _, [] => true
  | x :: a', y :: b' =>
      if code x =? code y then gtList a' b' else code y <? code x
  end.

Definition strGt (a b : string) : bool := gtList (chars a) (chars b).

Fixpoint indexOfFrom (i : Z) (x : string) (l : list string) : Z :=
  match l with
  | [] => -1
  | y :: r => if String.eqb x y then i else indexOfFrom (i + 1) x r
  end.

(** [l.indexOf(x)]. *)
Definition indexOf (x : string) (l : list string) : Z := indexOfFrom 0 x l.

(** [s.slice(-n)]: the last [n] characters, or all of a shorter
    string. *)
Definition sliceLast (n : nat) (s : string) : string :=
  str (skipn (length (chars s) - n) (chars s)).

(** [s.padStart(n, '0')]. *)
Definition padStart (n : nat) (s : string) : string :=
  str (repeat "0"%char (n - length (chars s))) +:+ s.

(** [s.startsWith(p)]. *)
Definition startsWith (p s : string) : bool :=
  match stripPrefix (chars p) (chars s) with
  | Some _ => true
  | None => false
  end.

(** [l.join(sep)]. *)
Fixpoint join (sep : string) (l : list string) : string :=
  match l with
  | [] => EmptyString
  | [x] => x
  | x :: r => x +:+ sep +:+ join sep r
  end.

(** [s.length]. *)
Definition len (s : string) : Z := Z.of_nat (length (chars s)).

(** The class [[a-zA-Z0-9]]. *)
Definition isAlnum (c : ascii) : bool := isDigit c || isLower c || isUpper c.

(** [s.substring(0, n)]: a negative [n] is 0. *)
Definition substring0 (n : Z) (s : string) : string :=
  str (firstn (Z.to_nat n) (chars s)).

(** [s.replace(/\s+$/, '')]. *)
Definition trimEnd (s : string) : string :=
  str (rev (dropWhile isSpace (rev (chars s)))).

End Js.

(* ================================================================== *)
(** * The built-in [Date] *)
(* ================================================================== *)

Module JsDate.
Import Js.

Definition msPerDay : Z := 86400000.
Definition maxTime : Z := 8640000000000000.

Definition isLeap (y : Z) : bool :=
  ((y mod 4 =? 0) && negb (y mod 100 =? 0)) || (y mod 400 =? 0).

(** Days of month [m] (1 to 12) of year [y]. *)
Definition daysInMonth (y m : Z) : Z :=
  if m =? 2 then (if isLeap y then 29 else 28)
  else if (m =? 4) || (m =? 6) || (m =? 9) || (m =? 11) then 30
  else 31.

(** [d] is a day of month [m] of year [y] of the proleptic Gregorian
    calendar. *)
Definition validYMD (y m d : Z) : bool :=
  (1 <=? m) && (m <=? 12) && (1 <=? d) && (d <=? daysInMonth y m).

(** Day of the 400-year era of day [d] of month [m], in year [yoe] of
    the era; eras start on 1 March. *)
Definition doeOf (yoe m d : Z) : Z :=
  let mp := (m + 9) mod 12 in
  let doy := (153 * mp + 2) / 5 + d - 1 in
  yoe * 365 + yoe / 4 - yoe / 100 + doy.

(** Day number of a civil date, day 0 being 1 January 1970. *)
Definition daysFromCivil (y m d : Z) : Z :=
  let y' := if m <=? 2 then y - 1 else y in
  (y' / 400) * 146097 + doeOf (y' mod 400) m d - 719468.

(** The civil date, within its era, of a day of the era. *)
Definition civilOfDoe (doe : Z) : Z * Z * Z :=
  let yoe := (doe - doe / 1460 + doe / 36524 - doe / 146096) / 365 in
  let doy := doe - (365 * yoe + yoe / 4 - yoe / 100) in
  let mp := (5 * doy + 2) / 153 in
  let d := doy - (153 * mp + 2) / 5 + 1 in
  let m := if mp <? 10 then mp + 3 else mp - 9 in
  (if m <=? 2 then yoe + 1 else yoe, m, d).

(** The civil date of a day number. *)
Definition civilFromDays (z : Z) : Z * Z * Z :=
  let z' := z + 719468 in
  let '(y, m, d) := civilOfDoe (z' mod 146097) in
  (y + (z' / 146097) * 400, m, d).

(** ECMAScript [MakeDay]: the month is 0-based and neither it nor the
    date need be in range. *)
Definition makeDay (year month date : Z) : Z :=
  daysFromCivil (year + month / 12) (month mod 12 + 1) 1 + date - 1.

(** ECMAScript [TimeClip]. *)
Definition timeClip (t : Z) : option Z :=
  if Z.abs t <=? maxTime then Some t else None.

(** A [Date] object: its time value, or [None] for [Invalid Date]. *)
Definition Date := option Z.

(** The host's time zone, as ECMAScript's [LocalTZA(t, isUTC)]: the
    offset of local time from UTC, in milliseconds, at the UTC time [t]
    when [isUTC], and the offset at which the local time [t] is read
    otherwise. *)
Definition Zone := Z -> bool -> Z.

(** ECMAScript [LocalTime] and [UTC]. *)
Definition LocalTime (tza : Zone) (t : Z) : Z := t + tza t true.
Definition UTC (tza : Zone) (t : Z) : Z := t - tza t false.

(** The civil date, in UTC, of a time value. *)
Definition civilOf (t : Z) : Z * Z * Z := civilFromDays (t / msPerDay).

(** The getters read the date in local time. *)
Definition getFullYear (tza : Zone) (dt : Date) : JsNum :=
  match dt with
  | Some t => Some (fst (fst (civilOf (LocalTime tza t))))
  | None => None
  end.
(** 0-based. *)
Definition getMonth (tza : Zone) (dt : Date) : JsNum :=
  match dt with
  | Some t => Some (snd (fst (civilOf (LocalTime tza t))) - 1)
  | None => None
  end.
Definition getDate (tza : Zone) (dt : Date) : JsNum :=
  match dt with
  | Some t => Some (snd (civilOf (LocalTime tza t)))
  | None => None
  end.
Definition getTime (dt : Date) : JsNum := dt.
Definition isInvalid (dt : Date) : bool :=
  match dt with Some _ => false | None => true end.

(** [new Date(year, month, date)], midnight of that day in local
    time; a year from 0 to 99 means 1900 + year. *)
Definition ofComponents (tza : Zone) (year month date : JsNum) : Date :=
  match year, month, date with
  | Some y, Some m, Some d =>
      let y' := if (0 <=? y) && (y <=? 99) then 1900 + y else y in
      timeClip (UTC tza (makeDay y' m d * msPerDay))
  | _, _, _ => None
  end.

(** [dt.setMonth(month)], as the new value of [dt]: the month of the
    local date is replaced. *)
Definition setMonth (tza : Zone) (dt : Date) (month : JsNum) : Date :=
  match dt, month with
  | Some t, Some m =>
      let local := LocalTime tza t in
      let '(y, _, d) := civilOf local in
      timeClip (UTC tza (makeDay y m d * msPerDay + local mod msPerDay))
  | _, _ => None
  end.

Definition allDigits (l : list ascii) : bool := forallb isDigit l.

(** The fields of a string of the shape [YYYY-MM-DD]. *)
Definition isoFields (l : list ascii) : option (Z * Z * Z) :=
  match l with
  | [y1; y2; y3; y4; s1; m1; m2; s2; d1; d2] =>
      if allDigits [y1; y2; y3; y4; m1; m2; d1; d2] && isDash s1 && isDash s2
      then Some (decimalValue [y1; y2; y3; y4], decimalValue [m1; m2],
                 decimalValue [d1; d2])
      else None
  | _ => None
  end.

(** The calendar date that a string spells in the ISO date-only form,
    when it spells one. *)
Definition isoCalendarDate (l : list ascii) : option (Z * Z * Z) :=
  match isoFields l with
  | Some (y, m, d) => if validYMD y m d then Some (y, m, d) else None
  | None => None
  end.

(** The same for the date-time form [YYYY-MM-DDT00:00:00]. *)
Definition isoMidnight (l : list ascii) : option (Z * Z * Z) :=
  match stripPrefix (chars "T00:00:00") (skipn 10 l) with
  | Some [] => isoCalendarDate (firstn 10 l)
  | _ => None
  end.

(** [new Date(s)]: fixed on valid ISO calendar dates, and the
    implementation's own parser [engine] elsewhere.  The date-only form
    is midnight in UTC; the date-time form, which has no offset, is
    midnight in local time. *)
Definition parse (tza : Zone) (engine : string -> option Z) (s : string)
  : Date :=
  let l := chars s in
  match isoCalendarDate l with
  | Some (y, m, d) => timeClip (makeDay y (m - 1) d * msPerDay)
  | None =>
      match isoMidnight l with
      | Some (y, m, d) => timeClip (UTC tza (makeDay y (m - 1) d * msPerDay))
      | None => match engine s with
                | Some t => timeClip t
                | None => None
                end
      end
  end.

(** [dt.toISOString()], which throws on an invalid date ([None]); the
    string is the date and time in UTC.  A
    year from 0 to 9999 has four digits, any other year a sign and six
    digits. *)
Definition toISOString (dt : Date) : option string :=
  match dt with
  | None => None
  | Some t =>
      let '(y, m, d) := civilOf t in
      let ms := t mod msPerDay in
      let year :=
        if (0 <=? y) && (y <=? 9999) then padStart 4 (intToString y)
        else (if y <? 0 then "-" else "+") +:+
             padStart 6 (intToString (Z.abs y)) in
      Some (year +:+ "-" +:+ padStart2 (intToString m) +:+ "-" +:+
            padStart2 (intToString d) +:+ "T" +:+
            padStart2 (intToString (ms / 3600000)) +:+ ":" +:+
            padStart2 (intToString ((ms / 60000) mod 60)) +:+ ":" +:+
            padStart2 (intToString ((ms / 1000) mod 60)) +:+ "." +:+
            padStart 3 (intToString (ms mod 1000)) +:+ "Z")
  end.

End JsDate.

(* ================================================================== *)
(** * The environment the code reads *)
(* ================================================================== *)

Record Env := {
  (** The implementation-defined part of [Date.parse]. *)
  engineParse : string -> option Z;
  (** The time zone of the host. *)
  localTZA : JsDate.Zone;
  (** [Array.prototype.sort] where the order is the implementation's
      own: under a comparator that is not consistent. *)
  engineSort : forall A : Type, (A -> A -> Z) -> list A -> list A;
  (** [new Date().getFullYear()]. *)
  nowYear : Z;
  (** [ConfigUtility.shouldForceTextBelow()], the stored setting. *)
  shouldForceTextBelow : bool;
  (** The globals [tempForceTextBelow] and [searchTempForceTextBelow]. *)
  tempForceTextBelow : bool;
  searchTempForceTextBelow : bool
}.

(** [new Date(s)]. *)
Definition newDate (env : Env) (s : string) : JsDate.Date :=
  JsDate.parse (localTZA env) (engineParse env) s.

(** [roadmapYear || new Date().getFullYear()]. *)
Definition yearOrNow (env : Env) (roadmapYear : option Z) : Z :=
  match roadmapYear with
  | Some y => if y =? 0 then nowYear env else y
  | None => nowYear env
  end.

(** What a call does: it returns a value or throws. *)
Inductive Outcome (A : Type) : Type :=
| Returns (a : A)
| Throws.
Arguments Returns {A} a.
Arguments Throws {A}.

(* ================================================================== *)
(** * ConfigUtility *)
(* ================================================================== *)

Module ConfigUtility.
Import Js.

Definition MAX_COLUMNS : Z := 120.
Definition POSITION_LIMIT : Z := 109.
Definition COLUMNS_PER_MONTH : Z := 10.

(** [TEXT_BOX_WIDTHS], its numeric keys. *)
Definition TEXT_BOX_WIDTHS : gmap Z Z :=
  list_to_map [(1, 16); (2, 26); (3, 38); (4, 50); (5, 62); (6, 74); (7, 85)].
Definition BASE_MULTIPLIER : Z := 12.

Definition NAMES : list string :=
  ["JAN"; "FEB"; "MAR"; "APR"; "MAY"; "JUN";
   "JUL"; "AUG"; "SEP"; "OCT"; "NOV"; "DEC"].

Definition FULL_NAMES : list string :=
  ["JANUARY"; "FEBRUARY"; "MARCH"; "APRIL"; "MAY"; "JUNE"; "JULY";
   "AUGUST"; "SEPTEMBER"; "OCTOBER"; "NOVEMBER"; "DECEMBER"].

Definition GRID_POSITIONS : gmap string Z :=
  list_to_map
    [("JAN", 1); ("JANUARY", 1); ("FEB", 11); ("FEBRUARY", 11);
     ("MAR", 21); ("MARCH", 21); ("APR", 31); ("APRIL", 31); ("MAY", 41);
     ("JUN", 51); ("JUNE", 51); ("JUL", 61); ("JULY", 61);
     ("AUG", 71); ("AUGUST", 71); ("SEP", 81); ("SEPTEMBER", 81);
     ("OCT", 91); ("OCTOBER", 91); ("NOV", 101); ("NOVEMBER", 101);
     ("DEC", 111); ("DECEMBER", 111)].

(** [v || dflt] on a looked-up number: [undefined] and 0 are falsy. *)
Definition orNum (v : option Z) (dflt : Z) : Z :=
  match v with
  | Some x => if x =? 0 then dflt else x
  | None => dflt
  end.

Definition calculateTextBoxWidth (totalItems : Z) : Z :=
  if totalItems <=? 7
  then orNum (TEXT_BOX_WIDTHS !! totalItems) (orNum (TEXT_BOX_WIDTHS !! 1) 0)
  else orNum (TEXT_BOX_WIDTHS !! 7) 0 + (totalItems - 7) * BASE_MULTIPLIER.

Definition exceedsMaxGrid (gridPosition : Z) : bool :=
  MAX_COLUMNS <? gridPosition.

Definition getMaxGrid : Z := MAX_COLUMNS.

Definition getMonthGridPosition (month : string) : Z :=
  orNum (GRID_POSITIONS !! toUpperCase month) 1.

Definition getAllMonthNames : list string := NAMES.

Definition ZOOM_THRESHOLD : Z := 75.

Definition canZoom (width : Z) : bool := width <? ZOOM_THRESHOLD.

Definition shouldPositionBelow (storyWidth textBoxWidth totalItems : Z)
  : bool :=
  (POSITION_LIMIT <? storyWidth + textBoxWidth) || (3 <=? totalItems).

(** [MONTHS.NAMES[index] || 'JAN']. *)
Definition getMonthName (index : Z) : string :=
  if index <? 0 then "JAN"
  else match truthy (NAMES !! Z.to_nat index) with
       | Some name => name
       | None => "JAN"
       end.

(** [localStorage] is its keys and values, or [None] where there is
    none; reading and writing it do not throw. *)
Definition shouldSortStories (localStorage : option (gmap string string))
  : bool :=
  match localStorage with
  | Some items =>
      match items !! "roadmap-sort-stories" with
      | Some stored => String.eqb stored "true"
      | None => false
      end
  | None => false
  end.

(** [setSortStories(enabled)], as the new state of [localStorage]. *)
Definition setSortStories (localStorage : option (gmap string string))
           (enabled : bool) : option (gmap string string) :=
  match localStorage with
  | Some items =>
      Some (<["roadmap-sort-stories" :=
              if enabled then "true" else "false"]> items)
  | None => None
  end.

End ConfigUtility.

(* ================================================================== *)
(** * DateUtility *)
(* ================================================================== *)

Module DateUtility.
Import Js.

Definition monthNames : list string :=
  ["JAN"; "FEB"; "MAR"; "APR"; "MAY"; "JUN";
   "JUL"; "AUG"; "SEP"; "OCT"; "NOV"; "DEC"].
Definition fullMonthNames : list string :=
  ["JANUARY"; "FEBRUARY"; "MARCH"; "APRIL"; "MAY"; "JUNE"; "JULY";
   "AUGUST"; "SEPTEMBER"; "OCTOBER"; "NOVEMBER"; "DECEMBER"].

(** [l[i]] for a list of strings; [None] is [undefined]. *)
Definition nthName (l : list string) (i : JsNum) : option string :=
  match i with
  | Some z => if 0 <=? z then l !! Z.to_nat z else None
  | None => None
  end.

(** A run of one or two digits that no digit follows, and what comes
    after it. *)
Definition digits12 (l : list ascii) : option (list ascii * list ascii) :=
  let ds := takeWhile isDigit l in
  if (1 <=? Z.of_nat (length ds)) && (Z.of_nat (length ds) <=? 2)
  then Some (ds, dropWhile isDigit l) else None.

(** The optional year [([\/\-]\d{2,4})?$] of a European date. *)
Definition yearTail (l : list ascii) : bool :=
  match l with
  | [] => true
  | c :: r =>
      isSep c && forallb isDigit r &&
      (2 <=? Z.of_nat (length r)) && (Z.of_nat (length r) <=? 4)
  end.

Definition europeanList (yearOptional : bool) (l : list ascii) : bool :=
  match digits12 l with
  | Some (_, c :: r) =>
      isSep c &&
      match digits12 r with
      | Some (_, tail) =>
          yearTail tail &&
          (yearOptional || match tail with [] => false | _ => true end)
      | None => false
      end
  | _ => false
  end.

(** [EUROPEAN_DATE_REGEX]: [/^\d{1,2}[\/\-]\d{1,2}([\/\-]\d{2,4})?$/]. *)
Definition EUROPEAN_DATE_REGEX (s : string) : bool :=
  europeanList true (chars s).

(** The same with the year required:
    [/^\d{1,2}[\/\-]\d{1,2}[\/\-]\d{2,4}$/]. *)
Definition europeanWithYearRegex (s : string) : bool :=
  europeanList false (chars s).

(** [ISO_DATE_REGEX]: [/^\d{4}-\d{2}-\d{2}$/]. *)
Definition ISO_DATE_REGEX (s : string) : bool :=
  match JsDate.isoFields (chars s) with Some _ => true | None => false end.

(** The alternatives of the month patterns of [parseTextValue], in
    the order of the regular expression. *)
Definition monthAlternatives : list string :=
  ["JAN"; "FEB"; "MAR"; "APR"; "MAY"; "JUN"; "JUL"; "AUG"; "SEP"; "OCT";
   "NOV"; "DEC"; "JANUARY"; "FEBRUARY"; "MARCH"; "APRIL"; "JUNE"; "JULY";
   "AUGUST"; "SEPTEMBER"; "OCTOBER"; "NOVEMBER"; "DECEMBER"].

(** A prefix matched without regard to case (the [i] flag): the
    matched text and the rest. *)
Fixpoint stripPrefixCI (p l : list ascii)
  : option (list ascii * list ascii) :=
  match p, l with
  | [], _ => Some ([], l)
  | a :: p', b :: l' =>
      if Ascii.eqb (upperChar a) (upperChar b)
      then match stripPrefixCI p' l' with
           | Some (m, r) => Some (b :: m, r)
           | None => None
           end
      else None
  | _ :: _, [] => None
  end.

(** What is left after the optional [(ST|ND|RD|TH)?]. *)
Definition afterOrdinal (l : list ascii) : list ascii :=
  let try (suffix : string) :=
    match stripPrefixCI (chars suffix) l with
    | Some (_, r) => Some r
    | None => None
    end in
  match try "ST" with
  | Some r => r
  | None =>
      match try "ND" with
      | Some r => r
      | None =>
          match try "RD" with
          | Some r => r
          | None => match try "TH" with Some r => r | None => l end
          end
      end
  end.

Fixpoint firstSome {A B} (f : A -> option B) (l : list A) : option B :=
  match l with
  | [] => None
  | x :: r => match f x with Some y => Some y | None => firstSome f r end
  end.

(** [monthDayPattern]: the month name and the day digits of
    [/^(JAN|...|DECEMBER)\s*(\d{1,2})(ST|ND|RD|TH)?\s*$/i]. *)
Definition monthDayPattern (l : list ascii) : option (string * string) :=
  firstSome
    (fun alt =>
       match stripPrefixCI (chars alt) l with
       | Some (name, r) =>
           match digits12 (dropWhile isSpace r) with
           | Some (ds, r') =>
               if forallb isSpace (afterOrdinal r')
               then Some (str name, str ds) else None
           | None => None
           end
       | None => None
       end)
    monthAlternatives.

(** [dayMonthPattern]: the day digits and the month name of
    [/^(\d{1,2})(ST|ND|RD|TH)?\s+(JAN|...|DECEMBER)\s*$/i]. *)
Definition dayMonthPattern (l : list ascii) : option (string * string) :=
  match digits12 l with
  | Some (ds, r) =>
      match afterOrdinal r with
      | c :: r' =>
          if isSpace c then
            firstSome
              (fun alt =>
                 match stripPrefixCI (chars alt) (dropWhile isSpace r') with
                 | Some (name, rest) =>
                     if forallb isSpace rest
                     then Some (str ds, str name) else None
                 | None => None
                 end)
              monthAlternatives
          else None
      | [] => None
      end
  | None => None
  end.

(** The two-digit years: always the 2000s. *)
Definition twoDigitYear (year : string) : string :=
  if (String.length year =? 2)%nat
  then numToString (addN (Some 2000) (parseInt year))
  else year.

Definition convertEuropeanToISO (env : Env) (dateStr : string)
           (roadmapYear : option Z) : string :=
  if String.eqb dateStr EmptyString then dateStr else
  let parts :=
    if includesChar "/" dateStr then Some (split isSlash dateStr)
    else if includesChar "-" dateStr then Some (split isDash dateStr)
    else None in
  match parts with
  | Some (p0 :: p1 :: rest) =>
      let day := parseInt p0 in
      let month := parseInt p1 in
      let year :=
        match truthy (head rest) with
        | Some y => y
        | None => intToString (yearOrNow env roadmapYear)
        end in
      let '(day, month) :=
        if gtN month (Some 12) && leN day (Some 12)
        then (month, day) else (day, month) in
      if ltN day (Some 1) || gtN day (Some 31) ||
         ltN month (Some 1) || gtN month (Some 12)
      then dateStr
      else
        let dayStr := padStart2 (numToString day) in
        let monthStr := padStart2 (numToString month) in
        let year := twoDigitYear year in
        let isoDate := year +:+ "-" +:+ monthStr +:+ "-" +:+ dayStr in
        if JsDate.isInvalid (newDate env isoDate) then dateStr else isoDate
  | _ => dateStr
  end.

(** [null] is [None]; the function never returns an invalid date. *)
Definition parseDateSafe (env : Env) (dateStr : string) : JsDate.Date :=
  if String.eqb dateStr EmptyString then None
  else if EUROPEAN_DATE_REGEX dateStr then
    let isoDate := convertEuropeanToISO env dateStr None in
    if String.eqb isoDate EmptyString then None else newDate env isoDate
  else if ISO_DATE_REGEX dateStr then newDate env (dateStr +:+ "T00:00:00")
  else None.

(** The month index that a regular-expression capture names. *)
Definition monthIndexOf (monthName : string) : Z :=
  let i := indexOf monthName monthNames in
  if i =? -1 then indexOf monthName fullMonthNames else i.

(** The branch of [parseTextValue] for the [DD/MM/YY] texts. *)
Definition europeanTextValue (env : Env) (value : string)
           (currentYear : Z) : string :=
  match split isSep value with
  | p0 :: p1 :: rest =>
      let day := parseInt p0 in
      let month := parseInt p1 in
      let year :=
        match truthy (head rest) with
        | Some y => parseInt y
        | None => Some currentYear
        end in
      let '(day, month) :=
        if gtN month (Some 12) && leN day (Some 12)
        then (month, day) else (day, month) in
      if ltN day (Some 1) || gtN day (Some 31) ||
         ltN month (Some 1) || gtN month (Some 12)
      then EmptyString
      else
        let year := if ltN year (Some 100) then addN (Some 2000) year
                    else year in
        let dayStr := padStart2 (numToString day) in
        let monthStr := padStart2 (numToString month) in
        let result :=
          numToString year +:+ "-" +:+ monthStr +:+ "-" +:+ dayStr in
        let testDate := newDate env result in
        match JsDate.getFullYear (localTZA env) testDate,
              JsDate.getMonth (localTZA env) testDate,
              JsDate.getDate (localTZA env) testDate, year, month, day with
        | Some ty, Some tm, Some td, Some y, Some m, Some d =>
            if (ty =? y) && (tm =? m - 1) && (td =? d)
            then result else EmptyString
        | _, _, _, _, _, _ => EmptyString
        end
  | _ => EmptyString
  end.

Definition parseTextValue (env : Env) (value : string)
           (isEndDateField : bool) (roadmapYear : option Z) : string :=
  if String.eqb value EmptyString then EmptyString else
  let currentYear := yearOrNow env roadmapYear in
  let upperValue := trim (toUpperCase value) in
  let '(monthIndex, dayValue) :=
    match monthDayPattern (chars upperValue) with
    | Some (monthName, day) => (monthIndexOf monthName, parseInt day)
    | None => (-1, None)
    end in
  let '(monthIndex, dayValue) :=
    if monthIndex =? -1 then
      match dayMonthPattern (chars upperValue) with
      | Some (day, monthName) => (monthIndexOf monthName, parseInt day)
      | None => (monthIndex, dayValue)
      end
    else (monthIndex, dayValue) in
  let monthIndex :=
    if monthIndex =? -1 then monthIndexOf upperValue else monthIndex in
  if negb (monthIndex =? -1) then
    let finalDay :=
      if truthyNum dayValue && geN dayValue (Some 1) &&
         leN dayValue (Some 31)
      then dayValue
      else if isEndDateField
           then JsDate.getDate (localTZA env)
                  (JsDate.ofComponents (localTZA env) (Some currentYear)
                                       (Some (monthIndex + 1)) (Some 0))
           else Some 1 in
    intToString currentYear +:+ "-" +:+
    padStart2 (intToString (monthIndex + 1)) +:+ "-" +:+
    padStart2 (numToString finalDay)
  else if EUROPEAN_DATE_REGEX value
       then europeanTextValue env value currentYear
  else EmptyString.

(** [undefined] is [None]. *)
Definition getMonthName (monthNumber : JsNum) : option string :=
  if ltN monthNumber (Some 1) || gtN monthNumber (Some 12) then Some "JAN"
  else nthName monthNames (addN monthNumber (Some (-1))).

Definition positionWithinMonth (dayOfMonth : Z) : Z :=
  if (1 <=? dayOfMonth) && (dayOfMonth <=? 3) then 0
  else if (4 <=? dayOfMonth) && (dayOfMonth <=? 10) then 3
  else if (11 <=? dayOfMonth) && (dayOfMonth <=? 20) then 6
  else if (21 <=? dayOfMonth) && (dayOfMonth <=? 25) then 9
  else 9.

Definition dateToGrid (env : Env) (dateStr : string)
           (monthToGridCallback : string -> Z) : Z :=
  match newDate env dateStr with
  | None => 1
  | Some t =>
      let date := Some t in
      match JsDate.getDate (localTZA env) date,
            getMonthName
              (addN (JsDate.getMonth (localTZA env) date) (Some 1)) with
      | Some dayOfMonth, Some name =>
          monthToGridCallback name + positionWithinMonth dayOfMonth
      | _, _ => 1
      end
  end.

Definition getGridPosition (env : Env) (value : option string)
           (monthToGridCallback : string -> Z) : Z :=
  match truthy value with
  | None => 1
  | Some v =>
      if ISO_DATE_REGEX v then dateToGrid env v monthToGridCallback
      else if EUROPEAN_DATE_REGEX v
      then dateToGrid env (convertEuropeanToISO env v None)
                      monthToGridCallback
      else monthToGridCallback v
  end.

Definition isEndOfMonth (env : Env) (dateStr : string) : bool :=
  match JsDate.getDate (localTZA env) (parseDateSafe env dateStr) with
  | Some dayOfMonth => 26 <=? dayOfMonth
  | None => false
  end.

Definition isStartOfMonth (env : Env) (dateStr : string) : bool :=
  match JsDate.getDate (localTZA env) (parseDateSafe env dateStr) with
  | Some dayOfMonth => (1 <=? dayOfMonth) && (dayOfMonth <=? 3)
  | None => false
  end.

Definition isEndOfPreviousMonth (env : Env) (dateStr : string) : bool :=
  match JsDate.getDate (localTZA env) (parseDateSafe env dateStr) with
  | Some dayOfMonth => (1 <=? dayOfMonth) && (dayOfMonth <=? 3)
  | None => false
  end.

(** [null] and [undefined] are [None]. *)
Definition getPreviousMonthName (env : Env) (dateStr : string)
  : option string :=
  match parseDateSafe env dateStr with
  | None => None
  | Some t =>
      let date := Some t in
      let prevMonth :=
        JsDate.setMonth
          (localTZA env) date
          (addN (JsDate.getMonth (localTZA env) date) (Some (-1))) in
      getMonthName (addN (JsDate.getMonth (localTZA env) prevMonth) (Some 1))
  end.

(** The sign of [compareDates(dateA, dateB)] is that of the result. *)
Definition compareDates (env : Env) (dateA dateB : option string) : Z :=
  let parsed (d : option string) :=
    match d with Some s => parseDateSafe env s | None => None end in
  match parsed dateA, parsed dateB with
  | None, _ => 1
  | Some _, None => -1
  | Some a, Some b => a - b
  end.

Definition formatDateEuropean (env : Env) (dateStr : string)
           (roadmapYear : option Z) : string :=
  if String.eqb dateStr EmptyString then dateStr else
  let parts :=
    if includesChar "/" dateStr then Some (split isSlash dateStr)
    else if includesChar "-" dateStr then Some (split isDash dateStr)
    else None in
  match parts with
  | Some (p0 :: p1 :: rest) =>
      let day := padStart2 p0 in
      let month := padStart2 p1 in
      let year :=
        match truthy (head rest) with
        | Some y => y
        | None => intToString (yearOrNow env roadmapYear)
        end in
      let year := twoDigitYear year in
      day +:+ "/" +:+ month +:+ "/" +:+ sliceLast 2 year
  | _ => dateStr
  end.

Definition formatDateToText (env : Env) (dateValue : string) : string :=
  if String.eqb dateValue EmptyString then EmptyString else
  let date := newDate env (dateValue +:+ "T00:00:00") in
  let day := padStart2 (numToString (JsDate.getDate (localTZA env) date)) in
  let month :=
    padStart2
      (numToString (addN (JsDate.getMonth (localTZA env) date) (Some 1))) in
  let year :=
    sliceLast 2 (numToString (JsDate.getFullYear (localTZA env) date)) in
  day +:+ "/" +:+ month +:+ "/" +:+ year.

(** The dates may be [undefined], which is [None]. *)
Definition isEarlyDelivery (env : Env) (prevEndDate newEndDate : option string)
  : bool :=
  let parsed (d : option string) :=
    match d with Some s => parseDateSafe env s | None => None end in
  match parsed prevEndDate, parsed newEndDate with
  | Some prevDate, Some newDate => newDate <? prevDate
  | _, _ => false
  end.

(** The object that [getDatePositionType] returns; a [dayOfMonth]
    that is [null] is [None]. *)
Record DatePosition := {
  type : string;
  dayOfMonth : JsNum
}.

Definition getDatePositionType (env : Env) (dateStr : string)
  : DatePosition :=
  match parseDateSafe env dateStr with
  | None => {| type := "mid"; dayOfMonth := None |}
  | Some t =>
      let day := JsDate.getDate (localTZA env) (Some t) in
      if isStartOfMonth env dateStr
      then {| type := "start"; dayOfMonth := day |}
      else if isEndOfPreviousMonth env dateStr
      then {| type := "end-prev"; dayOfMonth := day |}
      else if isEndOfMonth env dateStr
      then {| type := "end"; dayOfMonth := day |}
      else {| type := "mid"; dayOfMonth := day |}
  end.

Definition isT (c : ascii) : bool := code c =? 84.

(** [date.toISOString().split('T')[0]] for a valid date. *)
Definition isoDatePart (date : JsDate.Date) : option string :=
  match JsDate.toISOString date with
  | Some iso => head (split isT iso)
  | None => None
  end.

(** [days] that is not an integer is [None]; [null] is [None]. *)
Definition addDays (env : Env) (dateStr : string) (days : JsNum)
  : option string :=
  match parseDateSafe env dateStr, days with
  | Some t, Some n =>
      let adjustedDate := JsDate.timeClip (t + n * 24 * 60 * 60 * 1000) in
      if JsDate.isInvalid adjustedDate then None
      else isoDatePart adjustedDate
  | _, _ => None
  end.

(** [null] and an invalid date are [None], in the argument and in the
    result. *)
Definition dateToISOString (date : JsDate.Date) : option string :=
  if JsDate.isInvalid date then None else isoDatePart date.

(** [/^\d{1,2}[\/\-]M[\/\-]/] where [M] is one of [months]: one or two
    digits, a separator, the month and a separator. *)
Definition dayThenMonth (months : list string) (l : list ascii) : bool :=
  let monthSlot (r : list ascii) : bool :=
    match r with
    | c :: r1 =>
        isSep c &&
        existsb (fun month =>
                   match stripPrefix (chars month) r1 with
                   | Some (c2 :: _) => isSep c2
                   | _ => false
                   end) months
    | [] => false
    end in
  match l with
  | d1 :: r1 =>
      isDigit d1 &&
      (match r1 with
       | d2 :: r2 => isDigit d2 && monthSlot r2
       | [] => false
       end || monthSlot r1)
  | [] => false
  end.

Definition isJanuary (env : Env) (dateStr : string) : bool :=
  if startsWith "2025-01" dateStr then true
  else if dayThenMonth ["01"; "1"] (chars dateStr) then true
  else match JsDate.getMonth (localTZA env) (parseDateSafe env dateStr) with
       | Some month => month =? 0
       | None => false
       end.

Definition isOctober (env : Env) (dateStr : string) : bool :=
  if startsWith "2025-10" dateStr then true
  else if dayThenMonth ["10"] (chars dateStr) then true
  else match JsDate.getMonth (localTZA env) (parseDateSafe env dateStr) with
       | Some month => month =? 9
       | None => false
       end.

(** [undefined] is [None]. *)
Definition getMonthFromDate (env : Env) (dateStr : string) : option string :=
  match parseDateSafe env dateStr with
  | None => Some "JAN"
  | Some t =>
      getMonthName (addN (JsDate.getMonth (localTZA env) (Some t)) (Some 1))
  end.

Definition convertMonthToStartDate (env : Env) (monthName : string)
           (roadmapYear : option Z) : string :=
  if String.eqb monthName EmptyString then monthName else
  let currentYear := yearOrNow env roadmapYear in
  let yearShort := sliceLast 2 (intToString currentYear) in
  let monthMap : gmap string string :=
    list_to_map
      [("JAN", "01/01/" +:+ yearShort);
       ("JANUARY", "01/01/" +:+ yearShort);
       ("FEB", "01/02/" +:+ yearShort);
       ("FEBRUARY", "01/02/" +:+ yearShort);
       ("MAR", "01/03/" +:+ yearShort);
       ("MARCH", "01/03/" +:+ yearShort);
       ("APR", "01/04/" +:+ yearShort);
       ("APRIL", "01/04/" +:+ yearShort);
       ("MAY", "01/05/" +:+ yearShort);
       ("JUN", "01/06/" +:+ yearShort);
       ("JUNE", "01/06/" +:+ yearShort);
       ("JUL", "01/07/" +:+ yearShort);
       ("JULY", "01/07/" +:+ yearShort);
       ("AUG", "01/08/" +:+ yearShort);
       ("AUGUST", "01/08/" +:+ yearShort);
       ("SEP", "01/09/" +:+ yearShort);
       ("SEPTEMBER", "01/09/" +:+ yearShort);
       ("OCT", "01/10/" +:+ yearShort);
       ("OCTOBER", "01/10/" +:+ yearShort);
       ("NOV", "01/11/" +:+ yearShort);
       ("NOVEMBER", "01/11/" +:+ yearShort);
       ("DEC", "01/12/" +:+ yearShort);
       ("DECEMBER", "01/12/" +:+ yearShort)] in
  let upperMonth := toUpperCase monthName in
  match truthy (monthMap !! upperMonth) with
  | Some date => date
  | None => monthName
  end.

Definition convertMonthToEndDate (env : Env) (monthName : string)
           (roadmapYear : option Z) : string :=
  if String.eqb monthName EmptyString then monthName else
  let currentYear := yearOrNow env roadmapYear in
  let yearShort := sliceLast 2 (intToString currentYear) in
  let isLeapYear :=
    ((Z.rem currentYear 4 =? 0) && negb (Z.rem currentYear 100 =? 0)) ||
    (Z.rem currentYear 400 =? 0) in
  let febDays := if isLeapYear then 29 else 28 in
  let monthMap : gmap string string :=
    list_to_map
      [("JAN", "31/01/" +:+ yearShort);
       ("JANUARY", "31/01/" +:+ yearShort);
       ("FEB", intToString febDays +:+ "/02/" +:+ yearShort);
       ("FEBRUARY", intToString febDays +:+ "/02/" +:+ yearShort);
       ("MAR", "31/03/" +:+ yearShort);
       ("MARCH", "31/03/" +:+ yearShort);
       ("APR", "30/04/" +:+ yearShort);
       ("APRIL", "30/04/" +:+ yearShort);
       ("MAY", "31/05/" +:+ yearShort);
       ("JUN", "30/06/" +:+ yearShort);
       ("JUNE", "30/06/" +:+ yearShort);
       ("JUL", "31/07/" +:+ yearShort);
       ("JULY", "31/07/" +:+ yearShort);
       ("AUG", "31/08/" +:+ yearShort);
       ("AUGUST", "31/08/" +:+ yearShort);
       ("SEP", "30/09/" +:+ yearShort);
       ("SEPTEMBER", "30/09/" +:+ yearShort);
       ("OCT", "31/10/" +:+ yearShort);
       ("OCTOBER", "31/10/" +:+ yearShort);
       ("NOV", "30/11/" +:+ yearShort);
       ("NOVEMBER", "30/11/" +:+ yearShort);
       ("DEC", "31/12/" +:+ yearShort);
       ("DECEMBER", "31/12/" +:+ yearShort)] in
  let upperMonth := toUpperCase monthName in
  match truthy (monthMap !! upperMonth) with
  | Some date => date
  | None => monthName
  end.

Definition parseEuropeanDateForTimeline (env : Env) (dateStr : string)
  : JsDate.Date :=
  if String.eqb dateStr EmptyString then Some 0 else
  match split isSlash dateStr with
  | [p0; p1; p2] =>
      let day := parseInt p0 in
      let month := addN (parseInt p1) (Some (-1)) in
      let year := parseInt p2 in
      let year := if ltN year (Some 100) then addN year (Some 2000)
                  else year in
      JsDate.ofComponents (localTZA env) year month day
  | _ => newDate env dateStr
  end.

End DateUtility.

(* ================================================================== *)
(** * UIUtility *)
(* ================================================================== *)

Module UIUtility.
Import Js.

Definition LIME_BACKGROUND : string := "#f4ffdd".
Definition BROWN_BACKGROUND : string := "#f5e6d3".

Definition getAlternatingBackgroundColor (visualPosition : Z) : string :=
  if Z.rem visualPosition 2 =? 0 then LIME_BACKGROUND else BROWN_BACKGROUND.

(** [text.replace(/[^a-zA-Z0-9]/g, '-')]. *)
Definition sanitizeForCSS (text : string) : string :=
  if String.eqb text EmptyString then EmptyString
  else str (map (fun c => if isAlnum c then c else "-"%char) (chars text)).

Definition generateStoryId (epicName : string) (storyIndex : Z) : string :=
  "story-" +:+ sanitizeForCSS epicName +:+ "-" +:+ intToString storyIndex.

(** The class [[\r\n\t\f\v]]. *)
Definition isBreak (c : ascii) : bool := (9 <=? code c) && (code c <=? 13).

(** [s.replace(/\s+/g, ' ')]: [inRun] when the character before is
    white space. *)
Fixpoint collapseSpaces (inRun : bool) (l : list ascii) : list ascii :=
  match l with
  | [] => []
  | c :: r =>
      if isSpace c
      then if inRun then collapseSpaces true r
           else " "%char :: collapseSpaces true r
      else c :: collapseSpaces false r
  end.

Definition cleanWhitespace (text : string) : string :=
  if String.eqb text EmptyString then EmptyString
  else
    str (trimList
           (collapseSpaces false
              (List.filter (fun c => negb (isBreak c)) (chars text)))).

Definition truncateText (text : string) (maxLength : Z) : string :=
  if String.eqb text EmptyString then EmptyString
  else if len text <=? maxLength then text
  else
    let truncated := trimEnd (substring0 (maxLength - 3) text) in
    truncated +:+ "...".

Definition processEpicName (name : string) (numStories : Z) : string :=
  if String.eqb name EmptyString then name else
  let cleanName := cleanWhitespace name in
  if numStories =? 1 then truncateText cleanName 7
  else if numStories =? 2 then truncateText cleanName 14
  else if numStories =? 3 then truncateText cleanName 23
  else if numStories =? 4 then truncateText cleanName 30
  else cleanName.

Definition normalizeMonth (month : option string) : string :=
  match truthy month with
  | Some m => toUpperCase m
  | None => EmptyString
  end.

End UIUtility.

(* ================================================================== *)
(** * RoadmapGenerator *)
(* ================================================================== *)

Module RoadmapGenerator.
Import Js.

(** An entry of [story.roadmapChanges.changes]. *)
Record Change := {
  date : option string;
  prevEndDate : option string;
  newEndDate : option string
}.

(** The fields of a story record that position it. *)
Record Story := {
  startDate : option string;
  startMonth : option string;
  endDate : option string;
  endMonth : option string;
  (** [story.roadmapChanges?.changes]. *)
  changes : option (list Change);
  _originalStartDate : option string;
  _startsInPreviousYear : bool;
  _actualStartYear : JsNum
}.

Record SearchRange := {
  rangeStartDate : option string;
  rangeEndDate : option string
}.

(** The state of a generator: [this.roadmapYear] and
    [this.searchRange]. *)
Record Generator := {
  roadmapYear : Z;
  searchRange : option SearchRange
}.

(** [new RoadmapGenerator(roadmapYear)]. *)
Definition newGenerator (env : Env) (year : option Z) : Generator :=
  {| roadmapYear := yearOrNow env year; searchRange := None |}.

(** The positions that [generateStory] writes into the story bar. *)
Record GridSpan := {
  startGrid : Z;
  endGrid : Z;
  continuesNextYear : bool;
  startsBeforeRange : bool;
  (** The continuation indicator: the month shown ([None] is
      [undefined]), the actual end year and the two characters shown
      for it. *)
  continuation : option (option string * JsNum * string)
}.

Definition convertEuropeanToISO (g : Generator) (env : Env)
           (dateStr : string) : string :=
  DateUtility.convertEuropeanToISO env dateStr (Some (roadmapYear g)).

Definition monthToGrid (month : string) : Z :=
  ConfigUtility.getMonthGridPosition month.

(** [monthToGrid] on a value that may be [undefined] or [null], on
    which it throws. *)
Definition monthToGridOpt (month : option string) : Outcome Z :=
  match month with
  | Some m => Returns (monthToGrid m)
  | None => Throws
  end.

Definition getGridPosition (env : Env) (value : option string) : Z :=
  DateUtility.getGridPosition env value monthToGrid.

Definition dateToGrid (env : Env) (dateStr : string) : Z :=
  DateUtility.dateToGrid env dateStr monthToGrid.

(** The ISO form of a story date, as [shouldDisplayStory] and
    [generateStory] take it. *)
Definition isoOfStoryDate (g : Generator) (env : Env) (d : string)
  : string :=
  if DateUtility.EUROPEAN_DATE_REGEX d then convertEuropeanToISO g env d
  else d.

Definition shouldDisplayStory (g : Generator) (env : Env) (story : Story)
  : bool :=
  if roadmapYear g =? 0 then true else
  let yearOf (d m : option string) : JsNum :=
    match truthy d with
    | Some s =>
        JsDate.getFullYear (localTZA env)
                           (newDate env (isoOfStoryDate g env s))
    | None => match truthy m with
              | Some _ => Some (roadmapYear g)
              | None => None
              end
    end in
  let startYear := yearOf (startDate story) (startMonth story) in
  let endYear := yearOf (endDate story) (endMonth story) in
  match startYear, endYear with
  | Some sy, Some ey => (sy <=? roadmapYear g) && (roadmapYear g <=? ey)
  | Some sy, None => sy <=? roadmapYear g
  | None, Some ey => roadmapYear g <=? ey
  | None, None => true
  end.

(** [monthMap] of [convertStoryDateToISO], in the order of its
    entries. *)
Definition storyMonthMap : list (string * string) :=
  [("jan", "01"); ("january", "01"); ("feb", "02"); ("february", "02");
   ("mar", "03"); ("march", "03"); ("apr", "04"); ("april", "04");
   ("may", "05"); ("jun", "06"); ("june", "06"); ("jul", "07");
   ("july", "07"); ("aug", "08"); ("august", "08"); ("sep", "09");
   ("sept", "09"); ("september", "09"); ("oct", "10"); ("october", "10");
   ("nov", "11"); ("november", "11"); ("dec", "12"); ("december", "12")].

(** [/\d+\/\d+/.test(str)]: a digit, a slash and a digit in a row. *)
Fixpoint digitSlashDigit (l : list ascii) : bool :=
  match l with
  | a :: ((b :: c :: _) as r) =>
      (isDigit a && isSlash b && isDigit c) || digitSlashDigit r
  | _ => false
  end.

(** [str.match(/\d+/)]: the first run of digits. *)
Definition firstDigits (l : list ascii) : option string :=
  match takeWhile isDigit (dropWhile (fun c => negb (isDigit c)) l) with
  | [] => None
  | ds => Some (str ds)
  end.

(** [str.match(/\b\d{2,4}\b/)]: the first run of two to four digits
    that stands between word boundaries. *)
Fixpoint firstYear (prevIsWord : bool) (l : list ascii) : option string :=
  match l with
  | [] => None
  | c :: r =>
      let ds := takeWhile isDigit l in
      let n := Z.of_nat (length ds) in
      if negb prevIsWord && (2 <=? n) && (n <=? 4) &&
         match dropWhile isDigit l with
         | [] => true
         | x :: _ => negb (isWord x)
         end
      then Some (str ds)
      else firstYear (isWord c) r
  end.

(** [year < 100 ? 2000 + year : year]. *)
Definition centuryOf (year : JsNum) : JsNum :=
  if ltN year (Some 100) then addN (Some 2000) year else year.

(** [null] is [None]. *)
Definition convertStoryDateToISO (env : Env) (dateStr : string)
           (defaultYear : Z) : option string :=
  if String.eqb dateStr EmptyString then None else
  let s := trim (toLowerCase dateStr) in
  let currentYear := yearOrNow env (Some defaultYear) in
  if DateUtility.ISO_DATE_REGEX s then Some s else
  let european :=
    if includesChar "/" s && digitSlashDigit (chars s) then
      match split isSlash s with
      | p0 :: p1 :: rest =>
          let day := parseInt p0 in
          let month := parseInt p1 in
          let year :=
            centuryOf (match rest with
                       | p2 :: _ => parseInt p2
                       | [] => Some currentYear
                       end) in
          if geN day (Some 1) && leN day (Some 31) &&
             geN month (Some 1) && leN month (Some 12)
          then Some (numToString year +:+ "-" +:+
                     padStart2 (numToString month) +:+ "-" +:+
                     padStart2 (numToString day))
          else None
      | _ => None
      end
    else None in
  match european with
  | Some iso => Some iso
  | None =>
      DateUtility.firstSome
        (fun entry : string * string =>
           let '(monthName, monthNum) := entry in
           if includes monthName s then
             let day :=
               match firstDigits (chars s) with
               | Some ds => parseInt ds
               | None => Some 1
               end in
             let year :=
               match firstYear false (chars s) with
               | Some ys => centuryOf (parseInt ys)
               | None => Some currentYear
               end in
             if geN day (Some 1) && leN day (Some 31)
             then Some (numToString year +:+ "-" +:+ monthNum +:+ "-" +:+
                        padStart2 (numToString day))
             else None
           else None)
        storyMonthMap
  end.

(** [parseInt(s.split('-')[i])]. *)
Definition partNum (s : string) (i : nat) : JsNum :=
  match split isDash s !! i with
  | Some p => parseInt p
  | None => None
  end.

Definition storyContinuesNextYear (g : Generator) (env : Env)
           (story : Story) : bool :=
  match truthy (endDate story) with
  | None => false
  | Some e =>
      match truthy (convertStoryDateToISO env e (roadmapYear g)) with
      | None => false
      | Some storyEndDateStr =>
          let storyEndYear := partNum storyEndDateStr 0 in
          if negb (roadmapYear g =? 0) &&
             gtN storyEndYear (Some (roadmapYear g))
          then true
          else
            match searchRange g with
            | Some range =>
                match truthy (rangeEndDate range) with
                | Some rangeEnd => strGt storyEndDateStr rangeEnd
                | None => false
                end
            | None => false
            end
      end
  end.

Definition parseMonthMap : list (string * Z) :=
  [("jan", 0); ("january", 0); ("feb", 1); ("february", 1); ("mar", 2);
   ("march", 2); ("apr", 3); ("april", 3); ("may", 4); ("jun", 5);
   ("june", 5); ("jul", 6); ("july", 6); ("aug", 7); ("august", 7);
   ("sep", 8); ("sept", 8); ("september", 8); ("oct", 9); ("october", 9);
   ("nov", 10); ("november", 10); ("dec", 11); ("december", 11)].

(** [null] and an invalid date are [None]. *)
Definition parseMonthToDate (env : Env) (monthStr : string) (year : Z)
  : JsDate.Date :=
  match (list_to_map parseMonthMap : gmap string Z) !! toLowerCase monthStr
  with
  | Some month =>
      JsDate.ofComponents (localTZA env) (Some year) (Some month) (Some 1)
  | None => None
  end.

Definition storyStartsBeforeRange (g : Generator) (env : Env)
           (story : Story) : bool :=
  match searchRange g with
  | None => false
  | Some range =>
      match truthy (rangeStartDate range) with
      | None => false
      | Some rangeStart =>
          let dated (s : string) : JsDate.Date :=
            newDate env (if DateUtility.europeanWithYearRegex s
                         then convertEuropeanToISO g env s else s) in
          let storyStartDate : option JsDate.Date :=
            match truthy (startDate story) with
            | Some s => Some (dated s)
            | None =>
                match truthy (startMonth story) with
                | Some m =>
                    let yearToUse :=
                      yearOrNow env (Some (roadmapYear g)) in
                    if DateUtility.europeanWithYearRegex m
                    then Some (dated m)
                    else Some (parseMonthToDate env m yearToUse)
                | None => None
                end
            end in
          match storyStartDate with
          | None => false
          | Some start =>
              let searchStartDate :=
                JsDate.ofComponents (localTZA env) (partNum rangeStart 0)
                                    (addN (partNum rangeStart 1) (Some (-1)))
                                    (partNum rangeStart 2) in
              leN (JsDate.getTime start) (JsDate.getTime searchStartDate)
          end
      end
  end.

(** [Array.prototype.sort] under a consistent comparator, where it is
    the stable sort: an insertion sort, in which [compare a b] positive
    puts [b] before [a]. *)
Fixpoint insertSorted {A} (compare : A -> A -> Z) (x : A) (l : list A)
  : list A :=
  match l with
  | [] => [x]
  | y :: r => if 0 <? compare y x then x :: l
              else y :: insertSorted compare x r
  end.

Definition sortBy {A} (compare : A -> A -> Z) (l : list A) : list A :=
  fold_left (fun sorted x => insertSorted compare x sorted) l [].

(** The date of a change parses. *)
Definition changeDateParses (env : Env) (change : Change) : bool :=
  match date change with
  | Some s => negb (JsDate.isInvalid (DateUtility.parseDateSafe env s))
  | None => false
  end.

(** [[...changes].sort((a, b) => compareDates(b.date, a.date))].  When
    every date parses the comparator is the difference of two times, it
    is consistent and the result is the stable sort.  For a date that
    does not parse [compareDates] answers 1 also against itself: the
    comparator is not consistent and the order is the engine's own. *)
Definition sortChanges (env : Env) (cs : list Change) : list Change :=
  let compare a b := DateUtility.compareDates env (date b) (date a) in
  if forallb (changeDateParses env) cs then sortBy compare cs
  else engineSort env Change compare cs.

Definition getEffectiveEndDate (env : Env) (story : Story)
  : option string :=
  let original := orElse (endDate story) (endMonth story) in
  match changes story with
  | None | Some [] => original
  | Some cs =>
      let sortedChanges := sortChanges env cs in
      match sortedChanges with
      | mostRecentChange :: _ =>
          match truthy (newEndDate mostRecentChange) with
          | Some newEnd =>
              if includesChar "-" newEnd ||
                 DateUtility.EUROPEAN_DATE_REGEX newEnd
              then Some newEnd
              else Some (toUpperCase newEnd)
          | None => original
          end
      | [] => original
      end
  end.

Definition isEffectiveEndDateADate (env : Env) (story : Story) : bool :=
  match truthy (getEffectiveEndDate env story) with
  | None => false
  | Some effectiveEndDate =>
      includesChar "-" effectiveEndDate ||
      DateUtility.EUROPEAN_DATE_REGEX effectiveEndDate
  end.

(** The start column of [generateStory], with the story as the
    computation leaves it. *)
Definition startGridOf (g : Generator) (env : Env) (story : Story)
  : Outcome (Story * Z) :=
  let startValue := orElse (startDate story) (startMonth story) in
  match truthy (startDate story) with
  | Some start =>
      let isoStartDate := isoOfStoryDate g env start in
      let startDateObj := newDate env isoStartDate in
      let fallback := Returns (story, getGridPosition env startValue) in
      match JsDate.getFullYear (localTZA env) startDateObj,
            JsDate.getMonth (localTZA env) startDateObj,
            JsDate.getDate (localTZA env) startDateObj with
      | Some year, Some month, Some dayOfMonth =>
          if year <? roadmapYear g then
            let story' :=
              {| startDate :=
                   Some ("01/01/" +:+ intToString (roadmapYear g));
                 startMonth := startMonth story;
                 endDate := endDate story;
                 endMonth := endMonth story;
                 changes := changes story;
                 _originalStartDate := startDate story;
                 _startsInPreviousYear := true;
                 _actualStartYear := Some year |} in
            let jan1IsoDate := intToString (roadmapYear g) +:+ "-01-01" in
            Returns (story',
                     if DateUtility.isStartOfMonth env jan1IsoDate
                     then monthToGrid "JAN"
                     else dateToGrid env jan1IsoDate)
          else
            let grid : Outcome Z :=
              if DateUtility.isStartOfMonth env isoStartDate then
                monthToGridOpt (DateUtility.getMonthName (Some (month + 1)))
              else if DateUtility.isEndOfPreviousMonth env isoStartDate then
                monthToGridOpt
                  (DateUtility.getPreviousMonthName env isoStartDate)
              else if 28 <=? dayOfMonth then
                let currentMonth := month + 1 in
                let nextMonth :=
                  if currentMonth =? 12 then 1 else currentMonth + 1 in
                monthToGridOpt (DateUtility.getMonthName (Some nextMonth))
              else
                let base := dateToGrid env isoStartDate in
                Returns (if (4 <=? dayOfMonth) && (dayOfMonth <=? 27)
                         then base - 2 else base) in
            match grid with
            | Returns column => Returns (story, column)
            | Throws => fallback
            end
      | _, _, _ => fallback
      end
  | None =>
      match monthToGridOpt startValue with
      | Returns column => Returns (story, column)
      | Throws => Throws
      end
  end.

(** The end column of [generateStory], before any clamping. *)
Definition endGridOf (g : Generator) (env : Env) (story : Story)
           (startGrid : Z) : Z :=
  let effectiveEndIsDate := isEffectiveEndDateADate env story in
  match truthy (getEffectiveEndDate env story) with
  | Some effectiveEndValue =>
      let isEndOfMonth :=
        effectiveEndIsDate &&
        DateUtility.isEndOfMonth env effectiveEndValue in
      let isEndOfPreviousMonth :=
        effectiveEndIsDate &&
        DateUtility.isEndOfPreviousMonth env effectiveEndValue in
      if negb effectiveEndIsDate then
        getGridPosition env (Some effectiveEndValue) + 10
      else if isEndOfMonth then
        let parsedEndDate :=
          DateUtility.parseDateSafe env effectiveEndValue in
        let monthName :=
          DateUtility.getMonthName
            (addN (JsDate.getMonth (localTZA env) parsedEndDate) (Some 1)) in
        getGridPosition env monthName + 10
      else if isEndOfPreviousMonth then
        let previousMonthName :=
          DateUtility.getPreviousMonthName env effectiveEndValue in
        getGridPosition env previousMonthName + 10
      else
        let isoEndDate := isoOfStoryDate g env effectiveEndValue in
        match JsDate.getDate (localTZA env) (newDate env isoEndDate) with
        | Some dayOfMonth =>
            if DateUtility.isStartOfMonth env isoEndDate
            then getGridPosition env (Some isoEndDate)
            else if (4 <=? dayOfMonth) && (dayOfMonth <=? 25)
            then getGridPosition env (Some isoEndDate)
            else getGridPosition env (Some isoEndDate)
        | None => getGridPosition env (Some effectiveEndValue)
        end
  | None => startGrid + 10
  end.

Definition shortMonthNames : list string :=
  ["Jan"; "Feb"; "Mar"; "Apr"; "May"; "Jun";
   "Jul"; "Aug"; "Sep"; "Oct"; "Nov"; "Dec"].

(** [s.slice(-2)]. *)
Definition lastTwo (s : string) : string :=
  str (skipn (length (chars s) - 2) (chars s)).

(** The continuation indicator of a story that continues. *)
Definition continuationOf (g : Generator) (env : Env) (story : Story)
  : option (option string * JsNum * string) :=
  match truthy (endDate story) with
  | None => None
  | Some e =>
      match truthy (convertStoryDateToISO env e (roadmapYear g)) with
      | Some storyEndDateStr =>
          let actualEndYear := partNum storyEndDateStr 0 in
          let monthIndex := addN (partNum storyEndDateStr 1) (Some (-1)) in
          Some (DateUtility.nthName shortMonthNames monthIndex,
                actualEndYear, lastTwo (numToString actualEndYear))
      | None =>
          let nextYear := roadmapYear g + 1 in
          Some (Some "Dec", Some nextYear, lastTwo (intToString nextYear))
      end
  end.

(** The positions of [generateStory]: [None] for a story that is not
    displayed, and the story as the call leaves it. *)
Definition generateStory (g : Generator) (env : Env) (story : Story)
  : Outcome (Story * option GridSpan) :=
  if negb (shouldDisplayStory g env story) then Returns (story, None)
  else
    match startGridOf g env story with
    | Throws => Throws
    | Returns (story', startGrid0) =>
        let endGrid0 := endGridOf g env story' startGrid0 in
        let continues := storyContinuesNextYear g env story' in
        let before := storyStartsBeforeRange g env story' in
        let endGrid1 :=
          if continues then getGridPosition env (Some "DEC") + 10
          else endGrid0 in
        let startGrid1 :=
          if before then getGridPosition env (Some "JAN")
          else startGrid0 in
        Returns (story',
                 Some {| startGrid := startGrid1;
                         endGrid := endGrid1;
                         continuesNextYear := continues;
                         startsBeforeRange := before;
                         continuation :=
                           if continues then continuationOf g env story'
                           else None |})
    end.

(** [forceBelowFromConfig || forceBelowFromTemp || forceBelowFromSearch]. *)
Definition forceBelowGlobal (env : Env) : bool :=
  shouldForceTextBelow env || tempForceTextBelow env ||
  searchTempForceTextBelow env.

(** Where [generateEpic] puts the text box of a story. *)
Record TextBox := {
  changeStartGrid : Z;
  changeEndGrid : Z;
  positionBelow : bool
}.

(** The placement of the text box at the end of [generateEpic], from
    the values the method has computed when it reaches it; [epicTextBox]
    below computes them. *)
Definition placeTextBox (env : Env) (continues endsBetweenOct4AndDec31 : bool)
           (storyStartGrid storyEndGrid actualEndGrid totalItems : Z)
  : TextBox :=
  let textBoxWidth := ConfigUtility.calculateTextBoxWidth totalItems in
  let visualStoryEndGrid :=
    if continues then getGridPosition env (Some "DEC") + 10
    else storyEndGrid in
  let shouldPositionBelow0 :=
    if continues || endsBetweenOct4AndDec31 then true
    else
      let buffer := 2 in
      let combinedWidth := visualStoryEndGrid + buffer + textBoxWidth in
      ConfigUtility.exceedsMaxGrid combinedWidth in
  let shouldPositionBelowFinal :=
    if forceBelowGlobal env then true else shouldPositionBelow0 in
  if shouldPositionBelowFinal then
    let start0 :=
      if forceBelowGlobal env then storyStartGrid else storyStartGrid + 1 in
    let end0 := start0 + textBoxWidth in
    if ConfigUtility.exceedsMaxGrid end0 then
      let overflow := end0 - ConfigUtility.getMaxGrid in
      let start1 := Z.max 1 (start0 - overflow) in
      {| changeStartGrid := start1;
         changeEndGrid := start1 + textBoxWidth;
         positionBelow := true |}
    else
      {| changeStartGrid := start0;
         changeEndGrid := end0;
         positionBelow := true |}
  else
    let buffer := 2 in
    {| changeStartGrid := actualEndGrid + buffer;
       changeEndGrid := actualEndGrid + buffer + textBoxWidth;
       positionBelow := false |}.

(** The reference start column of a story in [generateEpic], with the
    story as the computation leaves it.  The block is a copy of the one
    in [generateStory] that reads the date through [parseDateSafe] and
    backs the regular days up by other amounts. *)
Definition epicStartGridOf (g : Generator) (env : Env) (story : Story)
  : Outcome (Story * Z) :=
  match truthy (startDate story) with
  | Some start =>
      let isoStartDate := isoOfStoryDate g env start in
      let startDateObj := DateUtility.parseDateSafe env isoStartDate in
      let fallback := Returns (story, getGridPosition env (startDate story)) in
      match JsDate.getFullYear (localTZA env) startDateObj,
            JsDate.getMonth (localTZA env) startDateObj,
            JsDate.getDate (localTZA env) startDateObj with
      | Some year, Some month, Some dayOfMonth =>
          if year <? roadmapYear g then
            let story' :=
              {| startDate :=
                   Some ("01/01/" +:+ intToString (roadmapYear g));
                 startMonth := startMonth story;
                 endDate := endDate story;
                 endMonth := endMonth story;
                 changes := changes story;
                 _originalStartDate := startDate story;
                 _startsInPreviousYear := true;
                 _actualStartYear := Some year |} in
            let jan1IsoDate := intToString (roadmapYear g) +:+ "-01-01" in
            Returns (story',
                     if DateUtility.isStartOfMonth env jan1IsoDate
                     then monthToGrid "JAN"
                     else dateToGrid env jan1IsoDate)
          else
            let grid : Outcome Z :=
              if DateUtility.isStartOfMonth env isoStartDate then
                monthToGridOpt (DateUtility.getMonthName (Some (month + 1)))
              else if DateUtility.isEndOfPreviousMonth env isoStartDate then
                monthToGridOpt
                  (DateUtility.getPreviousMonthName env isoStartDate)
              else
                let base := dateToGrid env isoStartDate in
                if (11 <=? dayOfMonth) && (dayOfMonth <=? 21)
                then Returns (base - 2)
                else if (22 <=? dayOfMonth) && (dayOfMonth <=? 26)
                then Returns (base - 5)
                else if (27 <=? dayOfMonth) && (dayOfMonth <=? 31) then
                  let currentMonth := month + 1 in
                  let nextMonth :=
                    if currentMonth =? 12 then 1 else currentMonth + 1 in
                  monthToGridOpt (DateUtility.getMonthName (Some nextMonth))
                else if (4 <=? dayOfMonth) && (dayOfMonth <=? 10)
                then Returns (base - 1)
                else Returns base in
            match grid with
            | Returns column => Returns (story, column)
            | Throws => fallback
            end
      | _, _, _ => fallback
      end
  | None =>
      match monthToGridOpt (startMonth story) with
      | Returns column => Returns (story, column)
      | Throws => Throws
      end
  end.

(** [storyEndGrid] and [actualEndGrid] of [generateEpic]: the end
    column that the fit of the text box is tested on, and the column
    the text box is put after.  For a regular date the first is
    [dateToGrid] of the end value as it is written. *)
Definition epicEndGridsOf (g : Generator) (env : Env) (story : Story)
  : Z * Z :=
  let effectiveEndValue := getEffectiveEndDate env story in
  let monthEnd :=
    let column := getGridPosition env effectiveEndValue + 10 in
    (column, column) in
  if isEffectiveEndDateADate env story then
    match truthy effectiveEndValue with
    | Some v =>
        let parsedEndDate := DateUtility.parseDateSafe env v in
        if DateUtility.isEndOfMonth env v then
          let monthName :=
            DateUtility.getMonthName
              (addN (JsDate.getMonth (localTZA env) parsedEndDate)
                    (Some 1)) in
          let column := getGridPosition env monthName + 10 in
          (column, column)
        else if DateUtility.isEndOfPreviousMonth env v then
          let previousMonthName :=
            DateUtility.getPreviousMonthName env v in
          let column := getGridPosition env previousMonthName + 10 in
          (column, column)
        else if negb (JsDate.isInvalid parsedEndDate) then
          (dateToGrid env v, getGridPosition env (Some v))
        else
          let column := getGridPosition env (Some v) in
          (column, column)
    | None => monthEnd
    end
  else monthEnd.

(** [endsBetweenOct4AndDec31] of [generateEpic]. *)
Definition endsBetweenOct4AndDec31 (g : Generator) (env : Env)
           (story : Story) : bool :=
  if isEffectiveEndDateADate env story then
    match truthy (getEffectiveEndDate env story) with
    | Some v =>
        let parsed := DateUtility.parseDateSafe env v in
        match JsDate.getFullYear (localTZA env) parsed,
              JsDate.getMonth (localTZA env) parsed,
              JsDate.getDate (localTZA env) parsed with
        | Some y, Some m, Some d =>
            (y =? roadmapYear g) && ((9 <? m) || ((m =? 9) && (4 <=? d)))
        | _, _, _ => false
        end
    | None => false
    end
  else false.

(** The text box that [generateEpic] puts to a story, after
    [generateStory] has drawn its bar: [None] for a story that has
    neither changes nor other entries, or that is not displayed.
    [otherItems] is the number of the entries of the story that are no
    timeline changes (done, cancelled, at risk, new, information,
    transferred, proposed). *)
Definition epicTextBox (g : Generator) (env : Env) (story : Story)
           (otherItems : nat) : Outcome (Story * option TextBox) :=
  let changeCount :=
    match changes story with
    | Some cs => Z.of_nat (length cs)
    | None => 0
    end in
  let totalItems := changeCount + Z.of_nat otherItems in
  if (0 <? totalItems) && shouldDisplayStory g env story then
    match epicStartGridOf g env story with
    | Throws => Throws
    | Returns (story', storyStartGrid) =>
        let '(storyEndGrid, actualEndGrid) := epicEndGridsOf g env story' in
        Returns (story',
                 Some (placeTextBox env
                         (storyContinuesNextYear g env story')
                         (endsBetweenOct4AndDec31 g env story')
                         storyStartGrid storyEndGrid actualEndGrid
                         totalItems))
    end
  else Returns (story, None).


Definition isDateOutsideRoadmapYear (g : Generator) (env : Env)
           (dateStr : string) : bool :=
  if String.eqb dateStr EmptyString || (roadmapYear g =? 0) then false
  else
    match JsDate.getFullYear (localTZA env)
                             (newDate env (isoOfStoryDate g env dateStr)) with
    | Some year => negb (year =? roadmapYear g)
    | None => false
    end.

Definition isBlank (c : ascii) : bool := code c =? 32.

(** The lines of [wrapTextAtWordBoundary], before they are joined:
    [step] is the body of its loop on the lines and the current
    line. *)
Definition wrapLines (text : string) (maxLength : Z) : list string :=
  let step (state : list string * string) (word : string) :=
    let '(lines, currentLine) := state in
    if (maxLength <? len currentLine + len word + 1) &&
       (0 <? len currentLine)
    then (lines ++ [trim currentLine], word)
    else if 0 <? len currentLine
         then (lines, currentLine +:+ " " +:+ word)
         else (lines, word) in
  let '(lines, currentLine) :=
    fold_left step (split isBlank text) ([], EmptyString) in
  if 0 <? len (trim currentLine) then lines ++ [trim currentLine]
  else lines.

Definition wrapTextAtWordBoundary (text : string) (maxLength : Z) : string :=
  if String.eqb text EmptyString || (len text <=? maxLength) then text
  else join "<br>" (wrapLines text maxLength).

Definition truncateEpicName (name : string) (numStories : Z) : string :=
  UIUtility.processEpicName name numStories.

End RoadmapGenerator.

(* ================================================================== *)
(** * Definitions for the statements and their proofs *)
(* ================================================================== *)

(** [f] holds of [n] consecutive integers from [z]. *)
Fixpoint allFrom (f : Z -> bool) (n : nat) (z : Z) : bool :=
  match n with
  | O => true
  | S k => f z && allFrom f k (z + 1)
  end.

(** [String(n)] is four digits that spell [n]; padded to two places,
    it is two digits that spell [n]. *)
Definition fourDigitsOk (n : Z) : bool :=
  match Js.chars (Js.intToString n) with
  | [a; b; c; d] =>
      forallb Js.isDigit [a; b; c; d] && (Js.decimalValue [a; b; c; d] =? n)
  | _ => false
  end.

Definition twoDigitsOk (n : Z) : bool :=
  match Js.chars (Js.padStart2 (Js.intToString n)) with
  | [a; b] => forallb Js.isDigit [a; b] && (Js.decimalValue [a; b] =? n)
  | _ => false
  end.

(** The characters of the numeric dates: digits and separators. *)
Definition isDateChar (c : ascii) : bool := Js.isDigit c || Js.isSep c.

(** The base column of month [m] (1 to 12): ten columns a month, from
    column 1. *)
Definition monthBase (m : Z) : Z := 10 * (m - 1) + 1.

(** A zone at a fixed offset from UTC, in milliseconds. *)
Definition fixedZone (offset : Z) : JsDate.Zone := fun _ _ => offset.

(** An environment whose [Date] parser accepts valid ISO dates only and
    whose sort is the stable sort, in a zone at a fixed offset from UTC,
    with the wall clock in [year] and no flag set. *)
Definition zonedEnv (offset : Z) (year : Z) : Env :=
  {| engineParse := fun _ => None;
     localTZA := fixedZone offset;
     engineSort := fun A => @RoadmapGenerator.sortBy A;
     nowYear := year;
     shouldForceTextBelow := false;
     tempForceTextBelow := false;
     searchTempForceTextBelow := false |}.

(** The same in UTC. *)
Definition strictEnv (year : Z) : Env :=
  {| engineParse := fun _ => None;
     localTZA := fixedZone 0;
     engineSort := fun A => @RoadmapGenerator.sortBy A;
     nowYear := year;
     shouldForceTextBelow := false;
     tempForceTextBelow := false;
     searchTempForceTextBelow := false |}.

(** A story with the given start and end values and nothing else. *)
Definition storyOf (startD startM endD endM : option string)
  : RoadmapGenerator.Story :=
  {| RoadmapGenerator.startDate := startD;
     RoadmapGenerator.startMonth := startM;
     RoadmapGenerator.endDate := endD;
     RoadmapGenerator.endMonth := endM;
     RoadmapGenerator.changes := None;
     RoadmapGenerator._originalStartDate := None;
     RoadmapGenerator._startsInPreviousYear := false;
     RoadmapGenerator._actualStartYear := None |}.

(** The generator of a roadmap year, without a search range. *)
Definition generatorOf (year : Z) : RoadmapGenerator.Generator :=
  {| RoadmapGenerator.roadmapYear := year;
     RoadmapGenerator.searchRange := None |}.

(** A story from January to February whose end was moved twice: to
    March by a change dated 01/06, without a year, and to September by
    a change dated 01/01/26. *)
Definition movedStory : RoadmapGenerator.Story :=
  {| RoadmapGenerator.startDate := None;
     RoadmapGenerator.startMonth := Some "JAN";
     RoadmapGenerator.endDate := None;
     RoadmapGenerator.endMonth := Some "FEB";
     RoadmapGenerator.changes :=
       Some [ {| RoadmapGenerator.date := Some "01/06";
                 RoadmapGenerator.prevEndDate := Some "FEB";
                 RoadmapGenerator.newEndDate := Some "MAR" |};
              {| RoadmapGenerator.date := Some "01/01/26";
                 RoadmapGenerator.prevEndDate := Some "MAR";
                 RoadmapGenerator.newEndDate := Some "SEP" |} ];
     RoadmapGenerator._originalStartDate := None;
     RoadmapGenerator._startsInPreviousYear := false;
     RoadmapGenerator._actualStartYear := None |}.

(** The ISO spelling [YYYY-MM-DD] of a date. *)
Definition isoString (y m d : Z) : string :=
  Js.intToString y +:+ "-" +:+ Js.padStart2 (Js.intToString m) +:+ "-" +:+
  Js.padStart2 (Js.intToString d).

(** The date [n] days after the date [(y, m, d)] of the calendar. *)
Definition daysLater (y m d n : Z) : Z * Z * Z :=
  JsDate.civilFromDays (JsDate.daysFromCivil y m d + n).

(** [(y1, m1, d1)] is before [(y2, m2, d2)] in the calendar. *)
Definition earlier (a b : Z * Z * Z) : Prop :=
  let '(y1, m1, d1) := a in
  let '(y2, m2, d2) := b in
  y1 < y2 \/ (y1 = y2 /\ (m1 < m2 \/ (m1 = m2 /\ d1 < d2))).

(** The parts of a date of the shape [D/M/Y]: digits, one or two for
    the day and for the month, two to four for the year. *)
Definition dateParts (ds1 ds2 ys : list ascii) : Prop :=
  forallb Js.isDigit ds1 = true /\ forallb Js.isDigit ds2 = true /\
  forallb Js.isDigit ys = true /\
  (1 <= length ds1 <= 2)%nat /\ (1 <= length ds2 <= 2)%nat /\
  (2 <= length ys <= 4)%nat.

(** The year that the year digits of a date name: two digits are a
    year of the 2000s. *)
Definition yearOfDigits (ys : list ascii) : Z :=
  if (length ys =? 2)%nat then 2000 + Js.decimalValue ys
  else Js.decimalValue ys.

(** The end date [e] of a story names the date [(y, m, d)]: it is an
    ISO date string with these numbers, or a date [D/M/Y] with slashes,
    the day from 1 to 31, the month from 1 to 12 and the year, which two
    digits put in the 2000s, of four digits. *)
Definition endDateNames (e : string) (date : Z * Z * Z) : Prop :=
  let '(y, m, d) := date in
  JsDate.isoFields (Js.chars e) = Some (y, m, d) \/
  exists ds1 ds2 ys,
    dateParts ds1 ds2 ys /\
    e = Js.str (ds1 ++ "/"%char :: ds2 ++ "/"%char :: ys) /\
    d = Js.decimalValue ds1 /\ m = Js.decimalValue ds2 /\
    y = yearOfDigits ys /\
    1000 <= y <= 9999 /\ 1 <= d <= 31 /\ 1 <= m <= 12.

(** A regular zone: its offsets are less than a day, and a local time
    that is read as a time and written back in local time moves forward
    by less than a day, if at all: no change of the offset skips a
    day. *)
Definition regularZone (env : Env) : Prop :=
  (forall t isUTC,
      - JsDate.msPerDay < localTZA env t isUTC < JsDate.msPerDay) /\
  (forall t,
      0 <= localTZA env (JsDate.UTC (localTZA env) t) true
           - localTZA env t false < JsDate.msPerDay).

(** Local time is not behind UTC: the zone is UTC or east of it. *)
Definition notBehindUTC (env : Env) : Prop :=
  forall t, 0 <= localTZA env t true.

(** Local time is not ahead of UTC: the zone is UTC or west of it. *)
Definition notAheadOfUTC (env : Env) : Prop :=
  forall t, localTZA env t false <= 0.

(** Local time is ahead of UTC: the zone is east of UTC. *)
Definition aheadOfUTC (env : Env) : Prop :=
  forall t, 0 < localTZA env t false.

(** Midnight of the date [(y, m, d)] in UTC and in local time. *)
Definition utcMidnight (y m d : Z) : Z :=
  JsDate.daysFromCivil y m d * JsDate.msPerDay.
Definition localMidnight (env : Env) (y m d : Z) : Z :=
  JsDate.UTC (localTZA env) (utcMidnight y m d).

(** The text [s] parses to midnight of the date [(y, m, d)] in UTC,
    which is how a date [D/M/Y] parses, or to midnight of that date in
    local time, which is how an ISO date parses. *)
Definition parsesAtUTC (env : Env) (s : string) (date : Z * Z * Z) : Prop :=
  let '(y, m, d) := date in
  JsDate.validYMD y m d = true /\
  DateUtility.parseDateSafe env s = Some (utcMidnight y m d).

Definition parsesAtLocal (env : Env) (s : string) (date : Z * Z * Z)
  : Prop :=
  let '(y, m, d) := date in
  JsDate.validYMD y m d = true /\
  DateUtility.parseDateSafe env s = Some (localMidnight env y m d).

Definition parsesTo (env : Env) (s : string) (date : Z * Z * Z) : Prop :=
  parsesAtUTC env s date \/ parsesAtLocal env s date.

(** The offsets of the zone at any two times differ by less than a
    day. *)
Definition steadyZone (env : Env) : Prop :=
  forall t1 t2,
    localTZA env t1 false - localTZA env t2 false < JsDate.msPerDay.

(** The time of a change: what its date parses to. *)
Definition changeTime (env : Env) (change : RoadmapGenerator.Change)
  : JsDate.Date :=
  match RoadmapGenerator.date change with
  | Some s => DateUtility.parseDateSafe env s
  | None => None
  end.

(** The end value that a change gives a story. *)
Definition endOfChange (story : RoadmapGenerator.Story)
           (change : RoadmapGenerator.Change) : option string :=
  match Js.truthy (RoadmapGenerator.newEndDate change) with
  | Some newEnd =>
      if Js.includesChar "-" newEnd || DateUtility.EUROPEAN_DATE_REGEX newEnd
      then Some newEnd
      else Some (Js.toUpperCase newEnd)
  | None =>
      Js.orElse (RoadmapGenerator.endDate story)
                (RoadmapGenerator.endMonth story)
  end.

(** The first element of [l] has the greatest [key] in [l]. *)
Definition headMax {A} (key : A -> Z) (l : list A) : Prop :=
  match l with
  | [] => True
  | first :: _ => forall x, x ∈ l -> key x <= key first
  end.

(** The integers that a number holds exactly, up to
    [Number.MAX_SAFE_INTEGER]; [String] prints them in plain digits. *)
Definition safeInteger (n : Z) : Prop := Z.abs n <= 9007199254740991.

(** The characters of a CSS identifier that [sanitizeForCSS] lets
    through or writes: letters, digits and the hyphen. *)
Definition isCssSafe (c : ascii) : bool := Js.isAlnum c || Ascii.eqb c "-".

(** Every white space of [l] is one space character that no white space
    follows; [afterSpace] when white space comes just before [l]. *)
Fixpoint singleSpaced (afterSpace : bool) (l : list ascii) : bool :=
  match l with
  | [] => true
  | c :: r =>
      if Js.isSpace c
      then Ascii.eqb c " " && negb afterSpace && singleSpaced true r
      else singleSpaced false r
  end.

(* ================================================================== *)
(** * Properties of the built-in [Date] *)
(* ================================================================== *)

Import Js JsDate ConfigUtility DateUtility RoadmapGenerator.

Lemma allFrom_spec (f : Z -> bool) (n : nat) :
  forall z0, allFrom f n z0 = true ->
  forall z, z0 <= z < z0 + Z.of_nat n -> f z = true.
Proof.
  induction n as [|k IH]; intros z0 H z Hz; [lia|].
  simpl in H. apply andb_true_iff in H as [H1 H2].
  destruct (Z.eq_dec z z0) as [->|Hne]; [exact H1|].
  apply (IH (z0 + 1) H2). lia.
Qed.


Lemma isLeap_period (y k : Z) : isLeap (y + k * 400) = isLeap y.
Proof.
  unfold isLeap.
  replace ((y + k * 400) mod 4) with (y mod 4)
    by (replace (k * 400) with (k * 100 * 4) by ring;
        symmetry; apply Z.mod_add; lia).
  replace ((y + k * 400) mod 100) with (y mod 100)
    by (replace (k * 400) with (k * 4 * 100) by ring;
        symmetry; apply Z.mod_add; lia).
  replace ((y + k * 400) mod 400) with (y mod 400)
    by (symmetry; apply Z.mod_add; lia).
  reflexivity.
Qed.

Lemma validYMD_period (y k m d : Z) :
  validYMD (y + k * 400) m d = validYMD y m d.
Proof. unfold validYMD, daysInMonth. now rewrite isLeap_period. Qed.

(** [eval_ground] evaluates the closed arithmetic of the goal. *)
Ltac ground t :=
  match t with
  | context [?x] => is_var x; fail 1
  | _ => idtac
  end.

Ltac eval_ground :=
  repeat match goal with
  | |- context [?a / ?b] =>
      ground a; ground b;
      let v := eval vm_compute in (a / b) in change (a / b) with v
  | |- context [?a * ?b] =>
      ground a; ground b;
      let v := eval vm_compute in (a * b) in change (a * b) with v
  | |- context [?a + ?b] =>
      ground a; ground b;
      let v := eval vm_compute in (a + b) in change (a + b) with v
  | |- context [?a - ?b] =>
      ground a; ground b;
      let v := eval vm_compute in (a - b) in change (a - b) with v
  | |- context [?a mod ?b] =>
      ground a; ground b;
      let v := eval vm_compute in (a mod b) in change (a mod b) with v
  | |- context [?a <? ?b] =>
      ground a; ground b;
      let v := eval vm_compute in (a <? b) in change (a <? b) with v
  | |- context [?a <=? ?b] =>
      ground a; ground b;
      let v := eval vm_compute in (a <=? b) in change (a <=? b) with v
  | |- context [?a =? ?b] =>
      ground a; ground b;
      let v := eval vm_compute in (a =? b) in change (a =? b) with v
  | |- context [if true then ?x else ?y] =>
      change (if true then x else y) with x
  | |- context [if false then ?x else ?y] =>
      change (if false then x else y) with y
  | |- context [false || ?x] => change (false || x) with x
  | |- context [true || ?x] => change (true || x) with true
  | |- context [true && ?x] => change (true && x) with x
  end.

(** The year of the era that [civilOfDoe] computes is the year whose
    days hold the day of the era. *)
Lemma yearOfEra_bounds (doe : Z) :
  0 <= doe < 146097 ->
  let Y := (doe - doe / 1460 + doe / 36524 - doe / 146096) / 365 in
  0 <= Y <= 399 /\ 365 * Y + Y / 4 - Y / 100 <= doe /\
  doe < 365 * (Y + 1) + (Y + 1) / 4 - (Y + 1) / 100 + (Y + 1) / 400.
Proof. intros H Y. subst Y. Z.div_mod_to_equations. lia. Qed.

(** Every day of the era is a day of the calendar. *)
Lemma civilOfDoe_valid (doe : Z) :
  0 <= doe < 146097 ->
  let '(y, m, d) := civilOfDoe doe in validYMD y m d = true.
Proof.
  intros H. unfold civilOfDoe.
  pose proof (yearOfEra_bounds doe H) as K. cbv zeta in K.
  set (Y := (doe - doe / 1460 + doe / 36524 - doe / 146096) / 365) in *.
  clearbody Y.
  destruct K as (HY & Hlo & Hhi).
  set (doy := doe - (365 * Y + Y / 4 - Y / 100)).
  assert (Hdoy : 0 <= doy <= 365) by (subst doy; Z.div_mod_to_equations; lia).
  assert (Hleap : doy = 365 -> isLeap (Y + 1) = true).
  { intros E. unfold isLeap.
    destruct (Z.eqb_spec ((Y + 1) mod 4) 0), (Z.eqb_spec ((Y + 1) mod 100) 0),
      (Z.eqb_spec ((Y + 1) mod 400) 0); try reflexivity; exfalso;
      subst doy; Z.div_mod_to_equations; lia. }
  clearbody doy. clear Hlo Hhi H doe.
  set (mp := (5 * doy + 2) / 153).
  assert (Hb : 153 * mp <= 5 * doy + 2 < 153 * mp + 153)
    by (subst mp; Z.div_mod_to_equations; lia).
  clearbody mp.
  assert (Hmp : mp = 0 \/ mp = 1 \/ mp = 2 \/ mp = 3 \/ mp = 4 \/ mp = 5 \/
                mp = 6 \/ mp = 7 \/ mp = 8 \/ mp = 9 \/ mp = 10 \/ mp = 11)
    by lia.
  cbv zeta. unfold validYMD, daysInMonth.
  repeat (destruct Hmp as [-> | Hmp]); try subst mp; eval_ground;
    try (destruct (isLeap (Y + 1)) eqn:EL;
         [|assert (doy <> 365) by (intros E; specialize (Hleap E); congruence)]);
    rewrite !andb_true_iff, !Z.leb_le; lia.
Qed.

(** Within an era, the civil date of the day of a civil date is that
    date. *)
Lemma civilOfDoe_doeOf (yoe m d : Z) :
  0 <= yoe < 400 ->
  validYMD (if m <=? 2 then yoe + 1 else yoe) m d = true ->
  0 <= doeOf yoe m d < 146097 /\
  civilOfDoe (doeOf yoe m d) = (if m <=? 2 then yoe + 1 else yoe, m, d).
Proof.
  intros Hy Hv. unfold validYMD in Hv.
  rewrite !andb_true_iff, !Z.leb_le in Hv. destruct Hv as [[[Hm1 Hm2] Hd1] Hd2].
  set (doy := (153 * ((m + 9) mod 12) + 2) / 5 + d - 1).
  assert (Hdoy : 0 <= doy <= 365 /\ (doy = 365 -> isLeap (yoe + 1) = true) /\
                 (5 * doy + 2) / 153 = (m + 9) mod 12 /\
                 doy - (153 * ((m + 9) mod 12) + 2) / 5 + 1 = d /\
                 (if (m + 9) mod 12 <? 10 then (m + 9) mod 12 + 3
                  else (m + 9) mod 12 - 9) = m).
  { unfold daysInMonth in Hd2. subst doy.
    assert (Hm : m = 1 \/ m = 2 \/ m = 3 \/ m = 4 \/ m = 5 \/ m = 6 \/
                 m = 7 \/ m = 8 \/ m = 9 \/ m = 10 \/ m = 11 \/ m = 12) by lia.
    clear Hm1 Hm2.
    repeat (destruct Hm as [-> | Hm]); try subst m;
      revert Hd2; eval_ground; intros Hd2;
      try (destruct (isLeap (yoe + 1)) eqn:EL);
      (split; [lia|]); (split; [intros; (reflexivity || lia)|]);
      (split; [Z.div_mod_to_equations; lia|]); split; (reflexivity || lia). }
  destruct Hdoy as (Hb & Hleap & Emp & Ed & Em).
  assert (Hdoe : doeOf yoe m d = 365 * yoe + yoe / 4 - yoe / 100 + doy)
    by (unfold doeOf; fold doy; cbv zeta; lia).
  clearbody doy.
  assert (Hlt : doy < 365 + ((yoe + 1) / 4 - yoe / 4) -
                  ((yoe + 1) / 100 - yoe / 100) + (yoe + 1) / 400).
  { destruct (Z.eq_dec doy 365) as [E|NE].
    - specialize (Hleap E). unfold isLeap in Hleap.
      destruct (Z.eqb_spec ((yoe + 1) mod 4) 0), (Z.eqb_spec ((yoe + 1) mod 100) 0),
        (Z.eqb_spec ((yoe + 1) mod 400) 0); try discriminate;
        Z.div_mod_to_equations; lia.
    - Z.div_mod_to_equations; lia. }
  clear Hleap.
  assert (HY : (doeOf yoe m d - doeOf yoe m d / 1460 + doeOf yoe m d / 36524
                - doeOf yoe m d / 146096) / 365 = yoe).
  { rewrite Hdoe. Z.div_mod_to_equations. lia. }
  split.
  - rewrite Hdoe. Z.div_mod_to_equations. lia.
  - unfold civilOfDoe. rewrite HY. cbv zeta.
    replace (doeOf yoe m d - (365 * yoe + yoe / 4 - yoe / 100)) with doy by lia.
    rewrite Emp, Ed, Em. reflexivity.
Qed.

(** Every day number is a day of the calendar. *)
Lemma civilFromDays_valid (z : Z) :
  let '(y, m, d) := civilFromDays z in validYMD y m d = true.
Proof.
  unfold civilFromDays.
  pose proof (Z.mod_pos_bound (z + 719468) 146097 ltac:(lia)) as Hb.
  pose proof (civilOfDoe_valid _ Hb) as Hok.
  destruct (civilOfDoe ((z + 719468) mod 146097)) as [[y m] d].
  rewrite validYMD_period. exact Hok.
Qed.

(** The civil date of the day number of a civil date is that date. *)
Lemma civilFromDays_daysFromCivil (y m d : Z) :
  validYMD y m d = true -> civilFromDays (daysFromCivil y m d) = (y, m, d).
Proof.
  intros Hv. unfold civilFromDays, daysFromCivil.
  set (y' := if m <=? 2 then y - 1 else y).
  set (yoe := y' mod 400). set (era := y' / 400).
  assert (Hyoe : 0 <= yoe < 400) by (apply Z.mod_pos_bound; lia).
  assert (Hy' : y' = era * 400 + yoe)
    by (unfold era, yoe; pose proof (Z.div_mod y' 400 ltac:(lia)); lia).
  set (yy := if m <=? 2 then yoe + 1 else yoe).
  assert (Hyy : y = yy + era * 400)
    by (unfold yy, y' in *; destruct (m <=? 2); lia).
  assert (Hvy : validYMD yy m d = true)
    by (rewrite <- (validYMD_period yy era); rewrite <- Hyy; exact Hv).
  destruct (civilOfDoe_doeOf yoe m d Hyoe Hvy) as [Hb Hc].
  replace (era * 146097 + doeOf yoe m d - 719468 + 719468)
    with (doeOf yoe m d + era * 146097) by ring.
  rewrite Z.mod_add by lia. rewrite Z.div_add by lia.
  rewrite (Z.mod_small (doeOf yoe m d)) by lia.
  rewrite (Z.div_small (doeOf yoe m d)) by lia.
  rewrite Hc. fold yy. f_equal. f_equal. lia.
Qed.


(** ** Characters *)


Ltac each_ascii c :=
  destruct c as [[] [] [] [] [] [] [] []]; vm_compute; try reflexivity;
  try discriminate; intros; try discriminate.

Lemma dateChar_facts (c : ascii) :
  isDateChar c = true ->
  isSpace c = false /\ upperChar c = c /\ lowerChar c = c.
Proof. revert c. intros c. each_ascii c; repeat split. Qed.

Lemma digit_dateChar (c : ascii) : isDigit c = true -> isDateChar c = true.
Proof. unfold isDateChar. intros ->. reflexivity. Qed.

Lemma sep_dateChar (c : ascii) : isSep c = true -> isDateChar c = true.
Proof. unfold isDateChar. intros ->. apply orb_true_r. Qed.

Lemma dash_sep (c : ascii) : isDash c = true -> isSep c = true.
Proof. unfold isSep. intros ->. apply orb_true_r. Qed.

Lemma sep_not_digit (c : ascii) : isSep c = true -> isDigit c = false.
Proof. each_ascii c. Qed.

Lemma digit_bounds (c : ascii) : isDigit c = true -> 0 <= digitVal c <= 9.
Proof.
  unfold isDigit, digitVal. intros H. apply andb_true_iff in H as [H1 H2].
  apply Z.leb_le in H1, H2. lia.
Qed.

(** ** Lists of characters *)

Lemma chars_str (l : list ascii) : chars (str l) = l.
Proof. apply list_ascii_of_string_of_list_ascii. Qed.

Lemma str_chars (s : string) : str (chars s) = s.
Proof. apply string_of_list_ascii_of_string. Qed.

Lemma chars_append (a b : string) : chars (a +:+ b) = chars a ++ chars b.
Proof. induction a as [|c a IH]; simpl; [reflexivity|]. unfold chars in *. simpl. now rewrite IH. Qed.

Lemma takeWhile_dropWhile {A} (p : A -> bool) (l : list A) :
  takeWhile p l ++ dropWhile p l = l.
Proof. induction l as [|x r IH]; simpl; [reflexivity|]. destruct (p x); simpl; [now rewrite IH|reflexivity]. Qed.


Lemma dropWhile_none {A} (p : A -> bool) (l : list A) :
  forallb (fun x => negb (p x)) l = true -> dropWhile p l = l.
Proof. destruct l as [|x r]; simpl; [reflexivity|]. intros H. apply andb_true_iff in H as [H _]. apply negb_true_iff in H. now rewrite H. Qed.

Lemma forallb_rev {A} (p : A -> bool) (l : list A) :
  forallb p (rev l) = forallb p l.
Proof.
  induction l as [|x r IH]; simpl; [reflexivity|].
  rewrite forallb_app, IH. simpl. rewrite andb_true_r. apply andb_comm.
Qed.

Lemma trimList_none (l : list ascii) :
  forallb (fun c => negb (isSpace c)) l = true -> trimList l = l.
Proof.
  intros H. unfold trimList. rewrite (dropWhile_none _ l H).
  rewrite dropWhile_none by (now rewrite forallb_rev). apply rev_involutive.
Qed.

Lemma forallb_impl {A} (p q : A -> bool) (l : list A) :
  (forall x, p x = true -> q x = true) ->
  forallb p l = true -> forallb q l = true.
Proof.
  intros Hpq. induction l as [|x r IH]; simpl; [reflexivity|].
  intros H. apply andb_true_iff in H as [H1 H2]. now rewrite (Hpq _ H1), IH.
Qed.

Lemma map_id_on {A} (f : A -> A) (p : A -> bool) (l : list A) :
  (forall x, p x = true -> f x = x) -> forallb p l = true -> map f l = l.
Proof.
  intros Hf. induction l as [|x r IH]; simpl; [reflexivity|].
  intros H. apply andb_true_iff in H as [H1 H2]. now rewrite (Hf _ H1), IH.
Qed.

(** A string of digits and separators is its own upper case, lower case
    and trimmed form. *)
Lemma dateChars_fixed (s : string) :
  forallb isDateChar (chars s) = true ->
  trim (toUpperCase s) = s /\ trim (toLowerCase s) = s.
Proof.
  intros H. unfold trim, toUpperCase, toLowerCase. rewrite !chars_str.
  rewrite (map_id_on upperChar isDateChar), (map_id_on lowerChar isDateChar);
    try exact H; try (intros x Hx; apply (dateChar_facts x Hx)).
  rewrite trimList_none, str_chars; [split; reflexivity|].
  apply (forallb_impl isDateChar); [|exact H].
  intros x Hx. apply negb_true_iff. apply (dateChar_facts x Hx).
Qed.

(** ** The shapes of the date strings *)

Ltac ascii_such c H :=
  destruct c as [[] [] [] [] [] [] [] []];
  try (vm_compute in H; discriminate H); clear H.

Lemma monthDayPattern_digit (c : ascii) (r : list ascii) :
  isDigit c = true -> monthDayPattern (c :: r) = None.
Proof. intros H. ascii_such c H; reflexivity. Qed.

Lemma monthIndexOf_digit (c : ascii) (r : string) :
  isDigit c = true -> monthIndexOf (String c r) = -1.
Proof. intros H. ascii_such c H; reflexivity. Qed.



Lemma isoFields_shape (l : list ascii) (y m d : Z) :
  JsDate.isoFields l = Some (y, m, d) ->
  exists y1 y2 y3 y4 s1 m1 m2 s2 d1 d2,
    l = [y1; y2; y3; y4; s1; m1; m2; s2; d1; d2] /\
    forallb isDigit [y1; y2; y3; y4; m1; m2; d1; d2] = true /\
    isDash s1 = true /\ isDash s2 = true /\
    y = decimalValue [y1; y2; y3; y4] /\ m = decimalValue [m1; m2] /\
    d = decimalValue [d1; d2].
Proof.
  intros H. do 10 (destruct l as [|? l]; [discriminate H|]).
  destruct l; [|discriminate H].
  unfold JsDate.isoFields in H.
  destruct (JsDate.allDigits _ && isDash _ && isDash _) eqn:E; [|discriminate].
  apply andb_true_iff in E as [E E2]. apply andb_true_iff in E as [E0 E1].
  inversion H; subst. repeat eexists; eauto.
Qed.

Ltac split_digits H :=
  simpl in H;
  repeat (let E := fresh "Hd" in apply andb_true_iff in H as [E H]).

Lemma iso_dateChars (l : list ascii) (y m d : Z) :
  JsDate.isoFields l = Some (y, m, d) -> forallb isDateChar l = true.
Proof.
  intros H. apply isoFields_shape in H
    as (y1 & y2 & y3 & y4 & s1 & m1 & m2 & s2 & d1 & d2 & -> & Hd & H1 & H2 & _).
  split_digits Hd. simpl.
  repeat match goal with
         | H : isDigit ?c = true |- context [isDateChar ?c] =>
             rewrite (digit_dateChar c H)
         | H : isDash ?c = true |- context [isDateChar ?c] =>
             rewrite (sep_dateChar c (dash_sep c H))
         end.
  reflexivity.
Qed.

Lemma iso_not_european (l : list ascii) (y m d : Z) (yo : bool) :
  JsDate.isoFields l = Some (y, m, d) -> europeanList yo l = false.
Proof.
  intros H. apply isoFields_shape in H
    as (y1 & y2 & y3 & y4 & s1 & m1 & m2 & s2 & d1 & d2 & -> & Hd & H1 & H2 & _).
  split_digits Hd. unfold europeanList, digits12. simpl.
  rewrite Hd0, Hd1, Hd2, Hd3. rewrite (sep_not_digit s1 (dash_sep _ H1)).
  reflexivity.
Qed.

Lemma iso_dayMonthPattern (l : list ascii) (y m d : Z) :
  JsDate.isoFields l = Some (y, m, d) -> dayMonthPattern l = None.
Proof.
  intros H. apply isoFields_shape in H
    as (y1 & y2 & y3 & y4 & s1 & m1 & m2 & s2 & d1 & d2 & -> & Hd & H1 & H2 & _).
  split_digits Hd. unfold dayMonthPattern, digits12. simpl.
  rewrite Hd0, Hd1, Hd2, Hd3. rewrite (sep_not_digit s1 (dash_sep _ H1)).
  reflexivity.
Qed.





(** ** Dates of valid ISO strings *)

Lemma daysFromCivil_day (y m d : Z) :
  JsDate.daysFromCivil y m d = JsDate.daysFromCivil y m 1 + d - 1.
Proof. unfold JsDate.daysFromCivil, JsDate.doeOf. lia. Qed.

Lemma makeDay_civil (y m d : Z) :
  1 <= m <= 12 -> JsDate.makeDay y (m - 1) d = JsDate.daysFromCivil y m d.
Proof.
  intros Hm. unfold JsDate.makeDay.
  rewrite (Z.div_small (m - 1) 12), (Z.mod_small (m - 1) 12) by lia.
  rewrite (daysFromCivil_day y m d). f_equal. f_equal. f_equal; lia.
Qed.

Lemma daysFromCivil_bounds (y m d : Z) :
  -270001 <= y <= 270000 -> 1 <= m <= 12 -> 0 <= d <= 31 ->
  -99900000 <= JsDate.daysFromCivil y m d <= 99900000.
Proof.
  intros Hy Hm Hd. unfold JsDate.daysFromCivil, JsDate.doeOf.
  set (y' := if m <=? 2 then y - 1 else y).
  assert (Hy' : -270002 <= y' <= 270000) by (unfold y'; destruct (m <=? 2); lia).
  clearbody y'.
  pose proof (Z.mod_pos_bound (m + 9) 12 ltac:(lia)).
  set (mp := (m + 9) mod 12) in *. clearbody mp.
  Z.div_mod_to_equations. lia.
Qed.

Lemma timeClip_within (n r : Z) :
  -99900000 <= n <= 99900000 -> 0 <= r < JsDate.msPerDay ->
  JsDate.timeClip (n * JsDate.msPerDay + r) = Some (n * JsDate.msPerDay + r).
Proof.
  unfold JsDate.timeClip, JsDate.maxTime, JsDate.msPerDay. intros H Hr.
  destruct (Z.abs (n * 86400000 + r) <=? 8640000000000000) eqn:E;
    [reflexivity|].
  apply Z.leb_gt in E. lia.
Qed.

Lemma timeClip_days (n : Z) :
  -99900000 <= n <= 99900000 ->
  JsDate.timeClip (n * JsDate.msPerDay) = Some (n * JsDate.msPerDay).
Proof.
  intros H. rewrite <- (Z.add_0_r (n * JsDate.msPerDay)) at 1 2.
  apply timeClip_within; [exact H|]. unfold JsDate.msPerDay. lia.
Qed.

Lemma civilOf_days (n : Z) :
  JsDate.civilOf (n * JsDate.msPerDay) = JsDate.civilFromDays n.
Proof. unfold JsDate.civilOf. now rewrite Z.div_mul by (unfold JsDate.msPerDay; lia). Qed.

Lemma validYMD_bounds (y m d : Z) :
  JsDate.validYMD y m d = true -> 1 <= m <= 12 /\ 1 <= d <= 31.
Proof.
  unfold JsDate.validYMD, JsDate.daysInMonth. intros Hv.
  repeat (apply andb_true_iff in Hv as [Hv ?]).
  destruct (m =? 2); [destruct (JsDate.isLeap y)|];
    try destruct ((m =? 4) || (m =? 6) || (m =? 9) || (m =? 11)); lia.
Qed.

Lemma civilOf_within (n r : Z) :
  0 <= r < JsDate.msPerDay ->
  JsDate.civilOf (n * JsDate.msPerDay + r) = JsDate.civilFromDays n.
Proof.
  intros H. unfold JsDate.civilOf. f_equal.
  unfold JsDate.msPerDay in *. Z.div_mod_to_equations. lia.
Qed.

Lemma timeClip_near (n a : Z) :
  -99900000 <= n <= 99900000 -> - JsDate.msPerDay < a < JsDate.msPerDay ->
  JsDate.timeClip (n * JsDate.msPerDay + a) = Some (n * JsDate.msPerDay + a).
Proof.
  unfold JsDate.timeClip, JsDate.maxTime, JsDate.msPerDay. intros H Hr.
  destruct (Z.abs (n * 86400000 + a) <=? 8640000000000000) eqn:E;
    [reflexivity|].
  apply Z.leb_gt in E. lia.
Qed.

(** ** Local time *)

(** In a zone that is not behind UTC, midnight in UTC is a time of the
    same day in local time. *)
Lemma local_of_utcMidnight (env : Env) (n : Z) :
  regularZone env -> notBehindUTC env ->
  JsDate.civilOf (JsDate.LocalTime (localTZA env) (n * JsDate.msPerDay))
  = JsDate.civilFromDays n.
Proof.
  intros [Hb _] He. unfold JsDate.LocalTime. apply civilOf_within.
  pose proof (Hb (n * JsDate.msPerDay) true).
  pose proof (He (n * JsDate.msPerDay)). lia.
Qed.

(** Midnight in local time is a time of the same day in local time. *)
Lemma local_of_localMidnight (env : Env) (n : Z) :
  regularZone env ->
  JsDate.civilOf
    (JsDate.LocalTime (localTZA env)
       (JsDate.UTC (localTZA env) (n * JsDate.msPerDay)))
  = JsDate.civilFromDays n.
Proof.
  intros [_ Hr]. pose proof (Hr (n * JsDate.msPerDay)) as H.
  unfold JsDate.LocalTime.
  replace (JsDate.UTC (localTZA env) (n * JsDate.msPerDay) +
           localTZA env (JsDate.UTC (localTZA env) (n * JsDate.msPerDay)) true)
    with (n * JsDate.msPerDay +
          (localTZA env (JsDate.UTC (localTZA env) (n * JsDate.msPerDay)) true
           - localTZA env (n * JsDate.msPerDay) false))
    by (unfold JsDate.UTC; lia).
  now apply civilOf_within.
Qed.

Lemma timeClip_localMidnight (env : Env) (n : Z) :
  regularZone env -> -99900000 <= n <= 99900000 ->
  JsDate.timeClip (JsDate.UTC (localTZA env) (n * JsDate.msPerDay))
  = Some (JsDate.UTC (localTZA env) (n * JsDate.msPerDay)).
Proof.
  intros [Hb _] Hn. unfold JsDate.UTC.
  pose proof (Hb (n * JsDate.msPerDay) false).
  replace (n * JsDate.msPerDay - localTZA env (n * JsDate.msPerDay) false)
    with (n * JsDate.msPerDay + - localTZA env (n * JsDate.msPerDay) false)
    by lia.
  apply timeClip_near; [exact Hn|lia].
Qed.

(** The getters of a date whose local date is [(y, m, d)]. *)
Lemma getters_of_civil (env : Env) (t y m d : Z) :
  JsDate.civilOf (JsDate.LocalTime (localTZA env) t) = (y, m, d) ->
  JsDate.getFullYear (localTZA env) (Some t) = Some y /\
  JsDate.getMonth (localTZA env) (Some t) = Some (m - 1) /\
  JsDate.getDate (localTZA env) (Some t) = Some d.
Proof.
  intros H. unfold JsDate.getFullYear, JsDate.getMonth, JsDate.getDate.
  rewrite H. auto.
Qed.

(** Midnight in UTC of a civil date, read in a zone that is not behind
    UTC: the getters return the date. *)
Lemma getters_utcMidnight (env : Env) (y m d : Z) :
  regularZone env -> notBehindUTC env ->
  JsDate.validYMD y m d = true ->
  let dt := Some (utcMidnight y m d) in
  JsDate.getFullYear (localTZA env) dt = Some y /\
  JsDate.getMonth (localTZA env) dt = Some (m - 1) /\
  JsDate.getDate (localTZA env) dt = Some d.
Proof.
  intros Hz He Hv. cbv zeta. apply getters_of_civil. unfold utcMidnight.
  rewrite (local_of_utcMidnight env _ Hz He).
  exact (civilFromDays_daysFromCivil y m d Hv).
Qed.

(** Midnight in local time of a civil date: the getters return the
    date, in every regular zone. *)
Lemma getters_localMidnight (env : Env) (y m d : Z) :
  regularZone env -> JsDate.validYMD y m d = true ->
  let dt := Some (localMidnight env y m d) in
  JsDate.getFullYear (localTZA env) dt = Some y /\
  JsDate.getMonth (localTZA env) dt = Some (m - 1) /\
  JsDate.getDate (localTZA env) dt = Some d.
Proof.
  intros Hz Hv. cbv zeta. apply getters_of_civil.
  unfold localMidnight, utcMidnight.
  rewrite (local_of_localMidnight env _ Hz).
  exact (civilFromDays_daysFromCivil y m d Hv).
Qed.

Lemma decimalValue4_bounds (a b c d : ascii) :
  forallb isDigit [a; b; c; d] = true ->
  0 <= decimalValue [a; b; c; d] <= 9999.
Proof.
  intros H. split_digits H. unfold decimalValue. simpl.
  pose proof (digit_bounds a Hd). pose proof (digit_bounds b Hd0).
  pose proof (digit_bounds c Hd1). pose proof (digit_bounds d Hd2). lia.
Qed.

Lemma isoCalendarDate_fields (l : list ascii) (y m d : Z) :
  JsDate.isoCalendarDate l = Some (y, m, d) ->
  JsDate.isoFields l = Some (y, m, d) /\ JsDate.validYMD y m d = true /\
  0 <= y <= 9999.
Proof.
  unfold JsDate.isoCalendarDate. intros H.
  destruct (JsDate.isoFields l) as [[[y0 m0] d0]|] eqn:E; [|discriminate].
  destruct (JsDate.validYMD y0 m0 d0) eqn:V; [|discriminate].
  inversion H; subst. repeat split; auto.
  all: apply isoFields_shape in E
    as (y1 & y2 & y3 & y4 & s1 & m1 & m2 & s2 & d1 & d2 & -> & Hd & _ & _ & -> & _);
    apply (decimalValue4_bounds y1 y2 y3 y4);
    split_digits Hd; simpl; now rewrite Hd0, Hd1, Hd2, Hd3.
Qed.

(** [new Date] of a valid ISO date string is midnight of that date in
    UTC. *)
Lemma newDate_iso (env : Env) (s : string) (y m d : Z) :
  JsDate.isoCalendarDate (chars s) = Some (y, m, d) ->
  newDate env s = Some (utcMidnight y m d).
Proof.
  unfold utcMidnight.
  intros H. unfold newDate, JsDate.parse. rewrite H.
  apply isoCalendarDate_fields in H as (_ & Hv & Hy).
  pose proof (validYMD_bounds y m d Hv) as [Hm Hd].
  rewrite (makeDay_civil y m d Hm).
  apply timeClip_days, daysFromCivil_bounds; lia.
Qed.

(** The date-time form of a valid ISO date string is midnight of that
    date in local time. *)
Lemma newDate_iso_midnight (env : Env) (s : string) (y m d : Z) :
  regularZone env ->
  JsDate.isoCalendarDate (chars s) = Some (y, m, d) ->
  newDate env (s +:+ "T00:00:00") = Some (localMidnight env y m d).
Proof.
  intros Hz H. pose proof H as H0. unfold localMidnight, utcMidnight.
  apply isoCalendarDate_fields in H as (Hf & Hv & Hy).
  apply isoFields_shape in Hf
    as (y1 & y2 & y3 & y4 & s1 & m1 & m2 & s2 & d1 & d2 & E & _).
  unfold newDate, JsDate.parse. rewrite chars_append, E.
  assert (E1 : JsDate.isoCalendarDate
                 ([y1; y2; y3; y4; s1; m1; m2; s2; d1; d2] ++ chars "T00:00:00")
               = None) by reflexivity.
  rewrite E1.
  assert (E2 : JsDate.isoMidnight
                 ([y1; y2; y3; y4; s1; m1; m2; s2; d1; d2] ++ chars "T00:00:00")
               = JsDate.isoCalendarDate [y1; y2; y3; y4; s1; m1; m2; s2; d1; d2])
    by reflexivity.
  rewrite E2, <- E, H0.
  pose proof (validYMD_bounds y m d Hv) as [Hm Hd].
  rewrite (makeDay_civil y m d Hm).
  apply (timeClip_localMidnight env _ Hz), daysFromCivil_bounds; lia.
Qed.

(** ** Month names and their columns *)


Lemma month_cases (m : Z) :
  1 <= m <= 12 ->
  m = 1 \/ m = 2 \/ m = 3 \/ m = 4 \/ m = 5 \/ m = 6 \/
  m = 7 \/ m = 8 \/ m = 9 \/ m = 10 \/ m = 11 \/ m = 12.
Proof. lia. Qed.

Ltac each_month m H :=
  let C := fresh "C" in
  pose proof (month_cases m H) as C;
  repeat (destruct C as [C|C]; [subst m|]); [..|subst m].

(** The name of month [m] and its column: ten columns a month, from
    column 1. *)
Lemma getMonthName_base (m : Z) :
  1 <= m <= 12 ->
  exists name,
    getMonthName (Some m) = Some name /\
    getMonthGridPosition name = monthBase m /\
    (forall env, RoadmapGenerator.getGridPosition env (Some name)
                 = monthBase m).
Proof.
  intros H. each_month m H; eexists; (split; [reflexivity|split; [|intros env]]);
    vm_compute; reflexivity.
Qed.

Lemma nonempty_chars (s : string) (c : ascii) (r : list ascii) :
  chars s = c :: r -> String.eqb s EmptyString = false.
Proof. destruct s; [discriminate|reflexivity]. Qed.

Lemma iso_nonempty (s : string) (y m d : Z) :
  JsDate.isoFields (chars s) = Some (y, m, d) ->
  String.eqb s EmptyString = false.
Proof.
  intros H. apply isoFields_shape in H
    as (y1 & y2 & y3 & y4 & s1 & m1 & m2 & s2 & d1 & d2 & E & _).
  exact (nonempty_chars s _ _ E).
Qed.

(** [parseDateSafe] of a valid ISO date string is midnight of that
    date in local time. *)
Lemma parseDateSafe_iso (env : Env) (s : string) (y m d : Z) :
  regularZone env ->
  JsDate.isoCalendarDate (chars s) = Some (y, m, d) ->
  parseDateSafe env s = Some (localMidnight env y m d).
Proof.
  intros Hz H. pose proof (isoCalendarDate_fields _ _ _ _ H) as (Hf & _ & _).
  unfold parseDateSafe. rewrite (iso_nonempty s y m d Hf).
  unfold EUROPEAN_DATE_REGEX, ISO_DATE_REGEX.
  rewrite (iso_not_european _ y m d true Hf), Hf.
  apply (newDate_iso_midnight env s y m d Hz H).
Qed.

(** [dateToGrid] reads midnight in UTC with the local getters. *)
Lemma dateToGrid_iso (env : Env) (s : string) (y m d : Z) (cb : string -> Z) :
  regularZone env -> notBehindUTC env ->
  JsDate.isoCalendarDate (chars s) = Some (y, m, d) ->
  exists name, getMonthName (Some m) = Some name /\
               DateUtility.dateToGrid env s cb =
               cb name + positionWithinMonth d.
Proof.
  intros Hz He H. pose proof (isoCalendarDate_fields _ _ _ _ H) as (Hf & Hv & _).
  pose proof (validYMD_bounds y m d Hv) as [Hm _].
  destruct (getMonthName_base m Hm) as (name & Hn & _).
  exists name. split; [exact Hn|].
  unfold DateUtility.dateToGrid. rewrite (newDate_iso env s y m d H).
  destruct (getters_utcMidnight env y m d Hz He Hv) as (_ & Hgm & Hgd).
  rewrite Hgd, Hgm. simpl addN. replace (m - 1 + 1) with m by lia.
  now rewrite Hn.
Qed.


(** ** The start column *)

Lemma isStartOfMonth_iso (env : Env) (s : string) (y m d : Z) :
  regularZone env ->
  JsDate.isoCalendarDate (chars s) = Some (y, m, d) ->
  isStartOfMonth env s = ((1 <=? d) && (d <=? 3)) /\
  isEndOfPreviousMonth env s = ((1 <=? d) && (d <=? 3)) /\
  isEndOfMonth env s = (26 <=? d).
Proof.
  intros Hz H. pose proof (isoCalendarDate_fields _ _ _ _ H) as (_ & Hv & _).
  unfold isStartOfMonth, isEndOfPreviousMonth, isEndOfMonth.
  rewrite (parseDateSafe_iso env s y m d Hz H).
  destruct (getters_localMidnight env y m d Hz Hv) as (_ & _ & ->). auto.
Qed.

Lemma monthToGridOpt_name (m : Z) :
  1 <= m <= 12 ->
  monthToGridOpt (getMonthName (Some m)) = Returns (monthBase m).
Proof.
  intros H. destruct (getMonthName_base m H) as (name & -> & Hb & _).
  unfold monthToGridOpt, monthToGrid. now rewrite Hb.
Qed.

(** The start block of [generateStory] on a calendar date that is not
    before the roadmap year, in a zone that is not behind UTC. *)
Lemma startGridOf_in_year (g : Generator) (env : Env) (story : Story)
      (s : string) (y m d : Z) :
  regularZone env -> notBehindUTC env ->
  truthy (startDate story) = Some s ->
  JsDate.isoCalendarDate (chars (isoOfStoryDate g env s)) = Some (y, m, d) ->
  roadmapYear g <= y ->
  startGridOf g env story =
  Returns (story,
           if d <=? 3 then monthBase m
           else if d <=? 27 then monthBase m + positionWithinMonth d - 2
           else monthBase (if m =? 12 then 1 else m + 1)).
Proof.
  intros Hz He Hs Hiso Hy.
  pose proof (isoCalendarDate_fields _ _ _ _ Hiso) as (_ & Hv & _).
  pose proof (validYMD_bounds y m d Hv) as [Hm Hd].
  unfold startGridOf. rewrite Hs.
  rewrite (newDate_iso env _ y m d Hiso).
  destruct (getters_utcMidnight env y m d Hz He Hv) as (-> & -> & ->).
  replace (y <? roadmapYear g) with false by (symmetry; apply Z.ltb_ge; lia).
  destruct (isStartOfMonth_iso env _ y m d Hz Hiso) as (-> & -> & _).
  replace (m - 1 + 1) with m by lia.
  replace (1 <=? d) with true by (symmetry; apply Z.leb_le; lia).
  simpl andb.
  destruct (d <=? 3) eqn:E3.
  - now rewrite (monthToGridOpt_name m Hm).
  - apply Z.leb_gt in E3.
    destruct (28 <=? d) eqn:E28.
    + apply Z.leb_le in E28.
      replace (d <=? 27) with false by (symmetry; apply Z.leb_gt; lia).
      rewrite monthToGridOpt_name; [reflexivity|].
      destruct (m =? 12) eqn:E12; [lia|apply Z.eqb_neq in E12; lia].
    + apply Z.leb_gt in E28.
      replace (d <=? 27) with true by (symmetry; apply Z.leb_le; lia).
      replace (4 <=? d) with true by (symmetry; apply Z.leb_le; lia).
      simpl andb.
      destruct (dateToGrid_iso env _ y m d monthToGrid Hz He Hiso)
        as (name & Hn & Hg).
      unfold RoadmapGenerator.dateToGrid. rewrite Hg.
      destruct (getMonthName_base m Hm) as (name' & Hn' & Hb & _).
      rewrite Hn in Hn'. injection Hn' as <-.
      unfold monthToGrid. now rewrite Hb.
Qed.

(** ** The end column *)

Lemma civilOf_valid (t : Z) :
  let '(y, m, d) := JsDate.civilOf t in JsDate.validYMD y m d = true.
Proof. unfold JsDate.civilOf. apply civilFromDays_valid. Qed.

Lemma getters_inv (env : Env) (t y m d : Z) :
  JsDate.getFullYear (localTZA env) (Some t) = Some y ->
  JsDate.getMonth (localTZA env) (Some t) = Some (m - 1) ->
  JsDate.getDate (localTZA env) (Some t) = Some d ->
  JsDate.civilOf (JsDate.LocalTime (localTZA env) t) = (y, m, d) /\
  JsDate.validYMD y m d = true.
Proof.
  unfold JsDate.getFullYear, JsDate.getMonth, JsDate.getDate.
  pose proof (civilOf_valid (JsDate.LocalTime (localTZA env) t)) as Hv.
  destruct (JsDate.civilOf _) as [[y0 m0] d0]. simpl.
  intros [= ->] [= Hm] [= ->]. assert (m0 = m) by lia. subst. auto.
Qed.

Lemma daysInMonth_min (y m : Z) : 28 <= JsDate.daysInMonth y m <= 31.
Proof.
  unfold JsDate.daysInMonth.
  destruct (m =? 2); [destruct (JsDate.isLeap y); lia|].
  destruct ((m =? 4) || (m =? 6) || (m =? 9) || (m =? 11)); lia.
Qed.

Lemma validYMD_small (y m d : Z) :
  1 <= m <= 12 -> 1 <= d <= 28 -> JsDate.validYMD y m d = true.
Proof.
  intros Hm Hd. unfold JsDate.validYMD.
  pose proof (daysInMonth_min y m).
  repeat (apply andb_true_iff; split); apply Z.leb_le; lia.
Qed.

Lemma timeClip_about (n a : Z) :
  -99900000 <= n <= 99900000 ->
  - 2 * JsDate.msPerDay < a < 2 * JsDate.msPerDay ->
  JsDate.timeClip (n * JsDate.msPerDay + a) = Some (n * JsDate.msPerDay + a).
Proof.
  unfold JsDate.timeClip, JsDate.maxTime, JsDate.msPerDay. intros H Hr.
  destruct (Z.abs (n * 86400000 + a) <=? 8640000000000000) eqn:E;
    [reflexivity|].
  apply Z.leb_gt in E. lia.
Qed.

Lemma civilOf_two_days (n r : Z) :
  0 <= r < 2 * JsDate.msPerDay ->
  JsDate.civilOf (n * JsDate.msPerDay + r) = JsDate.civilFromDays n \/
  JsDate.civilOf (n * JsDate.msPerDay + r) = JsDate.civilFromDays (n + 1).
Proof.
  intros H. unfold JsDate.civilOf.
  destruct (Z_lt_ge_dec r JsDate.msPerDay) as [L|G]; [left|right]; f_equal;
    unfold JsDate.msPerDay in *; Z.div_mod_to_equations; lia.
Qed.

(** One month back from one of the first 27 days of a month, in local
    time: the time of day is kept, and where the zone moves it forward
    the date stays in the month. *)
Lemma setMonth_previous (env : Env) (t y m d : Z) :
  regularZone env ->
  JsDate.civilOf (JsDate.LocalTime (localTZA env) t) = (y, m, d) ->
  JsDate.validYMD y m d = true ->
  d <= 27 -> -270000 <= y <= 270000 ->
  JsDate.getMonth (localTZA env)
    (JsDate.setMonth (localTZA env) (Some t) (Some (m - 2))) =
  Some ((if m =? 1 then 12 else m - 1) - 1).
Proof.
  intros Hz Hc Hv Hd Hy. pose proof Hz as [Hb Hr].
  pose proof (validYMD_bounds y m d Hv) as [Hm Hd1].
  unfold JsDate.setMonth. cbv zeta. rewrite Hc.
  set (M := if m =? 1 then 12 else m - 1).
  set (Y := if m =? 1 then y - 1 else y).
  assert (HM : 1 <= M <= 12)
    by (unfold M; destruct (m =? 1) eqn:E; [lia|apply Z.eqb_neq in E; lia]).
  assert (Emk : JsDate.makeDay y (m - 2) d = JsDate.daysFromCivil Y M d).
  { unfold JsDate.makeDay, Y, M. rewrite (daysFromCivil_day _ _ d).
    destruct (m =? 1) eqn:E.
    - apply Z.eqb_eq in E. subst m. reflexivity.
    - apply Z.eqb_neq in E.
      rewrite (Z.div_small (m - 2) 12), (Z.mod_small (m - 2) 12) by lia.
      do 3 f_equal; lia. }
  rewrite Emk.
  set (n := JsDate.daysFromCivil Y M d).
  assert (Hn : -99900000 <= n <= 99900000)
    by (apply daysFromCivil_bounds; unfold Y; destruct (m =? 1); lia).
  pose proof (Z.mod_pos_bound (JsDate.LocalTime (localTZA env) t)
                JsDate.msPerDay ltac:(unfold JsDate.msPerDay; lia)) as Hrem.
  set (r := JsDate.LocalTime (localTZA env) t mod JsDate.msPerDay) in *.
  set (X := n * JsDate.msPerDay + r).
  pose proof (Hb X false) as HbX. pose proof (Hr X) as HrX.
  assert (Eu : JsDate.UTC (localTZA env) X
               = n * JsDate.msPerDay + (r - localTZA env X false))
    by (unfold JsDate.UTC, X; lia).
  rewrite Eu, timeClip_about by (exact Hn || lia).
  rewrite <- Eu. unfold JsDate.getMonth.
  assert (El : JsDate.LocalTime (localTZA env) (JsDate.UTC (localTZA env) X)
               = n * JsDate.msPerDay +
                 (r + (localTZA env (JsDate.UTC (localTZA env) X) true
                       - localTZA env X false)))
    by (unfold JsDate.LocalTime, JsDate.UTC, X; lia).
  rewrite El.
  assert (E0 : JsDate.civilFromDays n = (Y, M, d)).
  { apply civilFromDays_daysFromCivil, validYMD_small; lia. }
  assert (E1 : JsDate.civilFromDays (n + 1) = (Y, M, d + 1)).
  { replace (n + 1) with (JsDate.daysFromCivil Y M (d + 1))
      by (unfold n; rewrite (daysFromCivil_day Y M (d + 1)),
            (daysFromCivil_day Y M d); lia).
    apply civilFromDays_daysFromCivil, validYMD_small; lia. }
  destruct (civilOf_two_days n
              (r + (localTZA env (JsDate.UTC (localTZA env) X) true
                    - localTZA env X false)) ltac:(lia)) as [-> | ->];
    [rewrite E0|rewrite E1]; reflexivity.
Qed.

Lemma truthy_Some (o : option string) (v : string) :
  truthy o = Some v -> String.eqb v EmptyString = false /\ o = Some v.
Proof.
  unfold truthy. destruct o as [s|]; [|discriminate].
  destruct (String.eqb s EmptyString) eqn:E; [discriminate|].
  intros [= ->]. auto.
Qed.


Lemma iso_includes_dash (s : string) :
  ISO_DATE_REGEX s = true -> includesChar "-" s = true.
Proof.
  unfold ISO_DATE_REGEX. destruct (JsDate.isoFields (chars s)) as [[[y m] d]|] eqn:E;
    [intros _|discriminate].
  apply isoFields_shape in E
    as (y1 & y2 & y3 & y4 & s1 & m1 & m2 & s2 & d1 & d2 & E & _ & H1 & _).
  unfold includesChar. rewrite E. cbn [existsb].
  assert (Ascii.eqb "-" s1 = true) as ->.
  { clear -H1. revert H1. destruct s1 as [[] [] [] [] [] [] [] []]; vm_compute; congruence. }
  now rewrite !orb_true_r.
Qed.

(** A value that is no date goes to the month table. *)
Lemma getGridPosition_month (env : Env) (v : string) :
  String.eqb v EmptyString = false ->
  includesChar "-" v = false -> EUROPEAN_DATE_REGEX v = false ->
  RoadmapGenerator.getGridPosition env (Some v) = getMonthGridPosition v.
Proof.
  intros Hne Hd He.
  unfold RoadmapGenerator.getGridPosition, DateUtility.getGridPosition.
  simpl truthy. rewrite Hne, He.
  destruct (ISO_DATE_REGEX v) eqn:Ei; [|reflexivity].
  apply iso_includes_dash in Ei. congruence.
Qed.

Lemma endGridOf_end_of_month (g : Generator) (env : Env) (story : Story)
      (v : string) (sg m d : Z) :
  truthy (getEffectiveEndDate env story) = Some v ->
  isEffectiveEndDateADate env story = true ->
  JsDate.getMonth (localTZA env) (parseDateSafe env v) = Some (m - 1) ->
  JsDate.getDate (localTZA env) (parseDateSafe env v) = Some d ->
  26 <= d ->
  endGridOf g env story sg = monthBase m + 10.
Proof.
  intros Hv Hdate Hm Hd H26. unfold endGridOf. rewrite Hv, Hdate.
  unfold isEndOfMonth. rewrite Hd.
  replace (26 <=? d) with true by (symmetry; apply Z.leb_le; lia).
  cbn [negb andb]. rewrite Hm. cbn [addN].
  replace (m - 1 + 1) with m by lia.
  destruct (parseDateSafe env v) as [t|]; [|discriminate].
  destruct (JsDate.getFullYear (localTZA env) (Some t)) as [y|] eqn:Hy;
    [|discriminate].
  destruct (getters_inv env t y m d Hy Hm Hd) as [_ Hval].
  pose proof (validYMD_bounds y m d Hval) as [Hmb _].
  destruct (getMonthName_base m Hmb) as (name & -> & _ & Hg).
  now rewrite (Hg env).
Qed.

Lemma endGridOf_end_of_previous_month (g : Generator) (env : Env)
      (story : Story) (v : string) (sg y m d : Z) :
  regularZone env ->
  truthy (getEffectiveEndDate env story) = Some v ->
  isEffectiveEndDateADate env story = true ->
  JsDate.getFullYear (localTZA env) (parseDateSafe env v) = Some y ->
  JsDate.getMonth (localTZA env) (parseDateSafe env v) = Some (m - 1) ->
  JsDate.getDate (localTZA env) (parseDateSafe env v) = Some d ->
  d <= 3 -> -270000 <= y <= 270000 ->
  endGridOf g env story sg = monthBase (if m =? 1 then 12 else m - 1) + 10.
Proof.
  intros Hz Hv Hdate Hy Hm Hd H3 Hyr. unfold endGridOf. rewrite Hv, Hdate.
  unfold isEndOfMonth, isEndOfPreviousMonth. rewrite Hd.
  destruct (parseDateSafe env v) as [t|] eqn:Hp; [|discriminate].
  destruct (getters_inv env t y m d Hy Hm Hd) as [Hc Hval].
  pose proof (validYMD_bounds y m d Hval) as [Hmb Hdb].
  replace (26 <=? d) with false by (symmetry; apply Z.leb_gt; lia).
  replace (1 <=? d) with true by (symmetry; apply Z.leb_le; lia).
  replace (d <=? 3) with true by (symmetry; apply Z.leb_le; lia).
  cbn [negb andb]. unfold getPreviousMonthName. rewrite Hp, Hm.
  cbn [addN]. replace (m - 1 + -1) with (m - 2) by lia.
  rewrite (setMonth_previous env t y m d Hz Hc Hval) by lia.
  cbn [addN].
  set (M := if m =? 1 then 12 else m - 1).
  assert (HM : 1 <= M <= 12)
    by (unfold M; destruct (m =? 1) eqn:E; [lia|apply Z.eqb_neq in E; lia]).
  replace (M - 1 + 1) with M by lia.
  destruct (getMonthName_base M HM) as (name & -> & _ & Hg).
  now rewrite (Hg env).
Qed.

Lemma endGridOf_month_token (g : Generator) (env : Env) (story : Story)
      (v : string) (sg : Z) :
  truthy (getEffectiveEndDate env story) = Some v ->
  isEffectiveEndDateADate env story = false ->
  endGridOf g env story sg = getMonthGridPosition v + 10.
Proof.
  intros Hv Hdate. unfold endGridOf. rewrite Hv, Hdate. cbn [negb andb].
  unfold isEffectiveEndDateADate in Hdate. rewrite Hv in Hdate.
  apply orb_false_iff in Hdate as [Hd He].
  apply truthy_Some in Hv as [Hne _].
  now rewrite (getGridPosition_month env v Hne Hd He).
Qed.

(** ** [generateStory] as a whole *)

Lemma startGridOf_story (g : Generator) (env : Env) (story story' : Story)
      (column : Z) :
  startGridOf g env story = Returns (story', column) ->
  endDate story' = endDate story /\ endMonth story' = endMonth story /\
  changes story' = changes story /\
  (story' = story \/
   exists year,
     JsDate.getFullYear (localTZA env)
       (newDate env (isoOfStoryDate g env
                       (default EmptyString (truthy (startDate story)))))
     = Some year /\ year < roadmapYear g /\
     story' = {| startDate := Some ("01/01/" +:+ intToString (roadmapYear g));
                 startMonth := startMonth story;
                 endDate := endDate story;
                 endMonth := endMonth story;
                 changes := changes story;
                 _originalStartDate := startDate story;
                 _startsInPreviousYear := true;
                 _actualStartYear := Some year |}).
Proof.
  unfold startGridOf.
  destruct (truthy (startDate story)) as [s|] eqn:Hs; cbn [default].
  - destruct (JsDate.getFullYear _) as [year|] eqn:Hy;
      [|intros [= <- _]; auto].
    destruct (JsDate.getMonth _) as [month|]; [|intros [= <- _]; auto].
    destruct (JsDate.getDate _) as [dayOfMonth|]; [|intros [= <- _]; auto].
    destruct (year <? roadmapYear g) eqn:E.
    + intros [= <- _]. cbn. repeat split; auto. right. exists year.
      apply Z.ltb_lt in E. auto.
    + match goal with
      | |- context [match ?grid with Returns _ => _ | Throws => _ end] =>
          destruct grid
      end; intros [= <- _]; auto.
  - destruct (monthToGridOpt _); [|discriminate]. intros [= <- _]. auto.
Qed.

Lemma getEffectiveEndDate_ext (env : Env) (a b : Story) :
  endDate a = endDate b -> endMonth a = endMonth b -> changes a = changes b ->
  getEffectiveEndDate env a = getEffectiveEndDate env b.
Proof. intros H1 H2 H3. unfold getEffectiveEndDate. now rewrite H1, H2, H3. Qed.

Lemma endGridOf_ext (g : Generator) (env : Env) (a b : Story) (sg : Z) :
  endDate a = endDate b -> endMonth a = endMonth b -> changes a = changes b ->
  endGridOf g env a sg = endGridOf g env b sg.
Proof.
  intros H1 H2 H3. unfold endGridOf, isEffectiveEndDateADate.
  now rewrite (getEffectiveEndDate_ext env a b H1 H2 H3).
Qed.

Lemma endGridOf_start (g : Generator) (env : Env) (story : Story)
      (v : string) (sg sg' : Z) :
  truthy (getEffectiveEndDate env story) = Some v ->
  endGridOf g env story sg = endGridOf g env story sg'.
Proof. intros H. unfold endGridOf. now rewrite H. Qed.

Lemma storyContinuesNextYear_ext (g : Generator) (env : Env) (a b : Story) :
  endDate a = endDate b ->
  storyContinuesNextYear g env a = storyContinuesNextYear g env b.
Proof. intros H. unfold storyContinuesNextYear. now rewrite H. Qed.

Lemma continuationOf_ext (g : Generator) (env : Env) (a b : Story) :
  endDate a = endDate b -> continuationOf g env a = continuationOf g env b.
Proof. intros H. unfold continuationOf. now rewrite H. Qed.

(** What a displayed story's span is made of. *)
Lemma generateStory_span (g : Generator) (env : Env) (story story' : Story)
      (span : GridSpan) :
  generateStory g env story = Returns (story', Some span) ->
  exists startGrid0,
    startGridOf g env story = Returns (story', startGrid0) /\
    continuesNextYear span = storyContinuesNextYear g env story /\
    startsBeforeRange span = storyStartsBeforeRange g env story' /\
    startGrid span =
      (if startsBeforeRange span then 1 else startGrid0) /\
    endGrid span =
      (if continuesNextYear span then 121
       else endGridOf g env story startGrid0) /\
    continuation span =
      (if continuesNextYear span then continuationOf g env story else None).
Proof.
  unfold generateStory.
  destruct (shouldDisplayStory g env story); cbn [negb]; [|discriminate].
  destruct (startGridOf g env story) as [[s0 sg0]|] eqn:Hs; [|discriminate].
  intros [= <- <-]. exists sg0.
  destruct (startGridOf_story g env story s0 sg0 Hs) as (E1 & E2 & E3 & _).
  cbn. rewrite (storyContinuesNextYear_ext g env s0 story E1).
  rewrite (endGridOf_ext g env s0 story sg0 E1 E2 E3).
  rewrite (continuationOf_ext g env s0 story E1).
  repeat split; auto.
Qed.

(** ** The month table *)

Lemma month_table (i : nat) (name s : string) :
  NAMES !! i = Some name \/ FULL_NAMES !! i = Some name ->
  toUpperCase s = name ->
  getMonthGridPosition s = monthBase (Z.of_nat i + 1).
Proof.
  intros H Hs. unfold getMonthGridPosition. rewrite Hs. clear Hs.
  do 12 (destruct i as [|i];
         [destruct H as [[= <-]|[= <-]]; vm_compute; reflexivity|]).
  destruct H as [H|H]; discriminate H.
Qed.



(* ================================================================== *)
(** * The claims *)
(* ================================================================== *)

(** ** The start column *)

(** C1.  On a host whose local time is not behind UTC, a story start
    date that normalises to a calendar date within the roadmap year is
    placed by its day of month [d]: on the base column of its month for
    [d] from 1 to 3; on the base column plus the
    bucket offset (3 for 4 to 10, 6 for 11 to 20, 9 for 21 to 27) minus
    the 2-column correction for [d] from 4 to 27; on the base column of
    the next month for [d] from 28 to 31.  That column is the start
    column of the story bar unless a search range moves the start to
    January. *)
Theorem story_start_column (g : Generator) (env : Env) (story : Story)
        (s : string) (y m d : Z) :
  regularZone env -> notBehindUTC env ->
  truthy (startDate story) = Some s ->
  JsDate.isoCalendarDate (chars (isoOfStoryDate g env s)) = Some (y, m, d) ->
  y = roadmapYear g ->
  exists column,
    startGridOf g env story = Returns (story, column) /\
    (1 <= d <= 3 -> column = monthBase m) /\
    (4 <= d <= 10 -> column = monthBase m + 3 - 2) /\
    (11 <= d <= 20 -> column = monthBase m + 6 - 2) /\
    (21 <= d <= 27 -> column = monthBase m + 9 - 2) /\
    (28 <= d <= 31 -> column = monthBase (if m =? 12 then 1 else m + 1)) /\
    (forall story' span,
        generateStory g env story = Returns (story', Some span) ->
        startsBeforeRange span = false -> startGrid span = column).
Proof.
  intros Hz He Hs Hiso Hy.
  pose proof (startGridOf_in_year g env story s y m d Hz He Hs Hiso
                ltac:(lia)) as H.
  eexists. split; [exact H|].
  unfold positionWithinMonth.
  repeat split.
  - intros Hd. replace (d <=? 3) with true by (symmetry; apply Z.leb_le; lia).
    reflexivity.
  - intros Hd.
    replace (d <=? 3) with false by (symmetry; apply Z.leb_gt; lia).
    replace (d <=? 27) with true by (symmetry; apply Z.leb_le; lia).
    replace (1 <=? d) with true by (symmetry; apply Z.leb_le; lia).
    replace (4 <=? d) with true by (symmetry; apply Z.leb_le; lia).
    replace (d <=? 10) with true by (symmetry; apply Z.leb_le; lia).
    reflexivity.
  - intros Hd.
    replace (d <=? 3) with false by (symmetry; apply Z.leb_gt; lia).
    replace (d <=? 27) with true by (symmetry; apply Z.leb_le; lia).
    replace (1 <=? d) with true by (symmetry; apply Z.leb_le; lia).
    replace (4 <=? d) with true by (symmetry; apply Z.leb_le; lia).
    replace (d <=? 10) with false by (symmetry; apply Z.leb_gt; lia).
    replace (11 <=? d) with true by (symmetry; apply Z.leb_le; lia).
    replace (d <=? 20) with true by (symmetry; apply Z.leb_le; lia).
    reflexivity.
  - intros Hd.
    replace (d <=? 3) with false by (symmetry; apply Z.leb_gt; lia).
    replace (d <=? 27) with true by (symmetry; apply Z.leb_le; lia).
    replace (1 <=? d) with true by (symmetry; apply Z.leb_le; lia).
    replace (4 <=? d) with true by (symmetry; apply Z.leb_le; lia).
    replace (d <=? 10) with false by (symmetry; apply Z.leb_gt; lia).
    replace (11 <=? d) with true by (symmetry; apply Z.leb_le; lia).
    replace (d <=? 20) with false by (symmetry; apply Z.leb_gt; lia).
    cbn [andb]. destruct ((21 <=? d) && (d <=? 25)); reflexivity.
  - intros Hd.
    replace (d <=? 3) with false by (symmetry; apply Z.leb_gt; lia).
    replace (d <=? 27) with false by (symmetry; apply Z.leb_gt; lia).
    reflexivity.
  - intros story' span Hgen Hbefore.
    destruct (generateStory_span g env story story' span Hgen)
      as (sg0 & Hsg & _ & _ & Hstart & _).
    rewrite H in Hsg. injection Hsg as _ <-.
    now rewrite Hstart, Hbefore.
Qed.

(** A zone at a fixed offset of less than a day is regular; it is not
    behind UTC when the offset is not negative, and not ahead of it
    when the offset is not positive. *)
Lemma fixedZone_regular (offset year : Z) :
  - JsDate.msPerDay < offset < JsDate.msPerDay ->
  regularZone (zonedEnv offset year).
Proof.
  intros H. unfold regularZone, zonedEnv, fixedZone. cbn [localTZA].
  split; intros; unfold JsDate.msPerDay in *; lia.
Qed.

Lemma strictEnv_regular (year : Z) :
  regularZone (strictEnv year) /\ notBehindUTC (strictEnv year) /\
  notAheadOfUTC (strictEnv year).
Proof.
  unfold regularZone, notBehindUTC, notAheadOfUTC, strictEnv, fixedZone.
  cbn [localTZA]. unfold JsDate.msPerDay.
  split; [split; intros; lia|split; intros; lia].
Qed.

Lemma fixedZone_notBehind (offset year : Z) :
  0 <= offset -> notBehindUTC (zonedEnv offset year).
Proof. intros H t. exact H. Qed.

Lemma fixedZone_notAhead (offset year : Z) :
  offset <= 0 -> notAheadOfUTC (zonedEnv offset year).
Proof. intros H t. exact H. Qed.

Lemma fixedZone_ahead (offset year : Z) :
  0 < offset -> aheadOfUTC (zonedEnv offset year).
Proof. intros H t. exact H. Qed.

(** Two hours east of UTC, the start 2025-01-15 of a 2025 roadmap is
    on column 5: January's base column 1, plus 6, minus 2; the start
    01/02/25 is on column 11, the base column of February, on the bar
    as well. *)
Lemma story_start_column_witness :
  let env := zonedEnv 7200000 2026 in
  startGridOf (generatorOf 2025) env
              (storyOf (Some "2025-01-15") None None None)
  = Returns (storyOf (Some "2025-01-15") None None None, 5) /\
  exists story' span,
    generateStory (generatorOf 2025) env
                  (storyOf (Some "01/02/25") None (Some "2025-03-15") None)
    = Returns (story', Some span) /\ startGrid span = 11.
Proof.
  intros env.
  assert (Hz : regularZone env)
    by (apply fixedZone_regular; unfold JsDate.msPerDay; lia).
  assert (He : notBehindUTC env) by (apply fixedZone_notBehind; lia).
  split.
  - destruct (story_start_column
                (generatorOf 2025) env
                (storyOf (Some "2025-01-15") None None None)
                "2025-01-15" 2025 1 15 Hz He
                ltac:(reflexivity) ltac:(vm_compute; reflexivity)
                ltac:(reflexivity))
      as (column & H & _ & _ & H1 & _).
    rewrite H, (H1 ltac:(lia)). reflexivity.
  - destruct (story_start_column
                (generatorOf 2025) env
                (storyOf (Some "01/02/25") None (Some "2025-03-15") None)
                "01/02/25" 2025 2 1 Hz He
                ltac:(reflexivity) ltac:(vm_compute; reflexivity)
                ltac:(reflexivity))
      as (column & _ & H1 & _ & _ & _ & _ & Hgen).
    eexists. eexists. split; [vm_compute; reflexivity|].
    rewrite (Hgen _ _ ltac:(vm_compute; reflexivity) ltac:(reflexivity)).
    rewrite (H1 ltac:(lia)). reflexivity.
Defined.

(** On a host behind UTC the start date is read a day early:
    [generateStory] parses it as midnight in UTC and reads its month and
    day with the local getters, where [generateEpic] parses the same
    date at midnight in local time.  Five hours behind UTC the start
    2025-02-01 of a 2025 roadmap is on column 1, the base column of
    January, not on column 11, the base column of February. *)
Lemma story_start_behind_utc :
  exists story' span,
    generateStory (generatorOf 2025) (zonedEnv (-18000000) 2026)
                  (storyOf (Some "2025-02-01") None (Some "2025-03-15") None)
    = Returns (story', Some span) /\
    JsDate.isoCalendarDate (chars "2025-02-01") = Some (2025, 2, 1) /\
    startGrid span = 1 /\ startGrid span <> monthBase 2.
Proof.
  eexists. eexists. split; [vm_compute; reflexivity|].
  split; [reflexivity|]. split; [reflexivity|]. vm_compute. discriminate.
Qed.

(** ** The width of a span *)












(** ** The month lookup *)

(** C10.  The lookup of a month name is defined on every string: in any
    casing, the three-letter and the full name of month [i + 1] give
    its base column; every string that is not in the table gives
    column 1. *)
Theorem month_lookup_total (s : string) :
  (forall (i : nat) (name : string),
      NAMES !! i = Some name \/ FULL_NAMES !! i = Some name ->
      toUpperCase s = name ->
      getMonthGridPosition s = monthBase (Z.of_nat i + 1)) /\
  (GRID_POSITIONS !! toUpperCase s = None -> getMonthGridPosition s = 1).
Proof.
  split.
  - intros i name Hname Hs. exact (month_table i name s Hname Hs).
  - intros H. unfold getMonthGridPosition. now rewrite H.
Qed.

(** December in lower case is on column 111; a misspelt month is on
    column 1. *)
Lemma month_lookup_total_witness :
  getMonthGridPosition "december" = 111 /\ getMonthGridPosition "Sept" = 1.
Proof.
  split.
  - rewrite (proj1 (month_lookup_total "december") 11%nat "DECEMBER"
                   ltac:(right; reflexivity) ltac:(vm_compute; reflexivity)).
    reflexivity.
  - exact (proj2 (month_lookup_total "Sept") ltac:(vm_compute; reflexivity)).
Defined.

(** ** Normalisation of ISO dates *)

Lemma chars_cons (s : string) (c : ascii) (r : list ascii) :
  chars s = c :: r -> s = String c (str r).
Proof. intros H. rewrite <- (str_chars s), H. reflexivity. Qed.

(** [parseTextValue] on a text that starts with a digit and names no
    month: only the European branch is left. *)
Lemma parseTextValue_numeric (env : Env) (value : string) (isEnd : bool)
      (roadmapYear : option Z) (c : ascii) (r : list ascii) :
  chars value = c :: r -> isDigit c = true ->
  forallb isDateChar (chars value) = true ->
  dayMonthPattern (chars value) = None ->
  parseTextValue env value isEnd roadmapYear =
  if EUROPEAN_DATE_REGEX value
  then europeanTextValue env value (yearOrNow env roadmapYear)
  else EmptyString.
Proof.
  intros Hc Hd Hall Hdm. unfold parseTextValue.
  rewrite (nonempty_chars value c r Hc).
  rewrite (proj1 (dateChars_fixed value Hall)).
  rewrite Hc, (monthDayPattern_digit c r Hd). rewrite <- Hc, Hdm.
  cbn [Z.eqb Pos.eqb]. rewrite (chars_cons value c r Hc) at 1.
  rewrite (monthIndexOf_digit c (str r) Hd). cbn [Z.eqb Pos.eqb negb].
  reflexivity.
Qed.

(** C6, as the code has it.  A valid ISO date string is taken as it is
    by [parseDateSafe], which returns that calendar date, in every
    regular zone, and by [convertStoryDateToISO], which returns the
    string, for every default year; [parseTextValue], the normaliser
    that takes a role and a roadmap year, does not read the ISO form and
    returns the empty string for it, for every year and both roles. *)
Theorem iso_date_normalisation (env : Env) (s : string) (y m d : Z) :
  JsDate.isoCalendarDate (chars s) = Some (y, m, d) ->
  (regularZone env ->
   JsDate.getFullYear (localTZA env) (parseDateSafe env s) = Some y /\
   JsDate.getMonth (localTZA env) (parseDateSafe env s) = Some (m - 1) /\
   JsDate.getDate (localTZA env) (parseDateSafe env s) = Some d) /\
  (forall defaultYear, convertStoryDateToISO env s defaultYear = Some s) /\
  (forall isEnd roadmapYear,
      parseTextValue env s isEnd roadmapYear = EmptyString).
Proof.
  intros H. pose proof (isoCalendarDate_fields _ _ _ _ H) as (Hf & Hv & _).
  pose proof (iso_dateChars _ _ _ _ Hf) as Hall.
  split; [|split].
  - intros Hz. rewrite (parseDateSafe_iso env s y m d Hz H).
    apply (getters_localMidnight env y m d Hz Hv).
  - intros defaultYear. unfold convertStoryDateToISO.
    rewrite (iso_nonempty s y m d Hf), (proj2 (dateChars_fixed s Hall)).
    unfold ISO_DATE_REGEX. now rewrite Hf.
  - intros isEnd roadmapYear.
    pose proof (isoFields_shape _ _ _ _ Hf)
      as (y1 & y2 & y3 & y4 & s1 & m1 & m2 & s2 & d1 & d2 & E & Hd & _).
    simpl in Hd. apply andb_true_iff in Hd as [Hd _].
    rewrite (parseTextValue_numeric env s isEnd roadmapYear y1 _ E Hd Hall
               (iso_dayMonthPattern _ y m d Hf)).
    unfold EUROPEAN_DATE_REGEX. now rewrite (iso_not_european _ y m d true Hf).
Qed.

(** 2025-01-15 is read as 15 January 2025 by [parseDateSafe], five
    hours west of UTC as anywhere, and is returned as it is by
    [convertStoryDateToISO]. *)
Lemma iso_date_normalisation_witness :
  let env := zonedEnv (-18000000) 2026 in
  JsDate.isoCalendarDate (chars "2025-01-15") = Some (2025, 1, 15) /\
  JsDate.getDate (localTZA env) (parseDateSafe env "2025-01-15") = Some 15 /\
  convertStoryDateToISO env "2025-01-15" 2030 = Some "2025-01-15".
Proof.
  intros env.
  assert (H : JsDate.isoCalendarDate (chars "2025-01-15") = Some (2025, 1, 15))
    by (vm_compute; reflexivity).
  destruct (iso_date_normalisation env "2025-01-15" 2025 1 15 H)
    as (H1 & H2 & _).
  destruct (H1 ltac:(apply fixedZone_regular; unfold JsDate.msPerDay; lia))
    as (_ & _ & H3).
  split; [exact H|]. split; [exact H3|exact (H2 2030)].
Defined.

(** C6 fails as stated: [parseTextValue] does not return the ISO date
    2025-01-15, in either role. *)
Lemma iso_date_not_normalised :
  parseTextValue (strictEnv 2026) "2025-01-15" false (Some 2025)
  = EmptyString /\
  parseTextValue (strictEnv 2026) "2025-01-15" true (Some 2025)
  = EmptyString /\
  parseTextValue (strictEnv 2026) "2025-01-15" false (Some 2025)
  <> "2025-01-15".
Proof. vm_compute. repeat split; congruence. Qed.

(** ** The last day of a month *)

Lemma isLeap_spec (y : Z) :
  JsDate.isLeap y = true <->
  (y mod 4 = 0 /\ y mod 100 <> 0) \/ y mod 400 = 0.
Proof.
  unfold JsDate.isLeap. rewrite orb_true_iff, andb_true_iff, negb_true_iff.
  rewrite !Z.eqb_eq, Z.eqb_neq. reflexivity.
Qed.

Ltac calendar_arith :=
  unfold JsDate.daysFromCivil, JsDate.doeOf;
  cbv -[Z.div Z.modulo Z.add Z.sub Z.mul Z.opp Z.le Z.lt Z.ge Z.gt];
  Z.div_mod_to_equations; lia.

(** The day after the last day of a month is the first of the next. *)
Lemma first_of_next_month (y m : Z) :
  1 <= m <= 12 ->
  JsDate.daysFromCivil (y + m / 12) (m mod 12 + 1) 1 =
  JsDate.daysFromCivil y m (JsDate.daysInMonth y m) + 1.
Proof.
  intros Hm. unfold JsDate.daysInMonth.
  destruct (JsDate.isLeap y) eqn:E;
    [apply isLeap_spec in E
    |assert (E' : ~ ((y mod 4 = 0 /\ y mod 100 <> 0) \/ y mod 400 = 0))
       by (rewrite <- isLeap_spec; congruence); clear E];
    each_month m Hm;
    match goal with
    | |- JsDate.daysFromCivil (y + ?q) ?mm 1 = _ =>
        let q' := eval vm_compute in q in
        let mm' := eval vm_compute in mm in
        change (JsDate.daysFromCivil (y + q) mm 1)
          with (JsDate.daysFromCivil (y + q') mm' 1)
    end;
    calendar_arith.
Qed.

Lemma daysInMonth_1900 (y m : Z) :
  1 <= y <= 99 -> JsDate.daysInMonth (1900 + y) m = JsDate.daysInMonth y m.
Proof.
  intros Hy. unfold JsDate.daysInMonth.
  assert (E : JsDate.isLeap (1900 + y) = JsDate.isLeap y);
    [|now rewrite E].
  unfold JsDate.isLeap.
  replace ((1900 + y) mod 4) with (y mod 4)
    by (replace (1900 + y) with (y + 475 * 4) by lia;
        symmetry; apply Z.mod_add; lia).
  replace ((1900 + y) mod 100) with (y mod 100)
    by (replace (1900 + y) with (y + 19 * 100) by lia;
        symmetry; apply Z.mod_add; lia).
  rewrite (Z.mod_small y 100), (Z.mod_small y 400) by lia.
  replace ((1900 + y) mod 400) with (300 + y)
    by (apply (Z.mod_unique _ 400 4); lia).
  replace (y =? 0) with false by (symmetry; apply Z.eqb_neq; lia).
  replace (300 + y =? 0) with false by (symmetry; apply Z.eqb_neq; lia).
  reflexivity.
Qed.

(** [new Date(year, month, 0).getDate()], the month counted from 1: the
    number of days of that month, in every regular zone. *)
Lemma last_day_of_month (env : Env) (y m : Z) :
  regularZone env ->
  y <> 0 -> -270000 <= y <= 270000 -> 1 <= m <= 12 ->
  JsDate.getDate (localTZA env)
    (JsDate.ofComponents (localTZA env) (Some y) (Some m) (Some 0))
  = Some (JsDate.daysInMonth y m).
Proof.
  intros Hz Hy0 Hy Hm. unfold JsDate.ofComponents.
  set (y' := if (0 <=? y) && (y <=? 99) then 1900 + y else y).
  assert (Hy' : -270000 <= y' <= 270000 /\
                JsDate.daysInMonth y' m = JsDate.daysInMonth y m).
  { unfold y'. destruct ((0 <=? y) && (y <=? 99)) eqn:E; [|auto].
    apply andb_true_iff in E as [E1 E2]. apply Z.leb_le in E1, E2.
    split; [lia|apply daysInMonth_1900; lia]. }
  destruct Hy' as [Hy' Hdim]. clearbody y'.
  assert (Emk : JsDate.makeDay y' m 0
                = JsDate.daysFromCivil y' m (JsDate.daysInMonth y' m)).
  { unfold JsDate.makeDay. rewrite (first_of_next_month y' m Hm). lia. }
  rewrite Emk.
  pose proof (daysInMonth_min y' m) as Hd.
  assert (Hv : JsDate.validYMD y' m (JsDate.daysInMonth y' m) = true).
  { unfold JsDate.validYMD.
    repeat (apply andb_true_iff; split); apply Z.leb_le; lia. }
  rewrite (timeClip_localMidnight env _ Hz)
    by (apply daysFromCivil_bounds; lia).
  destruct (getters_localMidnight env y' m _ Hz Hv) as (_ & _ & E).
  unfold localMidnight, utcMidnight in E. rewrite E. now rewrite Hdim.
Qed.

(** ** Normalisation of bare month names *)

(** What [parseTextValue] makes of a text that is a month name and
    nothing else. *)
Lemma parseTextValue_month (env : Env) (value : string) (isEnd : bool)
      (roadmapYear : option Z) (name : string) (index : Z) :
  trim (toUpperCase value) = name ->
  String.eqb name EmptyString = false ->
  monthDayPattern (chars name) = None ->
  dayMonthPattern (chars name) = None ->
  monthIndexOf name = index -> index <> -1 ->
  parseTextValue env value isEnd roadmapYear =
  intToString (yearOrNow env roadmapYear) +:+ "-" +:+
  padStart2 (intToString (index + 1)) +:+ "-" +:+
  padStart2 (numToString
               (if isEnd
                then JsDate.getDate (localTZA env)
                       (JsDate.ofComponents (localTZA env)
                          (Some (yearOrNow env roadmapYear))
                          (Some (index + 1)) (Some 0))
                else Some 1)).
Proof.
  intros Hname Hne Hmd Hdm Hidx Hno. unfold parseTextValue.
  destruct (String.eqb value EmptyString) eqn:E.
  - apply String.eqb_eq in E. subst value.
    change (trim (toUpperCase EmptyString)) with EmptyString in Hname.
    subst name. discriminate.
  - rewrite Hname, Hmd, Hdm. cbn [Z.eqb Pos.eqb]. rewrite Hidx.
    apply Z.eqb_neq in Hno. rewrite Hno. cbn [negb truthyNum andb].
    reflexivity.
Qed.

(** C7.  A bare month name, in the short or the full form and in any
    casing, normalises in the start role to day 1 of that month of the
    roadmap year, and in the end role, in every regular zone, to the
    last day of that month, 29 February in a leap year. *)
Theorem bare_month_normalisation (env : Env) (value : string) (i : nat)
        (name : string) (year : Z) :
  trim (toUpperCase value) = name ->
  monthNames !! i = Some name \/ fullMonthNames !! i = Some name ->
  year <> 0 -> -270000 <= year <= 270000 ->
  parseTextValue env value false (Some year) =
    intToString year +:+ "-" +:+ padStart2 (intToString (Z.of_nat i + 1))
    +:+ "-01" /\
  (regularZone env ->
   parseTextValue env value true (Some year) =
     intToString year +:+ "-" +:+ padStart2 (intToString (Z.of_nat i + 1))
     +:+ "-" +:+
     padStart2 (intToString (JsDate.daysInMonth year (Z.of_nat i + 1)))).
Proof.
  intros Hname Hi Hy0 Hy.
  assert (Hyear : yearOrNow env (Some year) = year).
  { unfold yearOrNow. apply Z.eqb_neq in Hy0. now rewrite Hy0. }
  assert (H : forall isEnd,
             parseTextValue env value isEnd (Some year) =
             intToString year +:+ "-" +:+
             padStart2 (intToString (Z.of_nat i + 1)) +:+ "-" +:+
             padStart2 (numToString
                          (if isEnd
                           then JsDate.getDate (localTZA env)
                                  (JsDate.ofComponents (localTZA env)
                                     (Some year) (Some (Z.of_nat i + 1))
                                     (Some 0))
                           else Some 1))).
  { intros isEnd. rewrite <- Hyear at 2 3.
    do 12 (destruct i as [|i];
           [destruct Hi as [[= <-]|[= <-]];
            apply (parseTextValue_month env value isEnd (Some year) _ _ Hname);
            solve [reflexivity | discriminate | vm_compute; reflexivity]|]).
    destruct Hi as [Hi|Hi]; discriminate Hi. }
  assert (Hi' : 1 <= Z.of_nat i + 1 <= 12).
  { assert (i < 12)%nat; [|lia].
    destruct Hi as [Hi|Hi]; apply lookup_lt_Some in Hi; exact Hi. }
  split.
  - rewrite (H false). reflexivity.
  - intros Hz.
    rewrite (H true), (last_day_of_month env year _ Hz Hy0 Hy Hi').
    reflexivity.
Qed.

(** AUG of 2025 is 2025-08-01 as a start and 2025-08-31 as an end;
    February of 2024 ends on 2024-02-29: five hours west of UTC as
    anywhere. *)
Lemma bare_month_normalisation_witness :
  let env := zonedEnv (-18000000) 2026 in
  parseTextValue env "AUG" false (Some 2025) = "2025-08-01" /\
  parseTextValue env "AUG" true (Some 2025) = "2025-08-31" /\
  parseTextValue env "february" true (Some 2024) = "2024-02-29".
Proof.
  intros env.
  assert (Hz : regularZone env)
    by (apply fixedZone_regular; unfold JsDate.msPerDay; lia).
  destruct (bare_month_normalisation env "AUG" 7 "AUG" 2025
              ltac:(vm_compute; reflexivity) ltac:(left; reflexivity)
              ltac:(lia) ltac:(lia)) as (H1 & H2).
  destruct (bare_month_normalisation env "february" 1 "FEBRUARY" 2024
              ltac:(vm_compute; reflexivity) ltac:(right; reflexivity)
              ltac:(lia) ltac:(lia)) as (_ & H3).
  split; [rewrite H1; vm_compute; reflexivity|].
  split; [rewrite (H2 Hz); vm_compute; reflexivity|].
  rewrite (H3 Hz). vm_compute. reflexivity.
Defined.

(** ** Normalisation of European dates *)

Lemma fourDigits_checked : allFrom fourDigitsOk (Z.to_nat 9000) 1000 = true.
Proof. vm_cast_no_check (eq_refl true). Qed.

Lemma twoDigits_checked : allFrom twoDigitsOk (Z.to_nat 100) 0 = true.
Proof. vm_cast_no_check (eq_refl true). Qed.

Lemma fourDigits (n : Z) :
  1000 <= n <= 9999 ->
  exists a b c d,
    chars (intToString n) = [a; b; c; d] /\
    forallb isDigit [a; b; c; d] = true /\ decimalValue [a; b; c; d] = n.
Proof.
  intros H. pose proof (allFrom_spec _ _ _ fourDigits_checked n) as Hc.
  rewrite Z2Nat.id in Hc by lia. specialize (Hc ltac:(lia)).
  unfold fourDigitsOk in Hc.
  destruct (chars (intToString n)) as [|a [|b [|c [|d [|? ?]]]]];
    try discriminate.
  apply andb_true_iff in Hc as [H1 H2]. apply Z.eqb_eq in H2. eauto 10.
Qed.

Lemma twoDigits (n : Z) :
  0 <= n <= 99 ->
  exists a b,
    chars (padStart2 (intToString n)) = [a; b] /\
    forallb isDigit [a; b] = true /\ decimalValue [a; b] = n.
Proof.
  intros H. pose proof (allFrom_spec _ _ _ twoDigits_checked n) as Hc.
  rewrite Z2Nat.id in Hc by lia. specialize (Hc ltac:(lia)).
  unfold twoDigitsOk in Hc.
  destruct (chars (padStart2 (intToString n))) as [|a [|b [|? ?]]];
    try discriminate.
  apply andb_true_iff in Hc as [H1 H2]. apply Z.eqb_eq in H2. eauto 10.
Qed.

(** The ISO string of a date of a four-digit year spells that date. *)
Lemma isoFields_of_string (y m d : Z) :
  1000 <= y <= 9999 -> 0 <= m <= 99 -> 0 <= d <= 99 ->
  JsDate.isoFields
    (chars (intToString y +:+ "-" +:+ padStart2 (intToString m) +:+ "-" +:+
            padStart2 (intToString d)))
  = Some (y, m, d).
Proof.
  intros Hy Hm Hd.
  destruct (fourDigits y Hy) as (y1 & y2 & y3 & y4 & Ey & Dy & Vy).
  destruct (twoDigits m Hm) as (m1 & m2 & Em & Dm & Vm).
  destruct (twoDigits d Hd) as (d1 & d2 & Ed & Dd & Vd).
  rewrite !chars_append, Ey, Em, Ed.
  change (chars "-") with ["-"%char]. cbn [app].
  unfold JsDate.isoFields, JsDate.allDigits.
  split_digits Dy. split_digits Dm. split_digits Dd.
  cbn [forallb].
  repeat match goal with
         | H : isDigit ?c = true |- context [isDigit ?c] => rewrite H
         end.
  change (isDash "-") with true. cbn [andb].
  now rewrite Vy, Vm, Vd.
Qed.






(** Five hours west of UTC the validation reads midnight in UTC as the
    evening before and refuses every date: 05/13/25 gives the empty
    result as well. *)
Lemma european_date_behind_utc :
  parseTextValue (zonedEnv (-18000000) 2026) "05/13/25" true (Some 2025)
  = EmptyString /\
  parseTextValue (zonedEnv (-18000000) 2026) "13/05/25" true (Some 2025)
  = EmptyString.
Proof. split; vm_compute; reflexivity. Qed.


(** ** The placement of the annotation *)








(** ** What the core reads and writes *)

Lemma parseTextValue_explicit_year (env1 env2 : Env) (value : string)
      (isEnd : bool) (year : Z) :
  year <> 0 -> engineParse env1 = engineParse env2 ->
  localTZA env1 = localTZA env2 ->
  parseTextValue env1 value isEnd (Some year)
  = parseTextValue env2 value isEnd (Some year).
Proof.
  intros Hy He Hz. apply Z.eqb_neq in Hy.
  destruct env1 as [e1 z1 o1 n1 f1 t1 s1], env2 as [e2 z2 o2 n2 f2 t2 s2].
  cbn in He, Hz. subst e2 z2.
  unfold parseTextValue, yearOrNow. rewrite Hy. reflexivity.
Qed.

Lemma generateStory_flags (g : Generator) (env1 env2 : Env) (story : Story) :
  engineParse env1 = engineParse env2 -> localTZA env1 = localTZA env2 ->
  engineSort env1 = engineSort env2 -> nowYear env1 = nowYear env2 ->
  generateStory g env1 story = generateStory g env2 story.
Proof.
  destruct env1 as [e1 z1 o1 n1 f1 t1 s1], env2 as [e2 z2 o2 n2 f2 t2 s2].
  cbn. intros <- <- <- <-. reflexivity.
Qed.

Lemma generateStory_story (g : Generator) (env : Env) (story story' : Story)
      (result : option GridSpan) :
  generateStory g env story = Returns (story', result) ->
  story' = story \/
  exists year,
    year < roadmapYear g /\
    story' = {| startDate := Some ("01/01/" +:+ intToString (roadmapYear g));
                startMonth := startMonth story;
                endDate := endDate story;
                endMonth := endMonth story;
                changes := changes story;
                _originalStartDate := startDate story;
                _startsInPreviousYear := true;
                _actualStartYear := Some year |}.
Proof.
  unfold generateStory.
  destruct (shouldDisplayStory g env story); cbn [negb];
    [|intros [= <- _]; now left].
  destruct (startGridOf g env story) as [[s0 sg0]|] eqn:Hs; [|discriminate].
  intros [= <- _].
  destruct (startGridOf_story g env story s0 sg0 Hs)
    as (_ & _ & _ & [H|(year & _ & Hlt & H)]); [now left|].
  right. exists year. auto.
Qed.

(** C9, as the code has it.  With a roadmap year that is given and not
    zero, [parseTextValue] is a function of its arguments, of the date
    parser of the engine and of the time zone of the host: the wall
    clock and the stored flags do not enter.  [generateStory] does not
    read the stored flags: it is a function of the generator and the
    story, of the engine's date parser and sort, of the time zone and of
    the year of the wall clock.  It leaves the story record as it is
    unless the story starts before the roadmap year, and then it
    overwrites [startDate] with 1 January of the roadmap year, a year
    that a number holds exactly, and records the original start. *)
Theorem core_determinism (g : Generator) (env1 env2 : Env) :
  engineParse env1 = engineParse env2 -> localTZA env1 = localTZA env2 ->
  (forall value isEnd year,
      year <> 0 ->
      parseTextValue env1 value isEnd (Some year)
      = parseTextValue env2 value isEnd (Some year)) /\
  (engineSort env1 = engineSort env2 -> nowYear env1 = nowYear env2 ->
   forall story, generateStory g env1 story = generateStory g env2 story) /\
  (safeInteger (roadmapYear g) ->
   forall story story' result,
      generateStory g env1 story = Returns (story', result) ->
      story' = story \/
      exists year,
        year < roadmapYear g /\
        story' =
          {| startDate := Some ("01/01/" +:+ intToString (roadmapYear g));
             startMonth := startMonth story;
             endDate := endDate story;
             endMonth := endMonth story;
             changes := changes story;
             _originalStartDate := startDate story;
             _startsInPreviousYear := true;
             _actualStartYear := Some year |}).
Proof.
  intros He Hz. split; [|split].
  - intros value isEnd year Hy.
    now apply parseTextValue_explicit_year.
  - intros Ho Hn story. now apply generateStory_flags.
  - intros _ story story' result. apply generateStory_story.
Qed.

(** With the roadmap year 2025 given, AUG is 2025-08-01 whatever the
    wall clock and the flags; a story within the year is left as it
    is. *)
Lemma core_determinism_witness :
  let env2 := {| engineParse := fun _ => None;
                 localTZA := fixedZone 0;
                 engineSort := fun A => @sortBy A;
                 nowYear := 2031;
                 shouldForceTextBelow := true; tempForceTextBelow := true;
                 searchTempForceTextBelow := false |} in
  let env3 := {| engineParse := fun _ => None;
                 localTZA := fixedZone 0;
                 engineSort := fun A => @sortBy A;
                 nowYear := 2026;
                 shouldForceTextBelow := true; tempForceTextBelow := true;
                 searchTempForceTextBelow := false |} in
  parseTextValue (strictEnv 2026) "AUG" false (Some 2025)
  = parseTextValue env2 "AUG" false (Some 2025) /\
  generateStory (generatorOf 2025) (strictEnv 2026)
                (storyOf (Some "2025-01-15") None (Some "2025-03-31") None)
  = generateStory (generatorOf 2025) env3
                  (storyOf (Some "2025-01-15") None (Some "2025-03-31") None).
Proof.
  intros env2 env3. split.
  - exact (proj1 (core_determinism (generatorOf 2025) (strictEnv 2026) env2
                    ltac:(reflexivity) ltac:(reflexivity))
                 "AUG" false 2025 ltac:(lia)).
  - exact (proj1 (proj2 (core_determinism
                           (generatorOf 2025) (strictEnv 2026) env3
                           ltac:(reflexivity) ltac:(reflexivity)))
                 ltac:(reflexivity) ltac:(reflexivity) _).
Defined.

(** C9 fails as stated.  Without a roadmap year the same text is
    normalised by the wall clock.  With the roadmap year 2025 given, the
    text 13/05/25 is normalised to 2025-05-13 on a host in UTC and to
    nothing on a host five hours west of it.  With the roadmap year 2026
    given, the end of a story whose changes are dated 01/06 and 01/01/26
    is placed by the wall clock, which decides the year of 01/06 and so
    which change is the latest.  The annotation is placed by the stored
    flag.  A story that starts before the roadmap year is
    overwritten. *)
Lemma core_reads_ambient_state :
  (parseTextValue (strictEnv 2025) "AUG" false None = "2025-08-01" /\
   parseTextValue (strictEnv 2026) "AUG" false None = "2026-08-01") /\
  (parseTextValue (zonedEnv 0 2026) "13/05/25" true (Some 2025)
   = "2025-05-13" /\
   parseTextValue (zonedEnv (-18000000) 2026) "13/05/25" true (Some 2025)
   = EmptyString) /\
  (exists story1 span1 story2 span2,
      generateStory (generatorOf 2026) (strictEnv 2025) movedStory
      = Returns (story1, Some span1) /\
      generateStory (generatorOf 2026) (strictEnv 2027) movedStory
      = Returns (story2, Some span2) /\
      endGrid span1 = 91 /\ endGrid span2 = 31) /\
  (exists story1 box1 story2 box2,
      epicTextBox (generatorOf 2025) (strictEnv 2026)
                  (storyOf None (Some "JAN") None (Some "NOV")) 5
      = Returns (story1, Some box1) /\
      epicTextBox (generatorOf 2025)
                  {| engineParse := fun _ => None;
                     localTZA := fixedZone 0;
                     engineSort := fun A => @sortBy A;
                     nowYear := 2026;
                     shouldForceTextBelow := true;
                     tempForceTextBelow := false;
                     searchTempForceTextBelow := false |}
                  (storyOf None (Some "JAN") None (Some "NOV")) 5
      = Returns (story2, Some box2) /\
      changeStartGrid box1 = 2 /\ changeStartGrid box2 = 1) /\
  (exists story' span,
      generateStory (generatorOf 2025) (strictEnv 2026)
                    (storyOf (Some "15/06/24") None (Some "2025-03-15") None)
      = Returns (story', Some span) /\
      startDate story' = Some "01/01/2025" /\
      story' <> storyOf (Some "15/06/24") None (Some "2025-03-15") None).
Proof.
  split; [split; vm_compute; reflexivity|].
  split; [split; vm_compute; reflexivity|].
  split; [do 4 eexists; repeat split; vm_compute; reflexivity|].
  split; [do 4 eexists; repeat split; vm_compute; reflexivity|].
  do 2 eexists. split; [vm_compute; reflexivity|].
  split; [reflexivity|]. intros H. discriminate H.
Qed.

(* ================================================================== *)
(** * The calendar order *)
(* ================================================================== *)

(** The day number in closed form: the days of the years before the
    March year, and the day of that year. *)
Lemma daysFromCivil_closed (y m d : Z) :
  let y' := if m <=? 2 then y - 1 else y in
  JsDate.daysFromCivil y m d =
  365 * y' + y' / 4 - y' / 100 + y' / 400
  + (153 * ((m + 9) mod 12) + 2) / 5 + d - 1 - 719468.
Proof.
  cbv zeta. unfold JsDate.daysFromCivil, JsDate.doeOf.
  destruct (m <=? 2); Z.div_mod_to_equations; lia.
Qed.

(** An earlier date of the calendar has a smaller day number. *)
Lemma daysFromCivil_lt (y1 m1 d1 y2 m2 d2 : Z) :
  JsDate.validYMD y1 m1 d1 = true -> JsDate.validYMD y2 m2 d2 = true ->
  y1 < y2 \/ (y1 = y2 /\ (m1 < m2 \/ (m1 = m2 /\ d1 < d2))) ->
  JsDate.daysFromCivil y1 m1 d1 < JsDate.daysFromCivil y2 m2 d2.
Proof.
  intros H1 H2 Hlt.
  rewrite !daysFromCivil_closed. cbv zeta.
  apply validYMD_bounds in H2 as [Hb1 Hb2].
  unfold JsDate.validYMD, JsDate.daysInMonth, JsDate.isLeap in H1.
  rewrite !andb_true_iff, !Z.leb_le in H1.
  destruct H1 as [[[Ha1 Ha2] Ha3] Ha4].
  destruct (Z.leb_spec m2 2);
  each_month m1 (conj Ha1 Ha2);
    revert Ha4; eval_ground; intros Ha4;
    try (revert Ha4;
         destruct (Z.eqb_spec (y1 mod 4) 0), (Z.eqb_spec (y1 mod 100) 0),
           (Z.eqb_spec (y1 mod 400) 0); cbn [andb orb negb]; intros Ha4);
    Z.div_mod_to_equations; lia.
Qed.

(** The order of the day numbers is the order of the calendar. *)
Lemma daysFromCivil_order (y1 m1 d1 y2 m2 d2 : Z) :
  JsDate.validYMD y1 m1 d1 = true -> JsDate.validYMD y2 m2 d2 = true ->
  (JsDate.daysFromCivil y1 m1 d1 < JsDate.daysFromCivil y2 m2 d2 <->
   y1 < y2 \/ (y1 = y2 /\ (m1 < m2 \/ (m1 = m2 /\ d1 < d2)))).
Proof.
  intros H1 H2. split; [|apply daysFromCivil_lt; assumption].
  intros Hlt.
  assert (C : (y1 < y2 \/ (y1 = y2 /\ (m1 < m2 \/ (m1 = m2 /\ d1 < d2)))) \/
              (y1 = y2 /\ m1 = m2 /\ d1 = d2) \/
              (y2 < y1 \/ (y2 = y1 /\ (m2 < m1 \/ (m2 = m1 /\ d2 < d1)))))
    by lia.
  destruct C as [C|[(-> & -> & ->)|C]]; [exact C|lia|].
  pose proof (daysFromCivil_lt _ _ _ _ _ _ H2 H1 C). lia.
Qed.

(** Within an era, the day of the civil date of a day is that day. *)
Lemma doeOf_civilOfDoe (doe : Z) :
  0 <= doe < 146097 ->
  let '(y, m, d) := JsDate.civilOfDoe doe in
  let yoe := if m <=? 2 then y - 1 else y in
  0 <= yoe < 400 /\ JsDate.doeOf yoe m d = doe.
Proof.
  intros H. unfold JsDate.civilOfDoe.
  pose proof (yearOfEra_bounds doe H) as K. cbv zeta in K.
  set (Y := (doe - doe / 1460 + doe / 36524 - doe / 146096) / 365) in *.
  clearbody Y. destruct K as (HY & Hlo & Hhi).
  set (doy := doe - (365 * Y + Y / 4 - Y / 100)).
  assert (Hdoy : 0 <= doy <= 365 /\ doe = 365 * Y + Y / 4 - Y / 100 + doy)
    by (subst doy; Z.div_mod_to_equations; lia).
  clearbody doy. destruct Hdoy as [Hdoy ->]. clear Hlo Hhi H.
  set (mp := (5 * doy + 2) / 153).
  assert (Hb : 153 * mp <= 5 * doy + 2 < 153 * mp + 153)
    by (subst mp; Z.div_mod_to_equations; lia).
  clearbody mp.
  assert (Hmp : mp = 0 \/ mp = 1 \/ mp = 2 \/ mp = 3 \/ mp = 4 \/ mp = 5 \/
                mp = 6 \/ mp = 7 \/ mp = 8 \/ mp = 9 \/ mp = 10 \/ mp = 11)
    by lia.
  cbv zeta. unfold JsDate.doeOf.
  repeat (destruct Hmp as [-> | Hmp]); try subst mp; eval_ground;
    (split; [lia|]); Z.div_mod_to_equations; lia.
Qed.

(** The day number of the civil date of a day number is that number. *)
Lemma daysFromCivil_civilFromDays (z : Z) :
  let '(y, m, d) := JsDate.civilFromDays z in
  JsDate.daysFromCivil y m d = z.
Proof.
  unfold JsDate.civilFromDays.
  pose proof (Z.mod_pos_bound (z + 719468) 146097 ltac:(lia)) as B.
  pose proof (doeOf_civilOfDoe _ B) as R.
  destruct (JsDate.civilOfDoe ((z + 719468) mod 146097)) as [[y m] d].
  cbv zeta in R. destruct R as [Hy R].
  unfold JsDate.daysFromCivil.
  set (y' := if m <=? 2 then y + (z + 719468) / 146097 * 400 - 1
             else y + (z + 719468) / 146097 * 400).
  set (yoe := if m <=? 2 then y - 1 else y) in *.
  assert (E : y' = yoe + (z + 719468) / 146097 * 400)
    by (unfold y', yoe; destruct (m <=? 2); lia).
  rewrite E, Z.div_add, Z.mod_add by lia.
  rewrite Z.div_small, Z.mod_small by lia.
  rewrite R. pose proof (Z.div_mod (z + 719468) 146097 ltac:(lia)). lia.
Qed.

(* ================================================================== *)
(** * Strings of digits *)
(* ================================================================== *)

Lemma code_inj (a b : ascii) : code a = code b -> a = b.
Proof.
  unfold code. intros H. apply N2Z.inj in H.
  rewrite <- (ascii_N_embedding a), <- (ascii_N_embedding b). now rewrite H.
Qed.

Lemma digitVal_inj (a b : ascii) : digitVal a = digitVal b -> a = b.
Proof. unfold digitVal. intros H. apply code_inj. lia. Qed.

Lemma digit_code (c : ascii) : isDigit c = true -> 48 <= code c <= 57.
Proof.
  unfold isDigit. intros H. apply andb_true_iff in H as [H1 H2].
  apply Z.leb_le in H1, H2. lia.
Qed.

Lemma digit_not_space (c : ascii) : isDigit c = true -> isSpace c = false.
Proof.
  intros H. apply digit_code in H. unfold isSpace.
  repeat match goal with
         | |- context [?a <=? ?b] => destruct (Z.leb_spec a b); try lia
         | |- context [?a =? ?b] => destruct (Z.eqb_spec a b); try lia
         end; reflexivity.
Qed.

Lemma digit_not_slash (c : ascii) : isDigit c = true -> isSlash c = false.
Proof.
  intros H. apply digit_code in H. unfold isSlash.
  destruct (Z.eqb_spec (code c) 47); [lia|reflexivity].
Qed.

Lemma digit_not_dash (c : ascii) : isDigit c = true -> isDash c = false.
Proof.
  intros H. apply digit_code in H. unfold isDash.
  destruct (Z.eqb_spec (code c) 45); [lia|reflexivity].
Qed.

Lemma decimalValue2 (a b : ascii) :
  decimalValue [a; b] = 10 * digitVal a + digitVal b.
Proof. unfold decimalValue. simpl. lia. Qed.

Lemma decimalValue4 (a b c d : ascii) :
  decimalValue [a; b; c; d] =
  1000 * digitVal a + 100 * digitVal b + 10 * digitVal c + digitVal d.
Proof. unfold decimalValue. simpl. lia. Qed.

(** Two digits are spelt in one way only, and so are four. *)
Lemma decimalValue2_inj (a b a' b' : ascii) :
  forallb isDigit [a; b] = true -> forallb isDigit [a'; b'] = true ->
  decimalValue [a; b] = decimalValue [a'; b'] -> [a; b] = [a'; b'].
Proof.
  intros H H'. split_digits H. split_digits H'.
  rewrite !decimalValue2. intros E.
  repeat match goal with
         | D : isDigit _ = true |- _ => apply digit_bounds in D
         end.
  assert (digitVal a = digitVal a' /\ digitVal b = digitVal b') as [Ea Eb]
    by lia.
  apply digitVal_inj in Ea, Eb. now subst.
Qed.

Lemma decimalValue4_inj (a b c d a' b' c' d' : ascii) :
  forallb isDigit [a; b; c; d] = true ->
  forallb isDigit [a'; b'; c'; d'] = true ->
  decimalValue [a; b; c; d] = decimalValue [a'; b'; c'; d'] ->
  [a; b; c; d] = [a'; b'; c'; d'].
Proof.
  intros H H'. split_digits H. split_digits H'.
  rewrite !decimalValue4. intros E.
  repeat match goal with
         | D : isDigit _ = true |- _ => apply digit_bounds in D
         end.
  assert (digitVal a = digitVal a' /\ digitVal b = digitVal b' /\
          digitVal c = digitVal c' /\ digitVal d = digitVal d')
    as (Ea & Eb & Ec & Ed) by lia.
  apply digitVal_inj in Ea, Eb, Ec, Ed. now subst.
Qed.

(** [String(n)] of a number of four digits is the four digits that
    spell it. *)
Lemma intToString_four (a b c d : ascii) :
  forallb isDigit [a; b; c; d] = true ->
  1000 <= decimalValue [a; b; c; d] ->
  intToString (decimalValue [a; b; c; d]) = str [a; b; c; d].
Proof.
  intros H Hlo. pose proof (decimalValue4_bounds a b c d H) as Hb.
  destruct (fourDigits (decimalValue [a; b; c; d]) ltac:(lia))
    as (a' & b' & c' & d' & E & Hd & Hv).
  rewrite <- (str_chars (intToString _)), E. f_equal.
  apply decimalValue4_inj; assumption.
Qed.

Lemma decimalValue2_bounds (a b : ascii) :
  forallb isDigit [a; b] = true -> 0 <= decimalValue [a; b] <= 99.
Proof.
  intros H. split_digits H. rewrite decimalValue2.
  repeat match goal with
         | D : isDigit _ = true |- _ => apply digit_bounds in D
         end. lia.
Qed.

(** [String(n).padStart(2, '0')] of a number of two digits is the two
    digits that spell it. *)
Lemma padStart2_two (a b : ascii) :
  forallb isDigit [a; b] = true ->
  padStart2 (intToString (decimalValue [a; b])) = str [a; b].
Proof.
  intros H. pose proof (decimalValue2_bounds a b H) as Hb.
  destruct (twoDigits (decimalValue [a; b]) Hb) as (a' & b' & E & Hd & Hv).
  rewrite <- (str_chars (padStart2 _)), E. f_equal.
  apply decimalValue2_inj; assumption.
Qed.

(** A valid ISO date string from the year 1000 is the canonical
    spelling of its date. *)
Lemma iso_canonical (s : string) (y m d : Z) :
  JsDate.isoCalendarDate (chars s) = Some (y, m, d) -> 1000 <= y ->
  s = intToString y +:+ "-" +:+ padStart2 (intToString m) +:+ "-" +:+
      padStart2 (intToString d).
Proof.
  intros H Hy. apply isoCalendarDate_fields in H as (Hf & _ & _).
  apply isoFields_shape in Hf
    as (y1 & y2 & y3 & y4 & s1 & m1 & m2 & s2 & d1 & d2 & E & Hd & Hs1 & Hs2
        & -> & -> & ->).
  split_digits Hd.
  assert (D4 : forallb isDigit [y1; y2; y3; y4] = true)
    by (cbn [forallb]; now rewrite Hd0, Hd1, Hd2, Hd3).
  assert (Dm : forallb isDigit [m1; m2] = true)
    by (cbn [forallb]; now rewrite Hd4, Hd5).
  assert (Dd : forallb isDigit [d1; d2] = true)
    by (cbn [forallb]; now rewrite Hd6, Hd7).
  rewrite (intToString_four _ _ _ _ D4 Hy), (padStart2_two _ _ Dm),
    (padStart2_two _ _ Dd).
  unfold isDash in Hs1, Hs2. apply Z.eqb_eq in Hs1, Hs2.
  assert (s1 = "-"%char) by (apply code_inj; rewrite Hs1; reflexivity).
  assert (s2 = "-"%char) by (apply code_inj; rewrite Hs2; reflexivity).
  subst s1 s2. rewrite <- (str_chars s), E. reflexivity.
Qed.

(** [parseInt] of a string of digits is the number they spell. *)
Lemma parseInt_digits (ds : list ascii) :
  ds <> [] -> forallb isDigit ds = true ->
  parseInt (str ds) = Some (decimalValue ds).
Proof.
  intros Hne Hd. unfold parseInt. rewrite chars_str.
  destruct ds as [|c r]; [congruence|]. clear Hne.
  simpl in Hd. apply andb_true_iff in Hd as [Hc Hr].
  cbn [dropWhile]. rewrite (digit_not_space c Hc).
  pose proof (digit_code c Hc) as Bc.
  destruct (Z.eqb_spec (code c) 45); [lia|].
  destruct (Z.eqb_spec (code c) 43); [lia|].
  assert (Hhex : match c :: r with
                 | z :: x :: _ =>
                     (code z =? 48) && ((code x =? 120) || (code x =? 88))
                 | _ => false
                 end = false).
  { destruct r as [|x r']; [reflexivity|].
    simpl in Hr. apply andb_true_iff in Hr as [Hx _].
    pose proof (digit_code x Hx).
    destruct (Z.eqb_spec (code x) 120); [lia|].
    destruct (Z.eqb_spec (code x) 88); [lia|].
    now rewrite andb_false_r. }
  rewrite Hhex.
  assert (Ht : takeWhile isDigit (c :: r) = c :: r).
  { cbn [takeWhile]. rewrite Hc. f_equal.
    clear -Hr. induction r as [|x r IH]; [reflexivity|].
    simpl in Hr. apply andb_true_iff in Hr as [Hx Hr].
    cbn [takeWhile]. now rewrite Hx, IH. }
  rewrite Ht. reflexivity.
Qed.

(** ** Splitting *)

Lemma splitList_none (p : ascii -> bool) (l : list ascii) :
  forallb (fun c => negb (p c)) l = true -> splitList p l = [l].
Proof.
  induction l as [|c r IH]; [reflexivity|].
  simpl. intros H. apply andb_true_iff in H as [Hc Hr].
  apply negb_true_iff in Hc. now rewrite Hc, (IH Hr).
Qed.

Lemma splitList_app (p : ascii -> bool) (a b : list ascii) (c : ascii) :
  forallb (fun c => negb (p c)) a = true -> p c = true ->
  splitList p (a ++ c :: b) = a :: splitList p b.
Proof.
  intros Ha Hc. induction a as [|x a IH]; simpl.
  - now rewrite Hc.
  - simpl in Ha. apply andb_true_iff in Ha as [Hx Ha].
    apply negb_true_iff in Hx. now rewrite Hx, (IH Ha).
Qed.

Lemma includesChar_app (c : ascii) (a b : string) :
  includesChar c (a +:+ b) = includesChar c a || includesChar c b.
Proof. unfold includesChar. now rewrite chars_append, existsb_app. Qed.

Lemma chars_length (s : string) : length (chars s) = String.length s.
Proof.
  induction s as [|c s IH]; [reflexivity|].
  unfold chars in *. simpl. now rewrite IH.
Qed.

Lemma str_app (a b : list ascii) : str (a ++ b) = str a +:+ str b.
Proof.
  rewrite <- (str_chars (str a +:+ str b)), chars_append, !chars_str.
  reflexivity.
Qed.

(* ================================================================== *)
(** * Dates as ISO strings *)
(* ================================================================== *)

Lemma isoString_fields (y m d : Z) :
  1000 <= y <= 9999 -> JsDate.validYMD y m d = true ->
  JsDate.isoCalendarDate (chars (isoString y m d)) = Some (y, m, d).
Proof.
  intros Hy Hv. pose proof (validYMD_bounds _ _ _ Hv) as [Hm Hd].
  unfold JsDate.isoCalendarDate, isoString.
  rewrite (isoFields_of_string y m d) by lia. now rewrite Hv.
Qed.

(** The characters of an ISO date string are digits and dashes. *)
Lemma isoString_chars (y m d : Z) :
  1000 <= y <= 9999 -> 0 <= m <= 99 -> 0 <= d <= 99 ->
  exists y1 y2 y3 y4 m1 m2 d1 d2,
    chars (isoString y m d) =
      [y1; y2; y3; y4; "-"%char; m1; m2; "-"%char; d1; d2] /\
    forallb isDigit [y1; y2; y3; y4; m1; m2; d1; d2] = true.
Proof.
  intros Hy Hm Hd. unfold isoString.
  destruct (fourDigits y Hy) as (y1 & y2 & y3 & y4 & Ey & Dy & _).
  destruct (twoDigits m Hm) as (m1 & m2 & Em & Dm & _).
  destruct (twoDigits d Hd) as (d1 & d2 & Ed & Dd & _).
  exists y1, y2, y3, y4, m1, m2, d1, d2.
  rewrite !chars_append, Ey, Em, Ed. split; [reflexivity|].
  split_digits Dy. split_digits Dm. split_digits Dd.
  cbn [forallb].
  repeat match goal with
         | D : isDigit _ = true |- _ => rewrite D; clear D
         end. reflexivity.
Qed.

Lemma digit_not_T (c : ascii) : isDigit c = true -> isT c = false.
Proof.
  intros H. apply digit_code in H. unfold isT.
  destruct (Z.eqb_spec (code c) 84); [lia|reflexivity].
Qed.

Lemma padStart_full (n : nat) (s : string) :
  length (chars s) = n -> padStart n s = s.
Proof.
  intros H. unfold padStart. rewrite H, Nat.sub_diag. reflexivity.
Qed.

(** The date part of [toISOString] is the ISO spelling of the civil
    date, for the years of four digits. *)
Lemma isoDatePart_civil (t y m d : Z) :
  JsDate.civilOf t = (y, m, d) -> 1000 <= y <= 9999 ->
  isoDatePart (Some t) = Some (isoString y m d).
Proof.
  intros Hc Hy. pose proof (civilOf_valid t) as Hv. rewrite Hc in Hv.
  pose proof (validYMD_bounds _ _ _ Hv) as [Hm Hd].
  unfold isoDatePart, JsDate.toISOString. rewrite Hc.
  destruct (Z.leb_spec 0 y); [|lia]. destruct (Z.leb_spec y 9999); [|lia].
  cbn [andb].
  destruct (fourDigits y Hy) as (a1 & a2 & a3 & a4 & Ea & _).
  rewrite (padStart_full 4 (intToString y)) by (now rewrite Ea).
  destruct (isoString_chars y m d Hy ltac:(lia) ltac:(lia))
    as (y1 & y2 & y3 & y4 & m1 & m2 & d1 & d2 & E & D).
  unfold split.
  match goal with
  | |- context [chars (?a +:+ "-" +:+ ?b +:+ "-" +:+ ?c +:+ "T" +:+ ?r)] =>
      replace (chars (a +:+ "-" +:+ b +:+ "-" +:+ c +:+ "T" +:+ r))
        with (chars (isoString y m d) ++ "T"%char :: chars r)
  end.
  2:{ unfold isoString. rewrite !chars_append.
      rewrite <- !app_assoc. reflexivity. }
  rewrite splitList_app; [| |reflexivity].
  - cbn [map head]. now rewrite str_chars.
  - rewrite E. split_digits D. cbn [forallb].
    repeat match goal with
           | D : isDigit _ = true |- _ => rewrite (digit_not_T _ D); clear D
           end. reflexivity.
Qed.

Lemma civilOf_midnight (n r : Z) :
  0 <= r < JsDate.msPerDay ->
  JsDate.civilOf (n * JsDate.msPerDay + r) = JsDate.civilFromDays n.
Proof.
  intros Hr. unfold JsDate.civilOf. f_equal.
  unfold JsDate.msPerDay in *. symmetry. apply (Z.div_unique _ _ _ r); lia.
Qed.

Lemma year_days_bounds (y m d : Z) :
  JsDate.validYMD y m d = true -> -270001 <= y <= 270000 ->
  -99900000 <= JsDate.daysFromCivil y m d <= 99900000.
Proof.
  intros Hv Hy. pose proof (validYMD_bounds _ _ _ Hv) as [Hm Hd].
  apply daysFromCivil_bounds; lia.
Qed.

(** The day number of a date whose year has four digits is in the
    range of the time values. *)
Lemma civilFromDays_range (n y m d : Z) :
  JsDate.civilFromDays n = (y, m, d) -> -270001 <= y <= 270000 ->
  -99900000 <= n <= 99900000.
Proof.
  intros Hc Hy. pose proof (civilFromDays_valid n) as Hv.
  pose proof (daysFromCivil_civilFromDays n) as R. rewrite Hc in Hv, R.
  rewrite <- R. now apply year_days_bounds.
Qed.

(* ================================================================== *)
(** * Adding days, and the ISO string of a date *)
(* ================================================================== *)

(** Midnight of a day in local time is, in UTC, a time of the same day
    on a host that is not ahead of UTC, and a time of the day before on
    a host that is ahead of it. *)
Lemma localMidnight_notAhead (env : Env) (y m d : Z) :
  regularZone env -> notAheadOfUTC env ->
  exists r, 0 <= r < JsDate.msPerDay /\
            localMidnight env y m d
            = JsDate.daysFromCivil y m d * JsDate.msPerDay + r.
Proof.
  intros [Hz _] Hn. unfold localMidnight, utcMidnight, JsDate.UTC.
  set (t := JsDate.daysFromCivil y m d * JsDate.msPerDay).
  exists (- localTZA env t false).
  pose proof (Hz t false). pose proof (Hn t). lia.
Qed.

Lemma localMidnight_ahead (env : Env) (y m d : Z) :
  regularZone env -> aheadOfUTC env ->
  exists r, 0 <= r < JsDate.msPerDay /\
            localMidnight env y m d
            = (JsDate.daysFromCivil y m d - 1) * JsDate.msPerDay + r.
Proof.
  intros [Hz _] Hn. unfold localMidnight, utcMidnight, JsDate.UTC.
  set (t := JsDate.daysFromCivil y m d * JsDate.msPerDay).
  exists (JsDate.msPerDay - localTZA env t false).
  pose proof (Hz t false). pose proof (Hn t). lia.
Qed.

(** [addDays] on a date that was read as a time of day [N]. *)
Lemma addDays_of_day (env : Env) (s : string) (N r n y2 m2 d2 : Z) :
  parseDateSafe env s = Some (N * JsDate.msPerDay + r) ->
  0 <= r < JsDate.msPerDay ->
  JsDate.civilFromDays (N + n) = (y2, m2, d2) -> 1000 <= y2 <= 9999 ->
  addDays env s (Some n) = Some (isoString y2 m2 d2).
Proof.
  intros Hp Hr Hl Hy. unfold addDays. rewrite Hp.
  replace (N * JsDate.msPerDay + r + n * 24 * 60 * 60 * 1000)
    with ((N + n) * JsDate.msPerDay + r) by (unfold JsDate.msPerDay; lia).
  rewrite timeClip_within
    by (try apply (civilFromDays_range _ y2 m2 d2 Hl); lia).
  cbn [JsDate.isInvalid].
  apply isoDatePart_civil; [|exact Hy]. now rewrite civilOf_within.
Qed.

(** X1 (addDays).  On a host that is not ahead of UTC, [addDays] on a
    valid ISO date returns the ISO spelling of the date [n] days later
    in the calendar, as long as that date has a year of four digits, and
    the result parses back to the local midnight of that date.  On a
    host ahead of UTC it returns the date one day earlier: the date is
    read at midnight in local time and printed in UTC. *)
Theorem addDays_shifts_date (env : Env) (s : string) (y m d n : Z) :
  regularZone env ->
  JsDate.isoCalendarDate (chars s) = Some (y, m, d) ->
  (notAheadOfUTC env ->
   forall y2 m2 d2,
     daysLater y m d n = (y2, m2, d2) -> 1000 <= y2 <= 9999 ->
     addDays env s (Some n) = Some (isoString y2 m2 d2) /\
     JsDate.isoCalendarDate (chars (isoString y2 m2 d2)) = Some (y2, m2, d2) /\
     parseDateSafe env (isoString y2 m2 d2)
     = Some (localMidnight env y2 m2 d2)) /\
  (aheadOfUTC env ->
   forall y2 m2 d2,
     daysLater y m d (n - 1) = (y2, m2, d2) -> 1000 <= y2 <= 9999 ->
     addDays env s (Some n) = Some (isoString y2 m2 d2)).
Proof.
  intros Hz Hs. split.
  - intros Hn y2 m2 d2 Hl Hy. unfold daysLater in Hl.
    pose proof (civilFromDays_valid (JsDate.daysFromCivil y m d + n)) as Hv.
    rewrite Hl in Hv.
    pose proof (isoString_fields y2 m2 d2 Hy Hv) as Hi.
    split; [|split; [exact Hi|exact (parseDateSafe_iso env _ _ _ _ Hz Hi)]].
    destruct (localMidnight_notAhead env y m d Hz Hn) as (r & Hr & E).
    apply (addDays_of_day env s (JsDate.daysFromCivil y m d) r); auto.
    rewrite (parseDateSafe_iso env s y m d Hz Hs). now rewrite E.
  - intros Hn y2 m2 d2 Hl Hy. unfold daysLater in Hl.
    destruct (localMidnight_ahead env y m d Hz Hn) as (r & Hr & E).
    apply (addDays_of_day env s (JsDate.daysFromCivil y m d - 1) r); auto.
    + rewrite (parseDateSafe_iso env s y m d Hz Hs). now rewrite E.
    + rewrite <- Hl. f_equal. lia.
Qed.

(** Five hours behind UTC two days after 2024-02-28 is 2024-03-01; two
    hours ahead of UTC the answer is one day short. *)
Lemma addDays_shifts_date_witness :
  addDays (zonedEnv (-18000000) 2026) "2024-02-28" (Some 2)
  = Some "2024-03-01" /\
  addDays (zonedEnv 7200000 2026) "2024-02-28" (Some 2) = Some "2024-02-29" /\
  addDays (zonedEnv 7200000 2026) "2025-03-05" (Some 0) = Some "2025-03-04".
Proof.
  split; [|split].
  - exact (proj1 (proj1 (addDays_shifts_date
                           (zonedEnv (-18000000) 2026) "2024-02-28"
                           2024 2 28 2
                           (fixedZone_regular (-18000000) 2026
                              ltac:(unfold JsDate.msPerDay; lia))
                           ltac:(reflexivity))
                        (fixedZone_notAhead (-18000000) 2026 ltac:(lia))
                        2024 3 1 ltac:(vm_compute; reflexivity) ltac:(lia))).
  - exact (proj2 (addDays_shifts_date
                    (zonedEnv 7200000 2026) "2024-02-28" 2024 2 28 2
                    (fixedZone_regular 7200000 2026 ltac:(unfold JsDate.msPerDay; lia))
                    ltac:(reflexivity))
                 (fixedZone_ahead 7200000 2026 ltac:(lia))
                 2024 2 29 ltac:(vm_compute; reflexivity) ltac:(lia)).
  - exact (proj2 (addDays_shifts_date
                    (zonedEnv 7200000 2026) "2025-03-05" 2025 3 5 0
                    (fixedZone_regular 7200000 2026 ltac:(unfold JsDate.msPerDay; lia))
                    ltac:(reflexivity))
                 (fixedZone_ahead 7200000 2026 ltac:(lia))
                 2025 3 4 ltac:(vm_compute; reflexivity) ltac:(lia)).
Defined.

(** X2 (addDays, composition).  On a host that is not ahead of UTC,
    adding [a] days and then [b] days to a valid ISO date is adding
    [a + b] days, as long as the dates reached have years of four
    digits, and adding no day returns the date.  On a host ahead of UTC
    it is adding one day that returns the date. *)
Theorem addDays_compose (env : Env) (s : string) (y m d a b : Z) :
  regularZone env ->
  JsDate.isoCalendarDate (chars s) = Some (y, m, d) ->
  (notAheadOfUTC env ->
   1000 <= fst (fst (daysLater y m d a)) <= 9999 ->
   1000 <= fst (fst (daysLater y m d (a + b))) <= 9999 ->
   exists s1,
     addDays env s (Some a) = Some s1 /\
     addDays env s1 (Some b) = addDays env s (Some (a + b))) /\
  (notAheadOfUTC env -> 1000 <= y -> addDays env s (Some 0) = Some s) /\
  (aheadOfUTC env -> 1000 <= y -> addDays env s (Some 1) = Some s).
Proof.
  intros Hz Hs.
  pose proof (isoCalendarDate_fields _ _ _ _ Hs) as (_ & Hv & Hy9).
  assert (E0 : forall k, k = 0 -> daysLater y m d k = (y, m, d)).
  { intros k ->. unfold daysLater. rewrite Z.add_0_r.
    now apply civilFromDays_daysFromCivil. }
  assert (Hshift : forall env' s' y' m' d' n y2 m2 d2,
             regularZone env' -> notAheadOfUTC env' ->
             JsDate.isoCalendarDate (chars s') = Some (y', m', d') ->
             daysLater y' m' d' n = (y2, m2, d2) -> 1000 <= y2 <= 9999 ->
             addDays env' s' (Some n) = Some (isoString y2 m2 d2)).
  { intros env' s' y' m' d' n y2 m2 d2 Hz' Hn' Hs' Hl Hy. unfold daysLater in Hl.
    destruct (localMidnight_notAhead env' y' m' d' Hz' Hn') as (r & Hr & E).
    apply (addDays_of_day env' s' (JsDate.daysFromCivil y' m' d') r); auto.
    rewrite (parseDateSafe_iso env' s' y' m' d' Hz' Hs'). now rewrite E. }
  split; [|split].
  - intros Hn Ha Hab.
    destruct (daysLater y m d a) as [[y1 m1] d1] eqn:E1.
    destruct (daysLater y m d (a + b)) as [[y2 m2] d2] eqn:E2.
    cbn [fst] in Ha, Hab.
    exists (isoString y1 m1 d1).
    split; [now apply (Hshift env s y m d a)|].
    rewrite (Hshift env s y m d (a + b) y2 m2 d2) by assumption.
    assert (Hv1 : JsDate.validYMD y1 m1 d1 = true).
    { pose proof (civilFromDays_valid (JsDate.daysFromCivil y m d + a)) as V.
      unfold daysLater in E1. now rewrite E1 in V. }
    apply (Hshift env _ y1 m1 d1 b); auto.
    + now apply isoString_fields.
    + unfold daysLater in *.
      pose proof (daysFromCivil_civilFromDays (JsDate.daysFromCivil y m d + a))
        as R. rewrite E1 in R. rewrite R, <- E2. f_equal. lia.
  - intros Hn Hy.
    rewrite (Hshift env s y m d 0 y m d) by (auto; lia).
    f_equal. symmetry. now apply iso_canonical.
  - intros Hn Hy.
    destruct (localMidnight_ahead env y m d Hz Hn) as (r & Hr & E).
    rewrite (addDays_of_day env s (JsDate.daysFromCivil y m d - 1) r 1 y m d).
    + f_equal. symmetry. now apply iso_canonical.
    + rewrite (parseDateSafe_iso env s y m d Hz Hs). now rewrite E.
    + exact Hr.
    + replace (JsDate.daysFromCivil y m d - 1 + 1)
        with (JsDate.daysFromCivil y m d) by lia.
      now apply civilFromDays_daysFromCivil.
    + lia.
Qed.

Lemma addDays_compose_witness :
  let west := zonedEnv (-18000000) 2026 in
  let east := zonedEnv 7200000 2026 in
  (exists s1,
      addDays west "2025-12-30" (Some 5) = Some s1 /\
      addDays west s1 (Some (-10)) = addDays west "2025-12-30" (Some (5 + -10)))
  /\ addDays west "2025-12-30" (Some 0) = Some "2025-12-30"
  /\ addDays east "2025-12-30" (Some 1) = Some "2025-12-30".
Proof.
  intros west east.
  destruct (addDays_compose west "2025-12-30" 2025 12 30 5 (-10)
              (fixedZone_regular (-18000000) 2026 ltac:(unfold JsDate.msPerDay; lia))
              ltac:(reflexivity)) as (H1 & H2 & _).
  destruct (addDays_compose east "2025-12-30" 2025 12 30 5 (-10)
              (fixedZone_regular 7200000 2026 ltac:(unfold JsDate.msPerDay; lia))
              ltac:(reflexivity)) as (_ & _ & H3).
  split; [|split].
  - apply H1; [apply (fixedZone_notAhead (-18000000)); lia| |];
      vm_compute; split; discriminate.
  - apply H2; [apply (fixedZone_notAhead (-18000000))|]; lia.
  - apply H3; [apply (fixedZone_ahead 7200000)|]; lia.
Defined.

(** X3 (dateToISOString).  On a host that is not ahead of UTC the ISO
    date string of the date that a valid ISO date string parses to is
    that string; on a host ahead of UTC it is the string of the day
    before.  On every host the ISO date string of a time value spells
    its day in UTC and parses to the local midnight of that day; no
    string is made of no date. *)
Theorem dateToISOString_round_trip (env : Env) :
  regularZone env ->
  (notAheadOfUTC env ->
   forall s y m d,
     JsDate.isoCalendarDate (chars s) = Some (y, m, d) -> 1000 <= y ->
     dateToISOString (parseDateSafe env s) = Some s) /\
  (aheadOfUTC env ->
   forall s y m d y0 m0 d0,
     JsDate.isoCalendarDate (chars s) = Some (y, m, d) ->
     daysLater y m d (-1) = (y0, m0, d0) -> 1000 <= y0 <= 9999 ->
     dateToISOString (parseDateSafe env s) = Some (isoString y0 m0 d0)) /\
  (forall t y m d,
      JsDate.civilOf t = (y, m, d) -> 1000 <= y <= 9999 ->
      dateToISOString (Some t) = Some (isoString y m d) /\
      parseDateSafe env (isoString y m d)
      = Some (localMidnight env y m d)) /\
  dateToISOString None = None.
Proof.
  intros Hz. split; [|split; [|split; [|reflexivity]]].
  - intros Hn s y m d Hs Hy.
    pose proof (isoCalendarDate_fields _ _ _ _ Hs) as (_ & Hv & Hy9).
    rewrite (parseDateSafe_iso env s y m d Hz Hs).
    destruct (localMidnight_notAhead env y m d Hz Hn) as (r & Hr & ->).
    unfold dateToISOString. cbn [JsDate.isInvalid].
    rewrite (isoDatePart_civil _ y m d); [|rewrite civilOf_within by exact Hr;
      now apply civilFromDays_daysFromCivil|lia].
    f_equal. symmetry. now apply iso_canonical.
  - intros Hn s y m d y0 m0 d0 Hs Hl Hy.
    rewrite (parseDateSafe_iso env s y m d Hz Hs).
    destruct (localMidnight_ahead env y m d Hz Hn) as (r & Hr & ->).
    unfold dateToISOString. cbn [JsDate.isInvalid].
    apply isoDatePart_civil; [|exact Hy].
    rewrite civilOf_within by exact Hr. exact Hl.
  - intros t y m d E Hy.
    unfold dateToISOString. cbn [JsDate.isInvalid].
    split; [now apply isoDatePart_civil|].
    pose proof (civilOf_valid t) as Hv. rewrite E in Hv.
    exact (parseDateSafe_iso env _ y m d Hz (isoString_fields y m d Hy Hv)).
Qed.

Lemma dateToISOString_round_trip_witness :
  dateToISOString (parseDateSafe (zonedEnv (-18000000) 2026) "2025-03-05")
  = Some "2025-03-05" /\
  dateToISOString (parseDateSafe (zonedEnv 7200000 2026) "2025-03-01")
  = Some "2025-02-28".
Proof.
  split.
  - exact (proj1 (dateToISOString_round_trip
                    (zonedEnv (-18000000) 2026)
                    (fixedZone_regular (-18000000) 2026 ltac:(unfold JsDate.msPerDay; lia)))
                 (fixedZone_notAhead (-18000000) 2026 ltac:(lia))
                 "2025-03-05" 2025 3 5 ltac:(reflexivity) ltac:(lia)).
  - exact (proj1 (proj2 (dateToISOString_round_trip
                           (zonedEnv 7200000 2026)
                           (fixedZone_regular 7200000 2026
                              ltac:(unfold JsDate.msPerDay; lia))))
                 (fixedZone_ahead 7200000 2026 ltac:(lia))
                 "2025-03-01" 2025 3 1 2025 2 28
                 ltac:(reflexivity) ltac:(vm_compute; reflexivity)
                 ltac:(lia)).
Defined.

(* ================================================================== *)
(** * European dates, day first *)
(* ================================================================== *)

Lemma takeWhile_digits (ds r : list ascii) :
  forallb isDigit ds = true ->
  match r with [] => true | c :: _ => negb (isDigit c) end = true ->
  takeWhile isDigit (ds ++ r) = ds /\ dropWhile isDigit (ds ++ r) = r.
Proof.
  intros Hd Hr. induction ds as [|x ds IH]; cbn [app takeWhile dropWhile].
  - destruct r as [|c r]; [split; reflexivity|].
    apply negb_true_iff in Hr. cbn [takeWhile dropWhile]. now rewrite Hr.
  - simpl in Hd. apply andb_true_iff in Hd as [Hx Hd].
    rewrite Hx. destruct (IH Hd) as [-> ->]. split; reflexivity.
Qed.

Lemma sep_cases (c : ascii) :
  isSep c = true -> c = "/"%char \/ c = "-"%char.
Proof.
  unfold isSep, isSlash, isDash. intros H. apply orb_true_iff in H as [H|H];
    apply Z.eqb_eq in H; [left|right]; apply code_inj; rewrite H; reflexivity.
Qed.

Lemma europeanList_parts (yo : bool) (ds1 ds2 ys : list ascii) (c1 c2 : ascii) :
  dateParts ds1 ds2 ys -> isSep c1 = true -> isSep c2 = true ->
  europeanList yo (ds1 ++ c1 :: ds2 ++ c2 :: ys) = true.
Proof.
  intros (D1 & D2 & Dy & L1 & L2 & Ly) S1 S2.
  unfold europeanList, digits12.
  destruct (takeWhile_digits ds1 (c1 :: ds2 ++ c2 :: ys) D1) as [-> ->];
    [cbn; now rewrite (sep_not_digit c1 S1)|].
  destruct (Z.leb_spec 1 (Z.of_nat (length ds1))); [|lia].
  destruct (Z.leb_spec (Z.of_nat (length ds1)) 2); [|lia].
  cbn [andb]. rewrite S1. cbn [andb].
  destruct (takeWhile_digits ds2 (c2 :: ys) D2) as [-> ->];
    [cbn; now rewrite (sep_not_digit c2 S2)|].
  destruct (Z.leb_spec 1 (Z.of_nat (length ds2))); [|lia].
  destruct (Z.leb_spec (Z.of_nat (length ds2)) 2); [|lia].
  cbn [andb]. unfold yearTail. rewrite S2, Dy. cbn [andb].
  destruct (Z.leb_spec 2 (Z.of_nat (length ys))); [|lia].
  destruct (Z.leb_spec (Z.of_nat (length ys)) 4); [|lia].
  cbn [andb]. now rewrite orb_true_r.
Qed.

Lemma digits_no (p : ascii -> bool) (ds : list ascii) :
  (forall c, isDigit c = true -> p c = false) ->
  forallb isDigit ds = true -> forallb (fun c => negb (p c)) ds = true.
Proof.
  intros Hp. apply forallb_impl. intros c Hc. now rewrite (Hp c Hc).
Qed.

Lemma split_parts (p : ascii -> bool) (c : ascii) (ds1 ds2 ys : list ascii) :
  (forall x, isDigit x = true -> p x = false) -> p c = true ->
  dateParts ds1 ds2 ys ->
  split p (str (ds1 ++ c :: ds2 ++ c :: ys)) = [str ds1; str ds2; str ys].
Proof.
  intros Hp Hc (D1 & D2 & Dy & _). unfold split. rewrite chars_str.
  rewrite splitList_app by (try apply digits_no; assumption).
  rewrite splitList_app by (try apply digits_no; assumption).
  rewrite splitList_none by (apply digits_no; assumption). reflexivity.
Qed.

Lemma includesChar_mid (c : ascii) (a b : list ascii) :
  includesChar c (str (a ++ c :: b)) = true.
Proof.
  unfold includesChar. rewrite chars_str, existsb_app. cbn [existsb].
  now rewrite Ascii.eqb_refl, orb_true_r.
Qed.

Lemma includesChar_digits (c : ascii) (ds : list ascii) :
  isDigit c = false -> forallb isDigit ds = true ->
  existsb (Ascii.eqb c) ds = false.
Proof.
  intros Hc. induction ds as [|x ds IH]; [reflexivity|].
  simpl. intros H. apply andb_true_iff in H as [Hx Hd].
  rewrite (IH Hd), orb_false_r. apply Ascii.eqb_neq. congruence.
Qed.

Lemma str_nonempty (l : list ascii) :
  l <> [] -> String.eqb (str l) EmptyString = false.
Proof. destruct l; [congruence|reflexivity]. Qed.

Lemma length_str (l : list ascii) : String.length (str l) = length l.
Proof. now rewrite <- chars_length, chars_str. Qed.

Lemma nonempty_length {A} (l : list A) : (1 <= length l)%nat -> l <> [].
Proof. destruct l; simpl; [lia|congruence]. Qed.

Lemma twoDigitYear_digits (ys : list ascii) :
  forallb isDigit ys = true -> (2 <= length ys <= 4)%nat ->
  1000 <= yearOfDigits ys ->
  twoDigitYear (str ys) = intToString (yearOfDigits ys).
Proof.
  intros Dy Ly Hy. unfold twoDigitYear, yearOfDigits in *.
  rewrite length_str.
  destruct (length ys =? 2)%nat eqn:E.
  - rewrite parseInt_digits by (try apply nonempty_length; assumption || lia).
    reflexivity.
  - apply Nat.eqb_neq in E.
    destruct ys as [|a [|b [|c [|d [|e ys]]]]]; simpl in Ly, E; try lia.
    + exfalso. (* three digits are below 1000 *)
      split_digits Dy.
      repeat match goal with
             | D : isDigit _ = true |- _ => apply digit_bounds in D
             end.
      unfold decimalValue in Hy. simpl in Hy. lia.
    + symmetry. now apply intToString_four.
Qed.

(** The parts that [convertEuropeanToISO] and [formatDateEuropean]
    split a date into. *)
Lemma parts_of_date (ds1 ds2 ys : list ascii) (c : ascii) :
  dateParts ds1 ds2 ys -> isSep c = true ->
  let text := str (ds1 ++ c :: ds2 ++ c :: ys) in
  (if includesChar "/" text then Some (split isSlash text)
   else if includesChar "-" text then Some (split isDash text)
   else None) = Some [str ds1; str ds2; str ys].
Proof.
  intros P Hc text. pose proof P as (D1 & D2 & Dy & _).
  destruct (sep_cases c Hc) as [-> | ->].
  - unfold text at 1. rewrite includesChar_mid. f_equal.
    apply split_parts; [apply digit_not_slash|reflexivity|exact P].
  - assert (includesChar "/" text = false) as ->.
    { unfold includesChar, text. rewrite chars_str, existsb_app.
      cbn [existsb]. rewrite existsb_app. cbn [existsb].
      rewrite !(includesChar_digits "/") by (assumption || reflexivity).
      reflexivity. }
    unfold text at 1. rewrite includesChar_mid. f_equal.
    apply split_parts; [apply digit_not_dash|reflexivity|exact P].
Qed.

(** A date [D/M/Y] or [D-M-Y] of the calendar as
    [convertEuropeanToISO] and [parseDateSafe] read it. *)
Lemma european_date_parts (env : Env) (roadmapYear : option Z)
        (ds1 ds2 ys : list ascii) (c : ascii) :
  dateParts ds1 ds2 ys -> isSep c = true ->
  let text := str (ds1 ++ c :: ds2 ++ c :: ys) in
  let a := decimalValue ds1 in
  let b := decimalValue ds2 in
  let swapped := (12 <? b) && (a <=? 12) in
  let day := if swapped then b else a in
  let month := if swapped then a else b in
  let year := yearOfDigits ys in
  1000 <= year <= 9999 -> JsDate.validYMD year month day = true ->
  EUROPEAN_DATE_REGEX text = true /\
  DateUtility.convertEuropeanToISO env text roadmapYear
  = isoString year month day /\
  parseDateSafe env text
  = Some (JsDate.daysFromCivil year month day * JsDate.msPerDay).
Proof.
  intros P Hc text a b swapped day month year Hy Hv.
  pose proof P as (D1 & D2 & Dy & L1 & L2 & Ly).
  pose proof (validYMD_bounds _ _ _ Hv) as [Bm Bd].
  assert (Hne : String.eqb text EmptyString = false).
  { apply str_nonempty. destruct ds1; simpl in *; [lia|congruence]. }
  assert (Hre : EUROPEAN_DATE_REGEX text = true).
  { unfold EUROPEAN_DATE_REGEX, text. rewrite chars_str.
    now apply europeanList_parts. }
  assert (Hiso : forall ry,
             DateUtility.convertEuropeanToISO env text ry
             = isoString year month day).
  { intros ry. unfold DateUtility.convertEuropeanToISO. rewrite Hne.
    pose proof (parts_of_date ds1 ds2 ys c P Hc) as Hparts. fold text in Hparts.
    rewrite Hparts.
    rewrite !parseInt_digits
      by (try apply nonempty_length; assumption || lia).
    fold a b. cbn [head truthy].
    rewrite str_nonempty by (apply nonempty_length; lia).
    cbn [gtN ltN leN].
    assert (Hpair :
              (if (12 <? b) && (a <=? 12)
               then @pair JsNum JsNum (Some b) (Some a)
               else @pair JsNum JsNum (Some a) (Some b))
              = (Some day, Some month))
      by (unfold day, month, swapped; destruct ((12 <? b) && (a <=? 12));
          reflexivity).
    rewrite Hpair. cbn [gtN ltN leN].
    destruct (Z.ltb_spec day 1); [lia|].
    destruct (Z.ltb_spec 31 day); [lia|].
    destruct (Z.ltb_spec month 1); [lia|].
    destruct (Z.ltb_spec 12 month); [lia|]. cbn [orb].
    rewrite twoDigitYear_digits by (assumption || (fold year; lia)).
    fold year. cbn [numToString].
    change (intToString year +:+ "-" +:+ padStart2 (intToString month)
            +:+ "-" +:+ padStart2 (intToString day))
      with (isoString year month day).
    rewrite (newDate_iso env _ year month day)
      by (apply isoString_fields; assumption).
    reflexivity. }
  split; [exact Hre|]. split; [apply Hiso|].
  unfold parseDateSafe. rewrite Hne, Hre, (Hiso None).
  assert (String.eqb (isoString year month day) EmptyString = false) as ->.
  { apply (iso_nonempty _ year month day).
    apply isoCalendarDate_fields, isoString_fields; assumption. }
  apply newDate_iso, isoString_fields; assumption.
Qed.

(** The same for a date [D/M] without a year, which [parseDateSafe]
    reads in the year of the wall clock. *)
Lemma split_two_parts (p : ascii -> bool) (c : ascii) (ds1 ds2 : list ascii) :
  (forall x, isDigit x = true -> p x = false) -> p c = true ->
  forallb isDigit ds1 = true -> forallb isDigit ds2 = true ->
  split p (str (ds1 ++ c :: ds2)) = [str ds1; str ds2].
Proof.
  intros Hp Hc D1 D2. unfold split. rewrite chars_str.
  rewrite splitList_app by (try apply digits_no; assumption).
  rewrite splitList_none by (apply digits_no; assumption). reflexivity.
Qed.

Lemma european_date_without_year (env : Env) (ds1 ds2 : list ascii)
      (c : ascii) :
  forallb isDigit ds1 = true -> forallb isDigit ds2 = true ->
  (1 <= length ds1 <= 2)%nat -> (1 <= length ds2 <= 2)%nat ->
  isSep c = true ->
  let text := str (ds1 ++ c :: ds2) in
  let a := decimalValue ds1 in
  let b := decimalValue ds2 in
  let swapped := (12 <? b) && (a <=? 12) in
  let day := if swapped then b else a in
  let month := if swapped then a else b in
  let year := nowYear env in
  1000 <= year <= 9999 -> JsDate.validYMD year month day = true ->
  EUROPEAN_DATE_REGEX text = true /\
  europeanWithYearRegex text = false /\
  DateUtility.convertEuropeanToISO env text None = isoString year month day /\
  parseDateSafe env text = Some (utcMidnight year month day).
Proof.
  intros D1 D2 L1 L2 Hc text a b swapped day month year Hy Hv.
  pose proof (validYMD_bounds _ _ _ Hv) as [Bm Bd].
  assert (Hne : String.eqb text EmptyString = false).
  { apply str_nonempty. destruct ds1; simpl in *; [lia|congruence]. }
  assert (Hlist : forall yo, europeanList yo (ds1 ++ c :: ds2) = yo).
  { intros yo. unfold europeanList, digits12.
    destruct (takeWhile_digits ds1 (c :: ds2) D1) as [-> ->];
      [cbn; now rewrite (sep_not_digit c Hc)|].
    destruct (Z.leb_spec 1 (Z.of_nat (length ds1))); [|lia].
    destruct (Z.leb_spec (Z.of_nat (length ds1)) 2); [|lia].
    cbn [andb]. rewrite Hc. cbn [andb].
    rewrite <- (app_nil_r ds2).
    destruct (takeWhile_digits ds2 [] D2) as [-> ->]; [reflexivity|].
    destruct (Z.leb_spec 1 (Z.of_nat (length ds2))); [|lia].
    destruct (Z.leb_spec (Z.of_nat (length ds2)) 2); [|lia].
    cbn [andb yearTail]. now rewrite orb_false_r. }
  assert (Hre : EUROPEAN_DATE_REGEX text = true).
  { unfold EUROPEAN_DATE_REGEX, text. rewrite chars_str. apply Hlist. }
  assert (Hparts :
            (if includesChar "/" text then Some (split isSlash text)
             else if includesChar "-" text then Some (split isDash text)
             else None) = Some [str ds1; str ds2]).
  { destruct (sep_cases c Hc) as [-> | ->].
    - unfold text at 1. rewrite includesChar_mid. f_equal.
      apply split_two_parts;
        [apply digit_not_slash|reflexivity|assumption|assumption].
    - assert (includesChar "/" text = false) as ->.
      { unfold includesChar, text. rewrite chars_str, existsb_app.
        cbn [existsb].
        rewrite !(includesChar_digits "/") by (assumption || reflexivity).
        reflexivity. }
      unfold text at 1. rewrite includesChar_mid. f_equal.
      apply split_two_parts;
        [apply digit_not_dash|reflexivity|assumption|assumption]. }
  assert (Hiso : DateUtility.convertEuropeanToISO env text None
                 = isoString year month day).
  { unfold DateUtility.convertEuropeanToISO. rewrite Hne, Hparts.
    rewrite !parseInt_digits
      by (try apply nonempty_length; assumption || lia).
    fold a b. cbn [head truthy yearOrNow]. fold year.
    cbn [gtN ltN leN].
    assert (Hpair :
              (if (12 <? b) && (a <=? 12)
               then @pair JsNum JsNum (Some b) (Some a)
               else @pair JsNum JsNum (Some a) (Some b))
              = (Some day, Some month))
      by (unfold day, month, swapped; destruct ((12 <? b) && (a <=? 12));
          reflexivity).
    rewrite Hpair. cbn [gtN ltN leN].
    destruct (Z.ltb_spec day 1); [lia|].
    destruct (Z.ltb_spec 31 day); [lia|].
    destruct (Z.ltb_spec month 1); [lia|].
    destruct (Z.ltb_spec 12 month); [lia|]. cbn [orb].
    assert (twoDigitYear (intToString year) = intToString year) as ->.
    { unfold twoDigitYear.
      destruct (fourDigits year Hy) as (y1 & y2 & y3 & y4 & E & _).
      rewrite <- chars_length, E. reflexivity. }
    cbn [numToString].
    change (intToString year +:+ "-" +:+ padStart2 (intToString month)
            +:+ "-" +:+ padStart2 (intToString day))
      with (isoString year month day).
    rewrite (newDate_iso env _ year month day)
      by (apply isoString_fields; assumption).
    reflexivity. }
  split; [exact Hre|]. split.
  { unfold europeanWithYearRegex, text. rewrite chars_str. apply Hlist. }
  split; [exact Hiso|].
  unfold parseDateSafe. rewrite Hne, Hre, Hiso.
  assert (String.eqb (isoString year month day) EmptyString = false) as ->.
  { apply (iso_nonempty _ year month day).
    apply isoCalendarDate_fields, isoString_fields; assumption. }
  apply newDate_iso, isoString_fields; assumption.
Qed.

(** X4.  A date [D/M/Y] or [D-M-Y] of the calendar, the day first, is a
    European date; [convertEuropeanToISO] gives the ISO spelling of the
    date, whatever the default year, and [parseDateSafe] gives the
    date.  When the month is above 12 and the day is not, the two are
    taken the other way round. *)
Theorem european_date_to_iso (env : Env) (roadmapYear : option Z)
        (ds1 ds2 ys : list ascii) (c : ascii) :
  dateParts ds1 ds2 ys -> isSep c = true ->
  let text := str (ds1 ++ c :: ds2 ++ c :: ys) in
  let a := decimalValue ds1 in
  let b := decimalValue ds2 in
  let swapped := (12 <? b) && (a <=? 12) in
  let day := if swapped then b else a in
  let month := if swapped then a else b in
  let year := yearOfDigits ys in
  1000 <= year <= 9999 -> JsDate.validYMD year month day = true ->
  EUROPEAN_DATE_REGEX text = true /\
  DateUtility.convertEuropeanToISO env text roadmapYear
  = isoString year month day /\
  parseDateSafe env text
  = Some (JsDate.daysFromCivil year month day * JsDate.msPerDay).
Proof.
  intros P Hc text a b swapped day month year Hy Hv.
  exact (european_date_parts env roadmapYear ds1 ds2 ys c P Hc Hy Hv).
Qed.


Lemma european_date_to_iso_witness :
  DateUtility.convertEuropeanToISO (strictEnv 2026) "5/3/25" (Some 2031)
  = "2025-03-05" /\
  DateUtility.convertEuropeanToISO (strictEnv 2026) "05-13-2025" None
  = "2025-05-13".
Proof.
  split.
  - exact (proj1 (proj2 (european_date_to_iso
                           (strictEnv 2026) (Some 2031)
                           (chars "5") (chars "3") (chars "25") "/"%char
                           ltac:(repeat split; simpl; lia || reflexivity)
                           ltac:(reflexivity) ltac:(vm_compute; split; discriminate)
                           ltac:(reflexivity)))).
  - exact (proj1 (proj2 (european_date_to_iso
                           (strictEnv 2026) None
                           (chars "05") (chars "13") (chars "2025") "-"%char
                           ltac:(repeat split; simpl; lia || reflexivity)
                           ltac:(reflexivity) ltac:(vm_compute; split; discriminate)
                           ltac:(reflexivity)))).
Defined.

(* ================================================================== *)
(** * The end column of a story *)
(* ================================================================== *)

Lemma effective_end_is_date (env : Env) (story : Story) (v : string) :
  truthy (getEffectiveEndDate env story) = Some v ->
  isEffectiveEndDateADate env story
  = includesChar "-" v || EUROPEAN_DATE_REGEX v.
Proof. intros H. unfold isEffectiveEndDateADate. now rewrite H. Qed.

(** The end column of an end value that is read as the date
    [(y, m, d)]. *)
Lemma endGridOf_day (g : Generator) (env : Env) (story : Story)
      (v : string) (sg y m d : Z) :
  regularZone env ->
  truthy (getEffectiveEndDate env story) = Some v ->
  includesChar "-" v || EUROPEAN_DATE_REGEX v = true ->
  JsDate.getFullYear (localTZA env) (parseDateSafe env v) = Some y ->
  JsDate.getMonth (localTZA env) (parseDateSafe env v) = Some (m - 1) ->
  JsDate.getDate (localTZA env) (parseDateSafe env v) = Some d ->
  -270000 <= y <= 270000 ->
  (26 <= d -> endGridOf g env story sg = monthBase m + 10) /\
  (d <= 3 ->
   endGridOf g env story sg = monthBase (if m =? 1 then 12 else m - 1) + 10).
Proof.
  intros Hz Hv Hdate Hy Hm Hd By.
  rewrite <- (effective_end_is_date env story v Hv) in Hdate. split.
  - intros H26. now apply (endGridOf_end_of_month g env story v sg m d).
  - intros H3.
    now apply (endGridOf_end_of_previous_month g env story v sg y m d).
Qed.

(** C2.  The end column, as resolved from the story's end value before
    any clamping, on a host whose local time is not behind UTC.  An end
    date on day 26 or later ends on the base column of its own month
    plus 10, and one on day 3 or earlier on the base column of the
    previous month plus 10: for a valid ISO date, on every host; for a
    date [D/M/Y] or [D-M-Y] of the calendar; and for a date [D/M]
    without a year that is a date of the year of the wall clock.  A
    bare month token ends on the base column of that month plus 10.
    That column is the end column of the story bar unless the story
    continues past the roadmap year. *)
Theorem story_end_column (g : Generator) (env : Env) (story : Story)
        (v : string) (sg : Z) :
  regularZone env ->
  truthy (getEffectiveEndDate env story) = Some v ->
  let endsOn (m d : Z) :=
    (26 <= d -> endGridOf g env story sg = monthBase m + 10) /\
    (d <= 3 ->
     endGridOf g env story sg
     = monthBase (if m =? 1 then 12 else m - 1) + 10) in
  let day (a b : Z) := if (12 <? b) && (a <=? 12) then b else a in
  let month (a b : Z) := if (12 <? b) && (a <=? 12) then a else b in
  (forall y m d,
      JsDate.isoCalendarDate (chars v) = Some (y, m, d) -> endsOn m d) /\
  (notBehindUTC env ->
   forall ds1 ds2 ys c,
     dateParts ds1 ds2 ys -> isSep c = true ->
     v = str (ds1 ++ c :: ds2 ++ c :: ys) ->
     let a := decimalValue ds1 in
     let b := decimalValue ds2 in
     1000 <= yearOfDigits ys <= 9999 ->
     JsDate.validYMD (yearOfDigits ys) (month a b) (day a b) = true ->
     endsOn (month a b) (day a b)) /\
  (notBehindUTC env ->
   forall ds1 ds2 c,
     forallb isDigit ds1 = true -> forallb isDigit ds2 = true ->
     (1 <= length ds1 <= 2)%nat -> (1 <= length ds2 <= 2)%nat ->
     isSep c = true ->
     v = str (ds1 ++ c :: ds2) ->
     let a := decimalValue ds1 in
     let b := decimalValue ds2 in
     1000 <= nowYear env <= 9999 ->
     JsDate.validYMD (nowYear env) (month a b) (day a b) = true ->
     endsOn (month a b) (day a b)) /\
  (includesChar "-" v = false -> EUROPEAN_DATE_REGEX v = false ->
   endGridOf g env story sg = getMonthGridPosition v + 10 /\
   forall (i : nat) (name : string),
     NAMES !! i = Some name \/ FULL_NAMES !! i = Some name ->
     toUpperCase v = name ->
     endGridOf g env story sg = monthBase (Z.of_nat i + 1) + 10) /\
  (forall story' span,
      generateStory g env story = Returns (story', Some span) ->
      continuesNextYear span = false ->
      endGrid span = endGridOf g env story sg).
Proof.
  intros Hz Hv endsOn day month. split; [|split; [|split; [|split]]].
  - intros y m d Hs.
    pose proof (isoCalendarDate_fields _ _ _ _ Hs) as (Hf & Hvalid & Hy).
    pose proof (getters_localMidnight env y m d Hz Hvalid) as (Gy & Gm & Gd).
    rewrite <- (parseDateSafe_iso env v y m d Hz Hs) in Gy, Gm, Gd.
    apply (endGridOf_day g env story v sg y m d); auto; [|lia].
    rewrite iso_includes_dash; [reflexivity|].
    unfold ISO_DATE_REGEX. now rewrite Hf.
  - intros Hn ds1 ds2 ys c P Hc -> a b Hy Hvalid.
    destruct (european_date_parts env None ds1 ds2 ys c P Hc Hy Hvalid)
      as (Hre & _ & Hp).
    pose proof (getters_utcMidnight env _ _ _ Hz Hn Hvalid) as (Gy & Gm & Gd).
    pose proof (Hp : parseDateSafe env (str (ds1 ++ c :: ds2 ++ c :: ys))
                     = Some (utcMidnight (yearOfDigits ys) (month a b)
                                         (day a b))) as Hp'.
    rewrite <- Hp' in Gy, Gm, Gd.
    apply (endGridOf_day g env story (str (ds1 ++ c :: ds2 ++ c :: ys)) sg
             (yearOfDigits ys) (month a b) (day a b)); auto; [|lia].
    rewrite Hre. apply orb_true_r.
  - intros Hn ds1 ds2 c D1 D2 L1 L2 Hc -> a b Hy Hvalid.
    destruct (european_date_without_year env ds1 ds2 c D1 D2 L1 L2 Hc
                Hy Hvalid) as (Hre & _ & _ & Hp).
    pose proof (getters_utcMidnight env _ _ _ Hz Hn Hvalid) as (Gy & Gm & Gd).
    pose proof (Hp : parseDateSafe env (str (ds1 ++ c :: ds2))
                     = Some (utcMidnight (nowYear env) (month a b)
                                         (day a b))) as Hp'.
    rewrite <- Hp' in Gy, Gm, Gd.
    apply (endGridOf_day g env story (str (ds1 ++ c :: ds2)) sg
             (nowYear env) (month a b) (day a b)); auto; [|lia].
    rewrite Hre. apply orb_true_r.
  - intros Hdash Hre.
    assert (Hdate : isEffectiveEndDateADate env story = false)
      by (rewrite (effective_end_is_date env story v Hv), Hdash, Hre;
          reflexivity).
    split; [now apply endGridOf_month_token|].
    intros i name Hname Hup.
    rewrite (endGridOf_month_token g env story v sg Hv Hdate).
    now rewrite (month_table i name v Hname Hup).
  - intros story' span Hgen Hcont.
    destruct (generateStory_span g env story story' span Hgen)
      as (sg0 & _ & _ & _ & _ & Hend & _).
    rewrite Hend, Hcont. apply (endGridOf_start g env story v), Hv.
Qed.

(** Two hours ahead of UTC, on the 2025 roadmap.  A story from January
    to 2025-03-31 ends on column 31, March's base column 21 plus 10, and
    so does its bar; the end 02/04/25 gives the same column, for March
    is the month before; the end 28-02, without a year, gives column 21;
    the end AUG gives column 81. *)
Lemma story_end_column_witness :
  let env := zonedEnv 7200000 2026 in
  let g := generatorOf 2025 in
  (exists story' span,
      generateStory g env (storyOf None (Some "JAN") (Some "2025-03-31") None)
      = Returns (story', Some span) /\ endGrid span = 31) /\
  (exists story' span,
      generateStory g env (storyOf (Some "2025-01-15") None
                                   (Some "02/04/25") None)
      = Returns (story', Some span) /\ endGrid span = 31) /\
  endGridOf g env (storyOf None (Some "JAN") (Some "28-02") None) 1 = 21 /\
  endGridOf g env (storyOf None (Some "JAN") None (Some "aug")) 1 = 81.
Proof.
  intros env g.
  assert (Hz : regularZone env)
    by (apply fixedZone_regular; unfold JsDate.msPerDay; lia).
  assert (Hn : notBehindUTC env) by (apply fixedZone_notBehind; lia).
  split; [|split; [|split]].
  - destruct (story_end_column
                g env (storyOf None (Some "JAN") (Some "2025-03-31") None)
                "2025-03-31" 1 Hz ltac:(reflexivity))
      as (H & _ & _ & _ & Hspan).
    destruct (H 2025 3 31 ltac:(reflexivity)) as (H26 & _).
    eexists _, _. split; [vm_compute; reflexivity|].
    rewrite (Hspan _ _ ltac:(vm_compute; reflexivity) ltac:(reflexivity)).
    rewrite (H26 ltac:(lia)). reflexivity.
  - destruct (story_end_column
                g env (storyOf (Some "2025-01-15") None
                               (Some "02/04/25") None)
                "02/04/25" 5 Hz ltac:(reflexivity))
      as (_ & H & _ & _ & Hspan).
    destruct (H Hn (chars "02") (chars "04") (chars "25") "/"%char
                ltac:(repeat split; simpl; lia || reflexivity)
                ltac:(reflexivity) ltac:(reflexivity)
                ltac:(vm_compute; split; discriminate)
                ltac:(reflexivity)) as (_ & H3).
    eexists _, _. split; [vm_compute; reflexivity|].
    rewrite (Hspan _ _ ltac:(vm_compute; reflexivity) ltac:(reflexivity)).
    rewrite (H3 ltac:(vm_compute; discriminate)). reflexivity.
  - destruct (story_end_column
                g env (storyOf None (Some "JAN") (Some "28-02") None)
                "28-02" 1 Hz ltac:(reflexivity))
      as (_ & _ & H & _).
    destruct (H Hn (chars "28") (chars "02") "-"%char
                ltac:(reflexivity) ltac:(reflexivity)
                ltac:(simpl; lia) ltac:(simpl; lia)
                ltac:(reflexivity) ltac:(reflexivity)
                ltac:(vm_compute; split; discriminate)
                ltac:(reflexivity)) as (H26 & _).
    rewrite (H26 ltac:(vm_compute; discriminate)). reflexivity.
  - destruct (story_end_column
                g env (storyOf None (Some "JAN") None (Some "aug"))
                "aug" 1 Hz ltac:(reflexivity))
      as (_ & _ & _ & H & _).
    destruct (H ltac:(reflexivity) ltac:(reflexivity)) as (_ & Hname).
    rewrite (Hname 7%nat "AUG" ltac:(left; reflexivity)
                   ltac:(vm_compute; reflexivity)).
    reflexivity.
Defined.

(** On a host behind UTC a date [D/M/Y] is read as the day before: it
    is parsed as midnight in UTC and its day is read in local time.
    Five hours behind UTC the end 26/03/25 is read as day 25 and the bar
    ends on column 30, not on March's base column plus 10.  A date
    without a year is read in the year of the wall clock: with a parser
    that accepts valid ISO dates only, the end 29/02 of the 2024
    roadmap, read in 2025, ends on column 20. *)
Lemma story_end_behind_utc :
  let west := zonedEnv (-18000000) 2026 in
  (exists story' span,
      generateStory (generatorOf 2025) west
                    (storyOf None (Some "JAN") (Some "26/03/25") None)
      = Returns (story', Some span) /\
      continuesNextYear span = false /\
      endGrid span = 30 /\ endGrid span <> monthBase 3 + 10) /\
  (exists story' span,
      generateStory (generatorOf 2024) (strictEnv 2025)
                    (storyOf None (Some "JAN") (Some "29/02") None)
      = Returns (story', Some span) /\
      continuesNextYear span = false /\
      JsDate.validYMD 2024 2 29 = true /\
      endGrid span = 20 /\ endGrid span <> monthBase 2 + 10).
Proof.
  intros west. split.
  - eexists _, _. split; [vm_compute; reflexivity|].
    repeat split; vm_compute; discriminate.
  - eexists _, _. split; [vm_compute; reflexivity|].
    repeat split; vm_compute; discriminate.
Qed.

(* ================================================================== *)
(** * Dates as European text *)
(* ================================================================== *)

Lemma sliceLast_four (a b c d : ascii) :
  sliceLast 2 (str [a; b; c; d]) = str [c; d].
Proof. unfold sliceLast. rewrite chars_str. reflexivity. Qed.

Lemma sliceLast_two (a b : ascii) : sliceLast 2 (str [a; b]) = str [a; b].
Proof. unfold sliceLast. rewrite chars_str. reflexivity. Qed.

(** The digits of a year of the 2000s. *)
Lemma year_2000s (y1 y2 y3 y4 : ascii) :
  forallb isDigit [y1; y2; y3; y4] = true ->
  2000 <= decimalValue [y1; y2; y3; y4] <= 2099 ->
  forallb isDigit [y3; y4] = true /\
  decimalValue [y1; y2; y3; y4] = 2000 + decimalValue [y3; y4].
Proof.
  intros D Hy. split_digits D. split.
  - cbn [forallb]. now rewrite Hd1, Hd2.
  - rewrite decimalValue4, decimalValue2 in *.
    repeat match goal with
           | D : isDigit _ = true |- _ => apply digit_bounds in D
           end. lia.
Qed.

(** X5.  The European text of a valid ISO date of the 2000s is the
    day, the month and the last two digits of the year, each of two
    digits; it converts back to the ISO date string, whatever the
    default year.  The text parses to midnight of the date in UTC, where
    the ISO date string itself parses to midnight of the date in local
    time. *)
Theorem formatDateToText_round_trip (env : Env) (s : string) (y m d : Z)
        (roadmapYear : option Z) :
  regularZone env ->
  JsDate.isoCalendarDate (chars s) = Some (y, m, d) -> 2000 <= y <= 2099 ->
  formatDateToText env s =
    padStart2 (intToString d) +:+ "/" +:+ padStart2 (intToString m) +:+ "/"
    +:+ padStart2 (intToString (y - 2000)) /\
  DateUtility.convertEuropeanToISO env (formatDateToText env s) roadmapYear
  = s /\
  parseDateSafe env (formatDateToText env s) = Some (utcMidnight y m d) /\
  parseDateSafe env s = Some (localMidnight env y m d).
Proof.
  intros Hz Hs Hy.
  pose proof (isoCalendarDate_fields _ _ _ _ Hs) as (Hf & Hv & _).
  pose proof (iso_canonical s y m d Hs ltac:(lia)) as Hcan.
  apply isoFields_shape in Hf
    as (y1 & y2 & y3 & y4 & s1 & m1 & m2 & s2 & d1 & d2 & E & Hd & _ & _
        & Ey & Em & Ed).
  split_digits Hd.
  assert (D4 : forallb isDigit [y1; y2; y3; y4] = true)
    by (cbn [forallb]; now rewrite Hd0, Hd1, Hd2, Hd3).
  assert (Dm : forallb isDigit [m1; m2] = true)
    by (cbn [forallb]; now rewrite Hd4, Hd5).
  assert (Dd : forallb isDigit [d1; d2] = true)
    by (cbn [forallb]; now rewrite Hd6, Hd7).
  destruct (year_2000s y1 y2 y3 y4 D4 ltac:(lia)) as [Dy Ey'].
  assert (Htext : formatDateToText env s
                  = str ([d1; d2] ++ "/"%char :: [m1; m2] ++ "/"%char
                                  :: [y3; y4])).
  { unfold formatDateToText.
    rewrite (nonempty_chars s _ _ E), (newDate_iso_midnight env s y m d Hz Hs).
    destruct (getters_localMidnight env y m d Hz Hv) as (-> & -> & ->).
    cbn [addN numToString]. replace (m - 1 + 1) with m by lia.
    rewrite Ey at 1. rewrite (intToString_four _ _ _ _ D4) by lia.
    rewrite sliceLast_four, Em, Ed, !padStart2_two by assumption.
    reflexivity. }
  split.
  - rewrite Htext. replace (y - 2000) with (decimalValue [y3; y4]) by lia.
    rewrite Em, Ed, !padStart2_two by assumption. reflexivity.
  - assert (P : dateParts [d1; d2] [m1; m2] [y3; y4])
      by (repeat split; simpl; assumption || lia).
    pose proof (european_date_parts env roadmapYear _ _ _ "/"%char P
                  eq_refl) as R. cbv zeta in R.
    assert (Hb : 1 <= m <= 12) by (apply validYMD_bounds in Hv; lia).
    assert (Hsw : (12 <? decimalValue [m1; m2]) = false)
      by (apply Z.ltb_ge; lia).
    rewrite Hsw in R. cbn [andb] in R.
    change (yearOfDigits [y3; y4]) with (2000 + decimalValue [y3; y4]) in R.
    rewrite <- Ey', <- Ey, <- Em, <- Ed in R.
    destruct (R ltac:(lia) Hv) as (_ & R1 & R2).
    rewrite Htext, R1, R2. split; [now rewrite Hcan|].
    split; [reflexivity|]. now apply parseDateSafe_iso.
Qed.

Lemma formatDateToText_round_trip_witness :
  let env := zonedEnv (-18000000) 2026 in
  formatDateToText env "2025-03-05" = "05/03/25" /\
  DateUtility.convertEuropeanToISO env "05/03/25" (Some 2031) = "2025-03-05" /\
  parseDateSafe env "05/03/25" = Some 1741132800000 /\
  parseDateSafe env "2025-03-05" = Some 1741150800000.
Proof.
  intros env.
  destruct (formatDateToText_round_trip
              env "2025-03-05" 2025 3 5 (Some 2031)
              (fixedZone_regular (-18000000) 2026
                 ltac:(unfold JsDate.msPerDay; lia))
              ltac:(reflexivity) ltac:(lia))
    as (H1 & H2 & H3 & H4).
  split; [exact H1|]. rewrite H1 in H2, H3.
  split; [exact H2|]. split; [exact H3|exact H4].
Defined.

(* ================================================================== *)
(** * Months as dates *)
(* ================================================================== *)

Lemma rem_zero (y k : Z) : k <> 0 -> (Z.rem y k =? 0) = (y mod k =? 0).
Proof.
  intros Hk.
  destruct (Z.eqb_spec (Z.rem y k) 0) as [E|E];
      destruct (Z.eqb_spec (y mod k) 0) as [F|F]; try reflexivity; exfalso.
  - apply Z.rem_divide in E; [|exact Hk]. apply F, Z.mod_divide; assumption.
  - apply Z.mod_divide in F; [|exact Hk]. apply E, Z.rem_divide; assumption.
Qed.

(** The leap years of [convertMonthToEndDate] are those of the
    calendar. *)
Lemma isLeapYear_isLeap (y : Z) :
  ((Z.rem y 4 =? 0) && negb (Z.rem y 100 =? 0)) || (Z.rem y 400 =? 0)
  = JsDate.isLeap y.
Proof. unfold JsDate.isLeap. now rewrite !rem_zero by lia. Qed.

(** The last two digits of a year of the 2000s. *)
Lemma yearShort_2000s (year : Z) :
  2000 <= year <= 2099 ->
  exists y3 y4,
    sliceLast 2 (intToString year) = str [y3; y4] /\
    forallb isDigit [y3; y4] = true /\ year = 2000 + decimalValue [y3; y4].
Proof.
  intros Hy. destruct (fourDigits year ltac:(lia))
    as (y1 & y2 & y3 & y4 & E & D & V).
  exists y3, y4. rewrite <- V in Hy.
  destruct (year_2000s _ _ _ _ D Hy) as [Dy Ey].
  rewrite <- (str_chars (intToString year)), E, sliceLast_four.
  repeat split; [exact Dy|]. now rewrite <- V.
Qed.

Lemma month_of_name (i : nat) (name : string) :
  monthNames !! i = Some name \/ fullMonthNames !! i = Some name ->
  (i < 12)%nat.
Proof. intros [H|H]; apply lookup_lt_Some in H; exact H. Qed.

Lemma name_nonempty (monthName name : string) :
  toUpperCase monthName = name -> String.eqb name EmptyString = false ->
  String.eqb monthName EmptyString = false.
Proof. intros <- H. destruct monthName; [discriminate H|reflexivity]. Qed.

Lemma yearOrNow_given (env : Env) (year : Z) :
  year <> 0 -> yearOrNow env (Some year) = year.
Proof.
  intros H. unfold yearOrNow. destruct (Z.eqb_spec year 0); [lia|reflexivity].
Qed.

(** The texts of [convertMonthToStartDate] and [convertMonthToEndDate]
    for a month name. *)
Lemma convertMonth_text (env : Env) (monthName : string) (i : nat)
      (name : string) (year : Z) :
  monthNames !! i = Some name \/ fullMonthNames !! i = Some name ->
  toUpperCase monthName = name -> year <> 0 ->
  convertMonthToStartDate env monthName (Some year) =
    "01/" +:+ padStart2 (intToString (Z.of_nat i + 1)) +:+ "/" +:+
    sliceLast 2 (intToString year) /\
  convertMonthToEndDate env monthName (Some year) =
    padStart2 (intToString (JsDate.daysInMonth year (Z.of_nat i + 1)))
    +:+ "/" +:+ padStart2 (intToString (Z.of_nat i + 1)) +:+ "/" +:+
    sliceLast 2 (intToString year).
Proof.
  intros Hi Hn Hy.
  unfold convertMonthToStartDate, convertMonthToEndDate.
  rewrite (yearOrNow_given env year Hy), isLeapYear_isLeap.
  unfold JsDate.daysInMonth.
  set (ys := sliceLast 2 (intToString year)). clearbody ys.
  do 12 (destruct i as [|i];
         [destruct Hi as [[= <-]|[= <-]];
          rewrite (name_nonempty monthName _ Hn eq_refl), Hn;
          destruct (JsDate.isLeap year); split; vm_compute; reflexivity|]).
  destruct Hi as [Hi|Hi]; discriminate Hi.
Qed.

Lemma validYMD_first (y m : Z) : 1 <= m <= 12 -> JsDate.validYMD y m 1 = true.
Proof. intros H. apply validYMD_small; lia. Qed.

Lemma validYMD_last (y m : Z) :
  1 <= m <= 12 -> JsDate.validYMD y m (JsDate.daysInMonth y m) = true.
Proof.
  intros H. pose proof (daysInMonth_min y m). unfold JsDate.validYMD.
  repeat (apply andb_true_iff; split); apply Z.leb_le; lia.
Qed.

(** A date [DD/MM/YY] of the 2000s, from its numbers. *)
Lemma padded_date (env : Env) (roadmapYear : option Z) (year m d : Z) :
  2000 <= year <= 2099 -> JsDate.validYMD year m d = true ->
  let text := padStart2 (intToString d) +:+ "/" +:+
              padStart2 (intToString m) +:+ "/" +:+
              sliceLast 2 (intToString year) in
  EUROPEAN_DATE_REGEX text = true /\
  DateUtility.convertEuropeanToISO env text roadmapYear = isoString year m d /\
  parseDateSafe env text
  = Some (JsDate.daysFromCivil year m d * JsDate.msPerDay).
Proof.
  intros Hy Hv text. pose proof (validYMD_bounds _ _ _ Hv) as [Bm Bd].
  destruct (yearShort_2000s year Hy) as (y3 & y4 & Es & Dy & Ey).
  destruct (twoDigits d ltac:(lia)) as (d1 & d2 & Ed & Dd & Vd).
  destruct (twoDigits m ltac:(lia)) as (m1 & m2 & Em & Dm & Vm).
  assert (Ht : text = str ([d1; d2] ++ "/"%char :: [m1; m2] ++ "/"%char
                                   :: [y3; y4])).
  { unfold text. rewrite Es, <- (str_chars (padStart2 (intToString d))),
      <- (str_chars (padStart2 (intToString m))), Ed, Em. reflexivity. }
  assert (P : dateParts [d1; d2] [m1; m2] [y3; y4])
    by (repeat split; simpl; assumption || lia).
  pose proof (european_date_parts env roadmapYear _ _ _ "/"%char P eq_refl)
    as R. cbv zeta in R.
  rewrite Vd, Vm in R.
  assert (Hsw : (12 <? m) = false) by (apply Z.ltb_ge; lia).
  rewrite Hsw in R. cbn [andb] in R.
  change (yearOfDigits [y3; y4]) with (2000 + decimalValue [y3; y4]) in R.
  rewrite <- Ey in R. rewrite Ht. apply R; [lia|exact Hv].
Qed.

(** [parseTextValue] of a bare month name, in the start and in the end
    role. *)
Lemma parseTextValue_of_month (env : Env) (value : string) (i : nat)
      (name : string) (year : Z) (isEnd : bool) :
  (isEnd = true -> regularZone env) ->
  toUpperCase value = name ->
  monthNames !! i = Some name \/ fullMonthNames !! i = Some name ->
  year <> 0 -> -270000 <= year <= 270000 ->
  parseTextValue env value isEnd (Some year) =
  isoString year (Z.of_nat i + 1)
            (if isEnd then JsDate.daysInMonth year (Z.of_nat i + 1) else 1).
Proof.
  intros Hz Hname Hi Hy0 Hy.
  pose proof (month_of_name i name Hi) as Hlt.
  assert (H : parseTextValue env value isEnd (Some year) =
              intToString (yearOrNow env (Some year)) +:+ "-" +:+
              padStart2 (intToString (Z.of_nat i + 1)) +:+ "-" +:+
              padStart2 (numToString
                           (if isEnd
                            then JsDate.getDate (localTZA env)
                                   (JsDate.ofComponents (localTZA env)
                                      (Some (yearOrNow env (Some year)))
                                      (Some (Z.of_nat i + 1)) (Some 0))
                            else Some 1))).
  { do 12 (destruct i as [|i];
           [destruct Hi as [[= <-]|[= <-]];
            (eapply (parseTextValue_month env value isEnd (Some year));
             [rewrite Hname; vm_compute; reflexivity|..]);
            solve [reflexivity | discriminate | vm_compute; reflexivity]|]).
    lia. }
  rewrite H, (yearOrNow_given env year Hy0). unfold isoString.
  destruct isEnd; [|reflexivity].
  now rewrite (last_day_of_month env year (Z.of_nat i + 1) (Hz eq_refl)
                 Hy0 Hy ltac:(lia)).
Qed.

(** X6.  For a month name, short or full and in any casing, and a
    roadmap year of the 2000s, [convertMonthToStartDate] gives a text
    that parses to the first day of that month of that year and
    [convertMonthToEndDate] one that parses to its last day, 29 February
    in a leap year; their ISO forms are what [parseTextValue] makes of
    the month name in the start and in the end role. *)
Theorem month_name_to_dates (env : Env) (monthName : string) (i : nat)
        (name : string) (year : Z) :
  monthNames !! i = Some name \/ fullMonthNames !! i = Some name ->
  toUpperCase monthName = name -> 2000 <= year <= 2099 ->
  let m := Z.of_nat i + 1 in
  let first := convertMonthToStartDate env monthName (Some year) in
  let last := convertMonthToEndDate env monthName (Some year) in
  parseDateSafe env first
  = Some (JsDate.daysFromCivil year m 1 * JsDate.msPerDay) /\
  parseDateSafe env last
  = Some (JsDate.daysFromCivil year m (JsDate.daysInMonth year m)
          * JsDate.msPerDay) /\
  DateUtility.convertEuropeanToISO env first (Some year)
  = parseTextValue env monthName false (Some year) /\
  (regularZone env ->
   DateUtility.convertEuropeanToISO env last (Some year)
   = parseTextValue env monthName true (Some year)).
Proof.
  intros Hi Hn Hy m first last.
  pose proof (month_of_name i name Hi) as Hlt.
  assert (Hm : 1 <= m <= 12) by (unfold m; lia).
  destruct (convertMonth_text env monthName i name year Hi Hn ltac:(lia))
    as [E1 E2].
  fold m in E1, E2.
  destruct (padded_date env (Some year) year m 1 Hy (validYMD_first year m Hm))
    as (_ & A1 & A2).
  destruct (padded_date env (Some year) year m _ Hy (validYMD_last year m Hm))
    as (_ & B1 & B2).
  unfold first, last. rewrite E2, B1, B2.
  replace (convertMonthToStartDate env monthName (Some year))
    with (padStart2 (intToString 1) +:+ "/" +:+ padStart2 (intToString m)
          +:+ "/" +:+ sliceLast 2 (intToString year))
    by (rewrite E1; reflexivity).
  rewrite A1, A2.
  rewrite (parseTextValue_of_month env monthName i name year false
             ltac:(discriminate) Hn Hi) by lia.
  fold m. split; [reflexivity|]. split; [reflexivity|].
  split; [reflexivity|]. intros Hz.
  rewrite (parseTextValue_of_month env monthName i name year true
             (fun _ => Hz) Hn Hi) by lia.
  reflexivity.
Qed.

(** In 2024 "february" ends on 29/02/24, which parses to midnight of
    29 February 2024 in UTC, the time 1709164800000, five hours behind
    UTC as anywhere. *)
Lemma month_name_to_dates_witness :
  let env := zonedEnv (-18000000) 2026 in
  convertMonthToEndDate env "february" (Some 2024) = "29/02/24" /\
  parseDateSafe env (convertMonthToEndDate env "february" (Some 2024))
  = Some 1709164800000 /\
  parseTextValue env "february" true (Some 2024) = "2024-02-29".
Proof.
  intros env.
  destruct (month_name_to_dates env "february" 1 "FEBRUARY" 2024
              ltac:(right; reflexivity) ltac:(reflexivity) ltac:(lia))
    as (_ & H2 & _ & H4).
  split; [reflexivity|]. split; [exact H2|].
  rewrite <- (H4 (fixedZone_regular (-18000000) 2026
                    ltac:(unfold JsDate.msPerDay; lia))).
  reflexivity.
Defined.

Lemma indexOfFrom_none (x : string) (l : list string) (i : Z) :
  0 <= i -> indexOfFrom i x l = -1 -> x ∉ l.
Proof.
  revert i. induction l as [|y l IH]; intros i Hi H.
  - apply not_elem_of_nil.
  - cbn [indexOfFrom] in H. destruct (String.eqb_spec x y) as [->|Hne]; [lia|].
    apply not_elem_of_cons. split; [exact Hne|].
    apply (IH (i + 1)); [lia|exact H].
Qed.

(** X7.  A text that is not a month name comes back unchanged from
    [convertMonthToStartDate] and from [convertMonthToEndDate],
    whatever the year. *)
Theorem unknown_month_unchanged (env : Env) (monthName : string)
        (roadmapYear : option Z) :
  monthIndexOf (toUpperCase monthName) = -1 ->
  convertMonthToStartDate env monthName roadmapYear = monthName /\
  convertMonthToEndDate env monthName roadmapYear = monthName.
Proof.
  intros H. unfold monthIndexOf in H.
  assert (Hs : (toUpperCase monthName ∉ monthNames) /\
               (toUpperCase monthName ∉ fullMonthNames)).
  { unfold indexOf in H.
    destruct (Z.eqb_spec (indexOfFrom 0 (toUpperCase monthName) monthNames)
                         (-1)) as [E|E].
    - split; eapply indexOfFrom_none; try eassumption; lia.
    - contradiction. }
  destruct Hs as [Hs Hf].
  unfold convertMonthToStartDate, convertMonthToEndDate.
  destruct (String.eqb monthName EmptyString); [split; reflexivity|].
  cbv zeta.
  rewrite !not_elem_of_list_to_map_1; [split; reflexivity| |].
  all: cbn [fmap list_fmap fst]; unfold monthNames in Hs;
    unfold fullMonthNames in Hf;
    repeat (let N := fresh "N" in apply not_elem_of_cons in Hs as [N Hs]);
    repeat (let N := fresh "N" in apply not_elem_of_cons in Hf as [N Hf]);
    repeat (apply not_elem_of_cons; split; [assumption|]);
    apply not_elem_of_nil.
Qed.

Lemma unknown_month_unchanged_witness :
  convertMonthToStartDate (strictEnv 2026) "Sept" (Some 2025) = "Sept" /\
  convertMonthToEndDate (strictEnv 2026) "Sept" (Some 2025) = "Sept".
Proof.
  exact (unknown_month_unchanged (strictEnv 2026) "Sept" (Some 2025)
           ltac:(vm_compute; reflexivity)).
Defined.

(* ================================================================== *)
(** * The display form [DD/MM/YY] *)
(* ================================================================== *)

(** One or two digits padded to two places are two digits of the same
    value. *)
Lemma padStart2_digits (ds : list ascii) :
  forallb isDigit ds = true -> (1 <= length ds <= 2)%nat ->
  exists a b,
    padStart2 (str ds) = str [a; b] /\ forallb isDigit [a; b] = true /\
    decimalValue [a; b] = decimalValue ds.
Proof.
  intros D L. destruct ds as [|x [|y [|z ds]]]; simpl in L; try lia.
  - exists "0"%char, x. split; [reflexivity|]. split.
    + simpl in D. cbn [forallb]. apply andb_true_iff in D as [-> _].
      reflexivity.
    + rewrite decimalValue2. unfold decimalValue. simpl. reflexivity.
  - exists x, y. repeat split; assumption.
Qed.

(** The last two of two to four digits are two digits. *)
Lemma sliceLast_digits (ys : list ascii) :
  forallb isDigit ys = true -> (2 <= length ys <= 4)%nat ->
  exists a b,
    sliceLast 2 (str ys) = str [a; b] /\ forallb isDigit [a; b] = true /\
    ((length ys = 2)%nat -> ys = [a; b]).
Proof.
  intros D L. unfold sliceLast. rewrite chars_str.
  destruct ys as [|x [|y [|z [|w [|v ys]]]]]; simpl in L; try lia;
    split_digits D.
  - exists x, y. cbn [forallb]. rewrite Hd, Hd0. repeat split; reflexivity.
  - exists y, z. cbn [forallb]. rewrite Hd0, Hd1.
    repeat split; try reflexivity. simpl. lia.
  - exists z, w. cbn [forallb]. rewrite Hd1, Hd2.
    repeat split; try reflexivity. simpl. lia.
Qed.

(** The year of two digits that [twoDigitYear] moves to the 2000s keeps
    its two digits. *)
Lemma twoDigitYear_two (a b : ascii) :
  forallb isDigit [a; b] = true ->
  twoDigitYear (str [a; b]) = str ["2"%char; "0"%char; a; b].
Proof.
  intros D. unfold twoDigitYear. rewrite length_str. cbn [length Nat.eqb].
  rewrite (parseInt_digits [a; b]) by (assumption || discriminate).
  cbn [addN numToString].
  assert (D4 : forallb isDigit ["2"%char; "0"%char; a; b] = true).
  { split_digits D. cbn [forallb]. rewrite Hd, Hd0. reflexivity. }
  assert (E : 2000 + decimalValue [a; b]
              = decimalValue ["2"%char; "0"%char; a; b]).
  { rewrite decimalValue4, decimalValue2.
    change (digitVal "2") with 2. change (digitVal "0") with 0. lia. }
  rewrite E. apply intToString_four; [exact D4|].
  rewrite <- E. pose proof (decimalValue2_bounds a b D). lia.
Qed.

Lemma sliceLast_twoDigitYear (ys : list ascii) :
  forallb isDigit ys = true -> (2 <= length ys <= 4)%nat ->
  sliceLast 2 (twoDigitYear (str ys)) = sliceLast 2 (str ys).
Proof.
  intros D L. destruct (Nat.eq_dec (length ys) 2%nat) as [E|E].
  - destruct ys as [|a [|b [|c ys]]]; simpl in E; try lia.
    rewrite (twoDigitYear_two a b D), sliceLast_four, sliceLast_two.
    reflexivity.
  - unfold twoDigitYear. rewrite length_str.
    apply Nat.eqb_neq in E. now rewrite E.
Qed.

(** [formatDateEuropean] on the parts of a date. *)
Lemma formatDateEuropean_parts (env : Env) (roadmapYear : option Z)
      (ds1 ds2 ys : list ascii) (c : ascii) :
  dateParts ds1 ds2 ys -> isSep c = true ->
  DateUtility.formatDateEuropean env (str (ds1 ++ c :: ds2 ++ c :: ys))
                                 roadmapYear
  = padStart2 (str ds1) +:+ "/" +:+ padStart2 (str ds2) +:+ "/" +:+
    sliceLast 2 (str ys).
Proof.
  intros P Hc. pose proof P as (D1 & D2 & Dy & L1 & L2 & Ly).
  unfold DateUtility.formatDateEuropean.
  rewrite str_nonempty by (destruct ds1; simpl in *; [lia|discriminate]).
  rewrite (parts_of_date ds1 ds2 ys c P Hc). cbn [head truthy].
  rewrite str_nonempty by (apply nonempty_length; lia).
  now rewrite sliceLast_twoDigitYear.
Qed.

(** X8.  [formatDateEuropean] brings a date [D/M/Y] or [D-M-Y] to the
    form [DD/MM/YY]: the day and the month padded to two digits and the
    last two digits of the year, eight characters with slashes.  The
    result is a European date which the function leaves as it is,
    whatever the default year. *)
Theorem formatDateEuropean_normal_form (env : Env) (roadmapYear : option Z)
        (ds1 ds2 ys : list ascii) (c : ascii) :
  dateParts ds1 ds2 ys -> isSep c = true ->
  let text := str (ds1 ++ c :: ds2 ++ c :: ys) in
  let shown := DateUtility.formatDateEuropean env text roadmapYear in
  shown = padStart2 (str ds1) +:+ "/" +:+ padStart2 (str ds2) +:+ "/" +:+
          sliceLast 2 (str ys) /\
  String.length shown = 8%nat /\
  EUROPEAN_DATE_REGEX shown = true /\
  (forall year, DateUtility.formatDateEuropean env shown year = shown).
Proof.
  intros P Hc text shown. pose proof P as (D1 & D2 & Dy & L1 & L2 & Ly).
  assert (E : shown = padStart2 (str ds1) +:+ "/" +:+ padStart2 (str ds2)
                      +:+ "/" +:+ sliceLast 2 (str ys))
    by (apply formatDateEuropean_parts; assumption).
  split; [exact E|].
  destruct (padStart2_digits ds1 D1 L1) as (a1 & a2 & E1 & Da & _).
  destruct (padStart2_digits ds2 D2 L2) as (b1 & b2 & E2 & Db & _).
  destruct (sliceLast_digits ys Dy Ly) as (c1 & c2 & E3 & Dc & _).
  assert (E' : shown = str ([a1; a2] ++ "/"%char :: [b1; b2] ++ "/"%char
                                     :: [c1; c2]))
    by (rewrite E, E1, E2, E3; reflexivity).
  assert (P' : dateParts [a1; a2] [b1; b2] [c1; c2])
    by (repeat split; simpl; assumption || lia).
  rewrite E'. split; [reflexivity|]. split.
  - unfold EUROPEAN_DATE_REGEX. rewrite chars_str.
    now apply europeanList_parts.
  - intros year. rewrite (formatDateEuropean_parts env year _ _ _ "/"%char P' eq_refl).
    reflexivity.
Qed.

Lemma formatDateEuropean_normal_form_witness :
  DateUtility.formatDateEuropean (strictEnv 2026) "5-3-2025" None
  = "05/03/25" /\
  DateUtility.formatDateEuropean (strictEnv 2026) "05/03/25" (Some 1999)
  = "05/03/25".
Proof.
  destruct (formatDateEuropean_normal_form
              (strictEnv 2026) None (chars "5") (chars "3") (chars "2025")
              "-"%char ltac:(repeat split; simpl; lia || reflexivity)
              ltac:(reflexivity)) as (H1 & _ & _ & H2).
  split; [exact H1|exact (H2 (Some 1999))].
Defined.

(* ================================================================== *)
(** * Positions on the grid *)
(* ================================================================== *)

Lemma GRID_POSITIONS_columns (key : string) (column : Z) :
  GRID_POSITIONS !! key = Some column ->
  1 <= column <= 111 /\ (column - 1) mod 10 = 0.
Proof.
  intros H. unfold GRID_POSITIONS in H.
  apply elem_of_list_to_map_2 in H.
  repeat (apply elem_of_cons in H as [H|H];
          [injection H as _ ->; split; [lia|reflexivity]|]).
  apply elem_of_nil in H. contradiction.
Qed.

Lemma getMonthGridPosition_columns (s : string) :
  1 <= getMonthGridPosition s <= 111 /\
  (getMonthGridPosition s - 1) mod 10 = 0.
Proof.
  unfold getMonthGridPosition, orNum.
  destruct (GRID_POSITIONS !! toUpperCase s) as [c|] eqn:E;
    [|split; [lia|reflexivity]].
  apply GRID_POSITIONS_columns in E.
  destruct (Z.eqb_spec c 0); [lia|exact E].
Qed.

Lemma positionWithinMonth_bounds (d : Z) : 0 <= positionWithinMonth d <= 9.
Proof.
  unfold positionWithinMonth.
  repeat match goal with |- context [if ?b then _ else _] => destruct b end;
    lia.
Qed.

Lemma dateToGrid_bounds (env : Env) (s : string) :
  1 <= RoadmapGenerator.dateToGrid env s <= 120.
Proof.
  unfold RoadmapGenerator.dateToGrid, DateUtility.dateToGrid.
  destruct (newDate env s) as [t|]; [|lia].
  destruct (JsDate.getDate _ (Some t)) as [d|]; [|lia].
  destruct (getMonthName _) as [name|]; [|lia].
  pose proof (getMonthGridPosition_columns name) as [? _].
  pose proof (positionWithinMonth_bounds d). unfold monthToGrid. lia.
Qed.

(** X9.  Every position is a column of the grid: a month, whatever the
    text, starts on one of the columns 1, 11, ..., 111; a date, whatever
    the text and whatever the engine makes of it, and any start or end
    value lie on the columns 1 to 120. *)
Theorem positions_in_grid (env : Env) :
  (forall month,
      1 <= getMonthGridPosition month <= 111 /\
      (getMonthGridPosition month - 1) mod COLUMNS_PER_MONTH = 0) /\
  (forall dateStr,
      1 <= RoadmapGenerator.dateToGrid env dateStr <= MAX_COLUMNS) /\
  (forall value,
      1 <= RoadmapGenerator.getGridPosition env value <= MAX_COLUMNS).
Proof.
  split; [apply getMonthGridPosition_columns|].
  split; [apply dateToGrid_bounds|].
  intros value.
  unfold RoadmapGenerator.getGridPosition, DateUtility.getGridPosition.
  unfold MAX_COLUMNS.
  destruct (truthy value) as [v|]; [|lia].
  destruct (ISO_DATE_REGEX v); [apply dateToGrid_bounds|].
  destruct (EUROPEAN_DATE_REGEX v); [apply dateToGrid_bounds|].
  pose proof (getMonthGridPosition_columns v) as [? _].
  unfold monthToGrid. lia.
Qed.

(** X10.  [getDatePositionType] never answers [end-prev]: the first
    three days of a month are always a [start].  A date that does not
    parse is [mid] without a day; a date that parses is [start] up to
    day 3, [end] from day 26 and [mid] between. *)
Theorem date_position_type (env : Env) (dateStr : string) :
  let position := getDatePositionType env dateStr in
  type position <> "end-prev" /\
  match dayOfMonth position with
  | None => parseDateSafe env dateStr = None /\ type position = "mid"
  | Some day =>
      1 <= day <= 31 /\
      type position =
        (if day <=? 3 then "start" else if 26 <=? day then "end" else "mid")
  end.
Proof.
  cbv zeta. unfold getDatePositionType, isStartOfMonth, isEndOfPreviousMonth,
    isEndOfMonth.
  destruct (parseDateSafe env dateStr) as [t|] eqn:E;
    [|split; [discriminate|split; reflexivity]].
  pose proof (civilOf_valid (JsDate.LocalTime (localTZA env) t)) as Hv.
  unfold JsDate.getDate.
  destruct (JsDate.civilOf (JsDate.LocalTime (localTZA env) t)) as [[y m] d].
  cbn [snd]. apply validYMD_bounds in Hv as [_ Hd].
  destruct (Z.leb_spec 1 d); [|lia]. cbn [andb].
  destruct (d <=? 3) eqn:E3; [|destruct (26 <=? d) eqn:E26];
    cbn [type dayOfMonth]; rewrite ?E3, ?E26;
    (split; [discriminate|]); (split; [lia|reflexivity]).
Qed.

(** X11.  [getMonthFromDate] always names a month.  For a valid ISO
    date it is the month of the date, and on a host whose local time is
    not behind UTC the column of the date lies in the ten columns of
    that month. *)
Theorem date_in_columns_of_month (env : Env) (dateStr : string) :
  exists name,
    getMonthFromDate env dateStr = Some name /\ name ∈ monthNames /\
    forall y m d,
      regularZone env ->
      JsDate.isoCalendarDate (chars dateStr) = Some (y, m, d) ->
      getMonthName (Some m) = Some name /\
      getMonthGridPosition name = monthBase m /\
      (notBehindUTC env ->
       monthBase m <= RoadmapGenerator.dateToGrid env dateStr
       <= monthBase m + 9).
Proof.
  unfold getMonthFromDate.
  destruct (parseDateSafe env dateStr) as [t|] eqn:E.
  - pose proof (civilOf_valid (JsDate.LocalTime (localTZA env) t)) as Hv.
    unfold JsDate.getMonth.
    destruct (JsDate.civilOf (JsDate.LocalTime (localTZA env) t))
      as [[y0 m0] d0] eqn:Ec.
    cbn [fst snd addN]. apply validYMD_bounds in Hv as [Hm _].
    replace (m0 - 1 + 1) with m0 by lia.
    destruct (getMonthName_base m0 Hm) as (name & Hn & Hg & _).
    exists name. split; [exact Hn|]. split.
    + clear -Hn Hm. each_month m0 Hm; vm_compute in Hn; injection Hn as <-;
        unfold monthNames;
        repeat (apply elem_of_cons; first [left; reflexivity | right]).
    + intros y m d Hz Hs.
      rewrite (parseDateSafe_iso env dateStr y m d Hz Hs) in E.
      injection E as <-.
      pose proof (isoCalendarDate_fields _ _ _ _ Hs) as (_ & Hv & _).
      unfold localMidnight, utcMidnight in Ec.
      rewrite (local_of_localMidnight env _ Hz),
        (civilFromDays_daysFromCivil _ _ _ Hv) in Ec.
      injection Ec as <- <- <-.
      split; [exact Hn|]. split; [exact Hg|]. intros Hb.
      destruct (dateToGrid_iso env dateStr y m d monthToGrid Hz Hb Hs)
        as (name' & Hn' & Hd).
      rewrite Hn in Hn'. injection Hn' as <-.
      unfold RoadmapGenerator.dateToGrid. rewrite Hd. unfold monthToGrid.
      rewrite Hg. pose proof (positionWithinMonth_bounds d). lia.
  - exists "JAN". split; [reflexivity|]. split.
    + unfold monthNames. apply elem_of_cons. left. reflexivity.
    + intros y m d Hz Hs.
      rewrite (parseDateSafe_iso env dateStr y m d Hz Hs) in E. discriminate.
Qed.

(** Two hours ahead of UTC the date 2026-03-01 is a date of MAR and
    lies on the columns 21 to 30. *)
Lemma date_in_columns_of_month_witness :
  let env := zonedEnv 7200000 2026 in
  exists name,
    getMonthFromDate env "2026-03-01" = Some name /\
    getMonthGridPosition name = 21 /\
    21 <= RoadmapGenerator.dateToGrid env "2026-03-01" <= 30.
Proof.
  intros env.
  destruct (date_in_columns_of_month env "2026-03-01")
    as (name & H1 & _ & H).
  destruct (H 2026 3 1 (fixedZone_regular 7200000 2026
                          ltac:(unfold JsDate.msPerDay; lia))
              ltac:(reflexivity)) as (_ & H2 & H3).
  exists name. split; [exact H1|]. split; [exact H2|].
  exact (H3 (fixedZone_notBehind 7200000 2026 ltac:(lia))).
Defined.

(* ================================================================== *)
(** * The order of dates *)
(* ================================================================== *)

Lemma iso_parsesTo (env : Env) (s : string) (y m d : Z) :
  regularZone env ->
  JsDate.isoCalendarDate (chars s) = Some (y, m, d) ->
  parsesAtLocal env s (y, m, d).
Proof.
  intros Hz H. split; [|now apply parseDateSafe_iso].
  now apply isoCalendarDate_fields in H as (_ & Hv & _).
Qed.

Lemma fixedZone_steady (offset year : Z) : steadyZone (zonedEnv offset year).
Proof.
  intros t1 t2. unfold zonedEnv, fixedZone. cbn [localTZA].
  unfold JsDate.msPerDay. lia.
Qed.

Lemma days_order (y1 m1 d1 y2 m2 d2 : Z) :
  JsDate.validYMD y1 m1 d1 = true -> JsDate.validYMD y2 m2 d2 = true ->
  (JsDate.daysFromCivil y1 m1 d1 < JsDate.daysFromCivil y2 m2 d2
   <-> earlier (y1, m1, d1) (y2, m2, d2)) /\
  (JsDate.daysFromCivil y1 m1 d1 = JsDate.daysFromCivil y2 m2 d2
   <-> (y1, m1, d1) = (y2, m2, d2)).
Proof.
  intros H1 H2. pose proof (daysFromCivil_order _ _ _ _ _ _ H1 H2) as O.
  unfold earlier. split; [now rewrite <- O|]. split.
  - intros E.
    rewrite <- (civilFromDays_daysFromCivil _ _ _ H1),
      <- (civilFromDays_daysFromCivil _ _ _ H2). now rewrite E.
  - intros [= -> -> ->]. reflexivity.
Qed.

(** The times that two dates parse to, whatever their forms: each is
    less than a day away from midnight of its date in UTC, and two of
    the same form are as far from it, up to the change of the offset
    between them. *)
Lemma parsed_times (env : Env) (s1 s2 : string) (a b : Z * Z * Z) :
  regularZone env -> steadyZone env ->
  parsesTo env s1 a -> parsesTo env s2 b ->
  exists n1 n2 t1 t2,
    parseDateSafe env s1 = Some t1 /\ parseDateSafe env s2 = Some t2 /\
    (n1 < n2 <-> earlier a b) /\ (n1 = n2 <-> a = b) /\
    (n1 < n2 -> t1 < t2) /\ (n2 < n1 -> t2 < t1) /\
    ((parsesAtUTC env s1 a /\ parsesAtUTC env s2 b) \/
     (parsesAtLocal env s1 a /\ parsesAtLocal env s2 b) ->
     n1 = n2 -> t1 = t2).
Proof.
  destruct a as [[y1 m1] d1], b as [[y2 m2] d2].
  intros [Hz _] Hs Pa Pb.
  exists (JsDate.daysFromCivil y1 m1 d1), (JsDate.daysFromCivil y2 m2 d2).
  assert (Va : JsDate.validYMD y1 m1 d1 = true)
    by (destruct Pa as [[V _]|[V _]]; exact V).
  assert (Vb : JsDate.validYMD y2 m2 d2 = true)
    by (destruct Pb as [[V _]|[V _]]; exact V).
  destruct (days_order _ _ _ _ _ _ Va Vb) as [O1 O2].
  assert (Form : forall s y m d,
             parsesTo env s (y, m, d) ->
             let n := JsDate.daysFromCivil y m d in
             let z := localTZA env (n * JsDate.msPerDay) false in
             exists o,
               parseDateSafe env s = Some (n * JsDate.msPerDay - o) /\
               (o = 0 \/ o = z) /\
               (parsesAtUTC env s (y, m, d) -> o = 0) /\
               (parsesAtLocal env s (y, m, d) -> o = z)).
  { intros s y m d P n z.
    destruct P as [[_ P]|[_ P]];
      unfold localMidnight, utcMidnight, JsDate.UTC in P; fold n in P;
      fold z in P; [exists 0 | exists z];
      (split; [rewrite P; f_equal; lia|]); (split; [tauto|]);
      split; intros [_ Q];
      unfold localMidnight, utcMidnight, JsDate.UTC in Q; fold n in Q;
      fold z in Q; rewrite P in Q; try reflexivity;
      injection Q as Q; lia. }
  destruct (Form _ _ _ _ Pa) as (o1 & E1 & C1 & U1 & L1).
  destruct (Form _ _ _ _ Pb) as (o2 & E2 & C2 & U2 & L2).
  clear Form.
  set (n1 := JsDate.daysFromCivil y1 m1 d1) in *.
  set (n2 := JsDate.daysFromCivil y2 m2 d2) in *.
  pose proof (Hz (n1 * JsDate.msPerDay) false) as B1.
  pose proof (Hz (n2 * JsDate.msPerDay) false) as B2.
  pose proof (Hs (n1 * JsDate.msPerDay) (n2 * JsDate.msPerDay)) as S1.
  pose proof (Hs (n2 * JsDate.msPerDay) (n1 * JsDate.msPerDay)) as S2.
  exists (n1 * JsDate.msPerDay - o1), (n2 * JsDate.msPerDay - o2).
  split; [exact E1|]. split; [exact E2|].
  split; [exact O1|]. split; [exact O2|].
  assert (Hd : o1 - o2 < JsDate.msPerDay /\ o2 - o1 < JsDate.msPerDay)
    by (destruct C1 as [-> | ->], C2 as [-> | ->]; lia).
  split; [unfold JsDate.msPerDay in *; nia|].
  split; [unfold JsDate.msPerDay in *; nia|].
  intros [[Qa Qb]|[Qa Qb]] E.
  - rewrite (U1 Qa), (U2 Qb), E. reflexivity.
  - rewrite (L1 Qa), (L2 Qb), E. reflexivity.
Qed.

(** X12.  A delivery is early when the new date is before the previous
    one in the calendar, and for two dates written in the same form,
    both [D/M/Y] or both ISO, exactly then: never when the two are the
    same date and never in both directions.  When one of the dates is
    missing or does not parse the delivery is not early. *)
Theorem early_delivery_is_calendar_order (env : Env) (prev new : string)
        (a b : Z * Z * Z) :
  regularZone env -> steadyZone env ->
  parsesTo env prev a -> parsesTo env new b ->
  (earlier b a ->
   DateUtility.isEarlyDelivery env (Some prev) (Some new) = true) /\
  ((parsesAtUTC env prev a /\ parsesAtUTC env new b) \/
   (parsesAtLocal env prev a /\ parsesAtLocal env new b) ->
   (DateUtility.isEarlyDelivery env (Some prev) (Some new) = true
    <-> earlier b a)) /\
  (DateUtility.isEarlyDelivery env (Some prev) (Some new) = true ->
   DateUtility.isEarlyDelivery env (Some new) (Some prev) = false) /\
  DateUtility.isEarlyDelivery env (Some prev) (Some prev) = false /\
  (forall text other,
      parseDateSafe env text = None ->
      DateUtility.isEarlyDelivery env (Some text) other = false /\
      DateUtility.isEarlyDelivery env other (Some text) = false /\
      DateUtility.isEarlyDelivery env None other = false /\
      DateUtility.isEarlyDelivery env other None = false).
Proof.
  intros Hz Hs Pa Pb.
  destruct (parsed_times env new prev b a Hz Hs Pb Pa)
    as (n1 & n2 & t1 & t2 & E1 & E2 & O1 & O2 & L1 & L2 & Same).
  unfold DateUtility.isEarlyDelivery. rewrite E1, E2.
  split; [intros H; apply Z.ltb_lt, L1, O1, H|].
  split.
  { intros Hform. rewrite Z.ltb_lt. split; [|intros H; apply L1, O1, H].
    intros Hlt. apply O1.
    destruct (Z.lt_trichotomy n1 n2) as [H|[H|H]]; [exact H| |].
    - assert (t1 = t2) by (apply Same; [tauto|exact H]). lia.
    - apply L2 in H. lia. }
  split; [rewrite Z.ltb_lt, Z.ltb_ge; lia|].
  split; [apply Z.ltb_irrefl|].
  intros text other Hn. rewrite Hn.
  destruct other as [o|]; [destruct (parseDateSafe env o)|];
    repeat split; reflexivity.
Qed.

(** Five hours behind UTC, moving the end from 31/03/25 to 28/02/25 is
    an early delivery, and so is moving it from 2025-03-31 to
    28/02/25. *)
Lemma early_delivery_is_calendar_order_witness :
  let env := zonedEnv (-18000000) 2026 in
  DateUtility.isEarlyDelivery env (Some "31/03/25") (Some "28/02/25") = true /\
  DateUtility.isEarlyDelivery env (Some "2025-03-31") (Some "28/02/25")
  = true.
Proof.
  intros env.
  assert (Hz : regularZone env)
    by (apply fixedZone_regular; unfold JsDate.msPerDay; lia).
  split.
  - apply (proj1 (proj2 (early_delivery_is_calendar_order
                           env "31/03/25" "28/02/25"
                           (2025, 3, 31) (2025, 2, 28)
                           Hz (fixedZone_steady _ _)
                           ltac:(left; split; reflexivity)
                           ltac:(left; split; reflexivity)))).
    + left. split; split; reflexivity.
    + vm_compute. right. split; [reflexivity|]. left. reflexivity.
  - apply (proj1 (early_delivery_is_calendar_order
                    env "2025-03-31" "28/02/25"
                    (2025, 3, 31) (2025, 2, 28)
                    Hz (fixedZone_steady _ _)
                    ltac:(right; split; reflexivity)
                    ltac:(left; split; reflexivity))).
    vm_compute. right. split; [reflexivity|]. left. reflexivity.
Defined.

(** X13.  [compareDates] puts the earlier of two dates that parse
    first, and for two dates written in the same form, both [D/M/Y] or
    both ISO, it orders them as the calendar does: negative exactly when
    the first is the earlier date and zero exactly when they are the
    same date.  The other way round the sign is the opposite.  A date
    that does not parse goes last, also against itself. *)
Theorem compareDates_is_calendar_order (env : Env) (dateA dateB : string)
        (a b : Z * Z * Z) :
  regularZone env -> steadyZone env ->
  parsesTo env dateA a -> parsesTo env dateB b ->
  (earlier a b -> compareDates env (Some dateA) (Some dateB) < 0) /\
  ((parsesAtUTC env dateA a /\ parsesAtUTC env dateB b) \/
   (parsesAtLocal env dateA a /\ parsesAtLocal env dateB b) ->
   (compareDates env (Some dateA) (Some dateB) < 0 <-> earlier a b) /\
   (compareDates env (Some dateA) (Some dateB) = 0 <-> a = b)) /\
  compareDates env (Some dateB) (Some dateA)
  = - compareDates env (Some dateA) (Some dateB) /\
  (forall text,
      parseDateSafe env text = None ->
      compareDates env (Some text) (Some dateA) = 1 /\
      compareDates env (Some dateA) (Some text) = -1 /\
      compareDates env (Some text) (Some text) = 1).
Proof.
  intros Hz Hs Pa Pb.
  destruct (parsed_times env dateA dateB a b Hz Hs Pa Pb)
    as (n1 & n2 & t1 & t2 & E1 & E2 & O1 & O2 & L1 & L2 & Same).
  unfold compareDates. rewrite E1, E2.
  split; [intros H; apply O1, L1 in H; lia|].
  split.
  { intros Hform. specialize (Same Hform).
    split; split.
    - intros Hlt. apply O1.
      destruct (Z.lt_trichotomy n1 n2) as [H|[H|H]]; [exact H| |].
      + apply Same in H. lia.
      + apply L2 in H. lia.
    - intros H. apply O1, L1 in H. lia.
    - intros Heq. apply O2.
      destruct (Z.lt_trichotomy n1 n2) as [H|[H|H]]; [|exact H|].
      + apply L1 in H. lia.
      + apply L2 in H. lia.
    - intros H. apply O2, Same in H. lia. }
  split; [lia|]. intros text Hn. rewrite Hn. repeat split; reflexivity.
Qed.

(** Five hours behind UTC 31/12/24 comes before 2025-01-01, and
    01/03/25 and 1/3/2025 are the same date. *)
Lemma compareDates_is_calendar_order_witness :
  let env := zonedEnv (-18000000) 2026 in
  compareDates env (Some "31/12/24") (Some "2025-01-01") < 0 /\
  compareDates env (Some "01/03/25") (Some "1/3/2025") = 0.
Proof.
  intros env.
  assert (Hz : regularZone env)
    by (apply fixedZone_regular; unfold JsDate.msPerDay; lia).
  split.
  - apply (proj1 (compareDates_is_calendar_order
                    env "31/12/24" "2025-01-01"
                    (2024, 12, 31) (2025, 1, 1)
                    Hz (fixedZone_steady _ _)
                    ltac:(left; split; reflexivity)
                    ltac:(right; split; reflexivity))).
    vm_compute. left. reflexivity.
  - apply (proj2 (proj1 (proj2 (compareDates_is_calendar_order
                                  env "01/03/25" "1/3/2025"
                                  (2025, 3, 1) (2025, 3, 1)
                                  Hz (fixedZone_steady _ _)
                                  ltac:(left; split; reflexivity)
                                  ltac:(left; split; reflexivity)))
                        ltac:(left; split; split; reflexivity))).
    reflexivity.
Defined.

(** The same date in the two forms is not the same time away from UTC:
    two hours ahead of UTC a move of the end from 01/03/25 to 2025-03-01
    counts as an early delivery, and the two dates do not compare as
    equal. *)
Lemma same_date_in_two_forms :
  let env := zonedEnv 7200000 2026 in
  DateUtility.isEarlyDelivery env (Some "01/03/25") (Some "2025-03-01")
  = true /\
  compareDates env (Some "01/03/25") (Some "2025-03-01") = 7200000.
Proof. split; vm_compute; reflexivity. Qed.

(* ================================================================== *)
(** * The latest change *)
(* ================================================================== *)

Section Sorting.
Context {A : Type} (compare : A -> A -> Z) (key : A -> Z) (P : A -> Prop).
Hypothesis compare_key :
  forall x y, P x -> P y -> compare y x = key x - key y.

Lemma insertSorted_elem (x : A) (l : list A) (y : A) :
  y ∈ insertSorted compare x l <-> y = x \/ y ∈ l.
Proof.
  induction l as [|z l IH]; cbn [insertSorted].
  - rewrite list_elem_of_singleton, elem_of_nil. tauto.
  - destruct (0 <? compare z x).
    + rewrite elem_of_cons. tauto.
    + rewrite !elem_of_cons, IH. tauto.
Qed.

Lemma insertSorted_headMax (x : A) (l : list A) :
  P x -> (forall y, y ∈ l -> P y) ->
  headMax key l -> headMax key (insertSorted compare x l).
Proof.
  intros Hx Hp Hl. destruct l as [|z l]; cbn [insertSorted].
  - intros y Hy. apply list_elem_of_singleton in Hy. subst. lia.
  - pose proof (compare_key x z Hx (Hp z ltac:(apply elem_of_cons; now left)))
      as Ez.
    destruct (Z.ltb_spec 0 (compare z x)) as [L|L].
    + intros y Hy. apply elem_of_cons in Hy as [->|Hy]; [lia|].
      specialize (Hl y Hy). lia.
    + intros y Hy. apply elem_of_cons in Hy as [->|Hy]; [lia|].
      apply insertSorted_elem in Hy as [->|Hy]; [lia|].
      apply Hl. apply elem_of_cons. now right.
Qed.

(** The sorted list has the elements of the list, the one of the
    greatest key first. *)
Lemma sortBy_spec (l : list A) :
  (forall x, x ∈ l -> P x) ->
  headMax key (sortBy compare l) /\
  (forall y, y ∈ sortBy compare l <-> y ∈ l).
Proof.
  unfold sortBy. intros Hp.
  assert (G : forall acc,
             (forall x, x ∈ acc -> P x) -> headMax key acc ->
             headMax key
                     (fold_left (fun sorted x => insertSorted compare x sorted)
                                l acc) /\
             (forall y,
                 y ∈ fold_left (fun sorted x => insertSorted compare x sorted)
                               l acc
                 <-> y ∈ acc \/ y ∈ l)).
  { induction l as [|x l IH]; intros acc Ha Hm; cbn [fold_left].
    - split; [exact Hm|]. intros y. rewrite elem_of_nil. tauto.
    - assert (Hx : P x) by (apply Hp, elem_of_cons; now left).
      destruct (IH ltac:(intros z Hz; apply Hp, elem_of_cons; now right)
                   (insertSorted compare x acc)) as [H1 H2].
      + intros y Hy. apply insertSorted_elem in Hy as [->|Hy];
          [exact Hx|now apply Ha].
      + now apply insertSorted_headMax.
      + split; [exact H1|]. intros y.
        rewrite H2, insertSorted_elem, elem_of_cons. tauto. }
  destruct (G []) as [H1 H2].
  - intros x Hx. apply elem_of_nil in Hx. contradiction.
  - exact I.
  - split; [exact H1|]. intros y. rewrite H2, elem_of_nil. tauto.
Qed.

End Sorting.

(** When the dates of all the changes parse the sort is the stable
    sort. *)
Lemma sortChanges_parsed (env : Env) (cs : list Change) :
  (forall change, change ∈ cs -> changeTime env change <> None) ->
  sortChanges env cs
  = sortBy (fun a b => DateUtility.compareDates env (date b) (date a)) cs.
Proof.
  intros Hall. unfold sortChanges.
  assert (forallb (changeDateParses env) cs = true) as ->; [|reflexivity].
  apply forallb_forall. intros c Hc.
  apply list_elem_of_In, Hall in Hc.
  unfold changeDateParses, changeTime in *.
  destruct (date c) as [s|]; [|congruence].
  destruct (parseDateSafe env s); [reflexivity|congruence].
Qed.

(** X14.  When the dates of all the changes of a story parse, the
    effective end of the story is the end that a change of the latest
    date gives it: the new end date of that change, a month name in
    upper case, or the end of the story itself when that change has no
    new end date. *)
Theorem latest_change_wins (env : Env) (story : Story) (cs : list Change) :
  changes story = Some cs -> cs <> [] ->
  (forall change, change ∈ cs -> changeTime env change <> None) ->
  exists latest time,
    latest ∈ cs /\ changeTime env latest = Some time /\
    (forall change t,
        change ∈ cs -> changeTime env change = Some t -> t <= time) /\
    getEffectiveEndDate env story = endOfChange story latest.
Proof.
  intros Hcs Hne Hall.
  set (cmp := fun a b : Change =>
                DateUtility.compareDates env (date b) (date a)).
  set (key := fun c : Change => default 0 (changeTime env c)).
  assert (Hck : forall x y,
             changeTime env x <> None -> changeTime env y <> None ->
             cmp y x = key x - key y).
  { intros x y Hx Hy. unfold cmp, key, DateUtility.compareDates, changeTime in *.
    destruct (date x) as [dx|]; [|congruence].
    destruct (date y) as [dy|]; [|congruence].
    destruct (parseDateSafe env dx); [|congruence].
    destruct (parseDateSafe env dy); [|congruence]. reflexivity. }
  destruct (sortBy_spec cmp key (fun c => changeTime env c <> None) Hck cs Hall)
    as [Hmax Hel].
  unfold getEffectiveEndDate. rewrite Hcs.
  rewrite (sortChanges_parsed env cs Hall).
  destruct cs as [|c0 cs']; [congruence|].
  fold cmp. destruct (sortBy cmp (c0 :: cs')) as [|latest rest] eqn:Es.
  - exfalso. apply (elem_of_nil c0). apply Hel. apply elem_of_cons. now left.
  - assert (Hin : latest ∈ c0 :: cs')
      by (apply Hel, elem_of_cons; now left).
    destruct (changeTime env latest) as [time|] eqn:Et;
      [|exfalso; exact (Hall latest Hin Et)].
    exists latest, time. split; [exact Hin|]. split; [exact Et|]. split.
    + intros change t Hc Ht. cbn [headMax] in Hmax.
      specialize (Hmax change (proj2 (Hel change) Hc)).
      unfold key in Hmax. rewrite Ht, Et in Hmax. exact Hmax.
    + reflexivity.
Qed.

Lemma latest_change_wins_witness :
  exists latest time,
    latest ∈ [ {| date := Some "01/06/25"; prevEndDate := Some "FEB";
                  newEndDate := Some "mar" |};
               {| date := Some "2025-09-01"; prevEndDate := Some "MAR";
                  newEndDate := Some "sep" |} ] /\
    changeTime (zonedEnv (-18000000) 2026) latest = Some time /\
    getEffectiveEndDate
      (zonedEnv (-18000000) 2026)
      {| startDate := None; startMonth := Some "JAN"; endDate := None;
         endMonth := Some "FEB";
         changes :=
           Some [ {| date := Some "01/06/25"; prevEndDate := Some "FEB";
                     newEndDate := Some "mar" |};
                  {| date := Some "2025-09-01"; prevEndDate := Some "MAR";
                     newEndDate := Some "sep" |} ];
         _originalStartDate := None; _startsInPreviousYear := false;
         _actualStartYear := None |}
    = Some "SEP".
Proof.
  destruct (latest_change_wins
              (zonedEnv (-18000000) 2026)
              {| startDate := None; startMonth := Some "JAN"; endDate := None;
                 endMonth := Some "FEB";
                 changes :=
                   Some [ {| date := Some "01/06/25"; prevEndDate := Some "FEB";
                             newEndDate := Some "mar" |};
                          {| date := Some "2025-09-01";
                             prevEndDate := Some "MAR";
                             newEndDate := Some "sep" |} ];
                 _originalStartDate := None; _startsInPreviousYear := false;
                 _actualStartYear := None |}
              _ eq_refl ltac:(discriminate)) as (latest & time & H1 & H2 & _ & H4).
  - intros change Hc.
    apply elem_of_cons in Hc as [->|Hc]; [discriminate|].
    apply list_elem_of_singleton in Hc as ->. discriminate.
  - exists latest, time. split; [exact H1|]. split; [exact H2|].
    reflexivity.
Defined.

(* ================================================================== *)
(** * January and October *)
(* ================================================================== *)

Lemma dayThenMonth_iso (months : list string) (l : list ascii) (y m d : Z) :
  JsDate.isoFields l = Some (y, m, d) -> dayThenMonth months l = false.
Proof.
  intros H. apply isoFields_shape in H
    as (y1 & y2 & y3 & y4 & s1 & m1 & m2 & s2 & d1 & d2 & -> & Hd & _).
  split_digits Hd. unfold dayThenMonth.
  assert (S2 : isSep y2 = false).
  { unfold isSep. now rewrite (digit_not_slash y2 Hd1), (digit_not_dash y2 Hd1). }
  assert (S3 : isSep y3 = false).
  { unfold isSep. now rewrite (digit_not_slash y3 Hd2), (digit_not_dash y3 Hd2). }
  rewrite Hd0, Hd1, S2, S3. reflexivity.
Qed.

(** The month of a valid ISO date whose text starts with a year and a
    month. *)
Lemma startsWith_month (s : string) (y m d : Z) (a b c e : ascii)
      (m1 m2 : ascii) :
  JsDate.isoFields (chars s) = Some (y, m, d) ->
  startsWith (str [a; b; c; e; "-"%char; m1; m2]) s = true ->
  m = decimalValue [m1; m2].
Proof.
  intros H. apply isoFields_shape in H
    as (y1 & y2 & y3 & y4 & s1 & n1 & n2 & s2 & d1 & d2 & E & _ & _ & _
        & _ & -> & _).
  unfold startsWith. rewrite E, chars_str. cbn [stripPrefix].
  repeat match goal with
         | |- context [Ascii.eqb ?p ?q] =>
             destruct (Ascii.eqb_spec p q); [subst|discriminate]
         end.
  reflexivity.
Qed.

(** X15.  On a valid ISO date, [isJanuary] and [isOctober] say whether
    the month of the date is January and October.  A text that starts
    with [2025-01] is taken for January and one that starts with
    [2025-10] for October, also when it is no date. *)
Theorem month_tests_on_iso_dates (env : Env) (s : string) (y m d : Z) :
  regularZone env ->
  JsDate.isoCalendarDate (chars s) = Some (y, m, d) ->
  isJanuary env s = (m =? 1) /\ isOctober env s = (m =? 10) /\
  (forall rest,
      isJanuary env ("2025-01" +:+ rest) = true /\
      isOctober env ("2025-10" +:+ rest) = true).
Proof.
  intros Hz Hs.
  pose proof (isoCalendarDate_fields _ _ _ _ Hs) as (Hf & Hv & _).
  unfold isJanuary, isOctober.
  rewrite !(dayThenMonth_iso _ _ y m d Hf).
  rewrite (parseDateSafe_iso env s y m d Hz Hs).
  destruct (getters_localMidnight env y m d Hz Hv) as (_ & -> & _).
  split; [|split].
  - destruct (startsWith "2025-01" s) eqn:E.
    + rewrite (startsWith_month s y m d _ _ _ _ _ _ Hf E). reflexivity.
    + destruct (Z.eqb_spec (m - 1) 0), (Z.eqb_spec m 1); lia || reflexivity.
  - destruct (startsWith "2025-10" s) eqn:E.
    + rewrite (startsWith_month s y m d _ _ _ _ _ _ Hf E). reflexivity.
    + destruct (Z.eqb_spec (m - 1) 9), (Z.eqb_spec m 10); lia || reflexivity.
  - intros rest. split; reflexivity.
Qed.

Lemma month_tests_on_iso_dates_witness :
  let env := zonedEnv (-18000000) 2026 in
  isJanuary env "2024-01-01" = true /\ isOctober env "2024-01-01" = false.
Proof.
  intros env.
  destruct (month_tests_on_iso_dates
              env "2024-01-01" 2024 1 1
              (fixedZone_regular (-18000000) 2026
                 ltac:(unfold JsDate.msPerDay; lia))
              ltac:(reflexivity)) as (H1 & H2 & _).
  split; [exact H1|exact H2].
Defined.

(* ================================================================== *)
(** * The dates of the timeline *)
(* ================================================================== *)

(** X16.  On a date [D/M/Y] of the calendar, with slashes and the day
    first, [parseEuropeanDateForTimeline] gives midnight of the date in
    local time, which reads back as that date, where [parseDateSafe]
    gives midnight of the date in UTC; of no text it makes the start of
    1970. *)
Theorem timeline_date_is_local (env : Env) (ds1 ds2 ys : list ascii) :
  regularZone env ->
  dateParts ds1 ds2 ys ->
  let text := str (ds1 ++ "/"%char :: ds2 ++ "/"%char :: ys) in
  let day := decimalValue ds1 in
  let month := decimalValue ds2 in
  let year := yearOfDigits ys in
  1000 <= year <= 9999 -> JsDate.validYMD year month day = true ->
  let date := parseEuropeanDateForTimeline env text in
  date = Some (localMidnight env year month day) /\
  parseDateSafe env text = Some (utcMidnight year month day) /\
  JsDate.getFullYear (localTZA env) date = Some year /\
  JsDate.getMonth (localTZA env) date = Some (month - 1) /\
  JsDate.getDate (localTZA env) date = Some day /\
  parseEuropeanDateForTimeline env EmptyString = Some 0.
Proof.
  intros Hz P text day month year Hy Hv date.
  pose proof P as (D1 & D2 & Dy & L1 & L2 & Ly).
  pose proof (validYMD_bounds _ _ _ Hv) as [Bm Bd].
  pose proof (european_date_parts env None ds1 ds2 ys "/"%char P eq_refl)
    as R. cbv zeta in R. fold day month year in R.
  assert (Hsw : (12 <? month) = false) by (apply Z.ltb_ge; lia).
  rewrite Hsw in R. cbn [andb] in R.
  destruct (R Hy Hv) as (_ & _ & R2). fold text in R2.
  assert (E : date = Some (localMidnight env year month day)).
  { unfold date, parseEuropeanDateForTimeline, text.
    rewrite str_nonempty
      by (destruct ds1; simpl in *; [lia|discriminate]).
    rewrite (split_parts isSlash "/"%char ds1 ds2 ys digit_not_slash eq_refl P).
    rewrite !parseInt_digits
      by (try apply nonempty_length; assumption || lia).
    fold day month. cbn [addN ltN].
    assert (Ey : match decimalValue ys <? 100 return JsNum with
                 | true => Some (decimalValue ys + 2000)
                 | false => Some (decimalValue ys)
                 end = Some year).
    { unfold year, yearOfDigits in *.
      destruct (length ys =? 2)%nat eqn:E2.
      - apply Nat.eqb_eq in E2.
        destruct ys as [|a [|b [|c ys]]]; simpl in E2; try lia.
        pose proof (decimalValue2_bounds a b Dy).
        destruct (Z.ltb_spec (decimalValue [a; b]) 100); [f_equal; lia|lia].
      - destruct (Z.ltb_spec (decimalValue ys) 100); [lia|reflexivity]. }
    rewrite Ey. unfold JsDate.ofComponents.
    destruct (Z.leb_spec 0 year); [|lia].
    destruct (Z.leb_spec year 99); [lia|]. cbn [andb].
    replace (month + -1) with (month - 1) by lia.
    rewrite (makeDay_civil year month day Bm).
    apply timeClip_localMidnight; [exact Hz|].
    apply year_days_bounds; [exact Hv|lia]. }
  split; [exact E|]. split; [exact R2|].
  rewrite E. destruct (getters_localMidnight env year month day Hz Hv)
    as (Gy & Gm & Gd).
  repeat split; assumption || reflexivity.
Qed.

(** Five hours behind UTC the date 5/3/25 of the timeline is the time
    1741150800000, five hours after the time that [parseDateSafe] makes
    of it, and its day is 5. *)
Lemma timeline_date_is_local_witness :
  let env := zonedEnv (-18000000) 2026 in
  parseEuropeanDateForTimeline env "5/3/25" = Some 1741150800000 /\
  parseDateSafe env "5/3/25" = Some 1741132800000 /\
  JsDate.getDate (localTZA env) (parseEuropeanDateForTimeline env "5/3/25")
  = Some 5.
Proof.
  intros env.
  destruct (timeline_date_is_local
              env (chars "5") (chars "3") (chars "25")
              (fixedZone_regular (-18000000) 2026
                 ltac:(unfold JsDate.msPerDay; lia))
              ltac:(repeat split; simpl; lia || reflexivity)
              ltac:(vm_compute; split; discriminate)
              ltac:(reflexivity)) as (H1 & H2 & _ & _ & H5 & _).
  split; [exact H1|]. split; [exact H2|exact H5].
Defined.

(* ================================================================== *)
(** * The stories of a roadmap year *)
(* ================================================================== *)

Lemma isoOfStoryDate_iso (g : Generator) (env : Env) (s : string) (y m d : Z) :
  regularZone env -> notBehindUTC env ->
  JsDate.isoCalendarDate (chars s) = Some (y, m, d) ->
  JsDate.getFullYear (localTZA env) (newDate env (isoOfStoryDate g env s))
  = Some y.
Proof.
  intros Hz Hb Hs.
  pose proof (isoCalendarDate_fields _ _ _ _ Hs) as (Hf & Hv & _).
  unfold isoOfStoryDate, EUROPEAN_DATE_REGEX.
  rewrite (iso_not_european _ y m d true Hf), (newDate_iso env s y m d Hs).
  now destruct (getters_utcMidnight env y m d Hz Hb Hv) as (-> & _).
Qed.

(** X17.  On a host whose local time is not behind UTC and with a
    roadmap year set, a story whose start and end are valid ISO dates is
    displayed exactly when it starts in or before the roadmap year and
    ends in or after it.  On every host a story without a start date and
    without an end date is always displayed, and so is every story when
    no roadmap year is set. *)
Theorem story_displayed_when_active (g : Generator) (env : Env)
        (story : Story) (s e : string) (ys ms ds ye me de : Z) :
  roadmapYear g <> 0 ->
  truthy (startDate story) = Some s -> truthy (endDate story) = Some e ->
  JsDate.isoCalendarDate (chars s) = Some (ys, ms, ds) ->
  JsDate.isoCalendarDate (chars e) = Some (ye, me, de) ->
  (regularZone env -> notBehindUTC env ->
   shouldDisplayStory g env story
   = (ys <=? roadmapYear g) && (roadmapYear g <=? ye)) /\
  (forall other,
      truthy (startDate other) = None -> truthy (endDate other) = None ->
      shouldDisplayStory g env other = true) /\
  (forall other,
      shouldDisplayStory {| roadmapYear := 0; searchRange := searchRange g |}
                         env other = true).
Proof.
  intros Hy Hs He Is Ie. split; [|split].
  - intros Hz Hb.
    unfold shouldDisplayStory. apply Z.eqb_neq in Hy. rewrite Hy, Hs, He.
    now rewrite (isoOfStoryDate_iso g env s ys ms ds Hz Hb Is),
      (isoOfStoryDate_iso g env e ye me de Hz Hb Ie).
  - intros other H1 H2. unfold shouldDisplayStory. rewrite H1, H2.
    destruct (roadmapYear g =? 0); [reflexivity|].
    destruct (truthy (startMonth other)), (truthy (endMonth other));
      rewrite ?Z.leb_refl; reflexivity.
  - intros other. reflexivity.
Qed.

(** Two hours ahead of UTC a story from 2024-11-01 to 2026-01-01 is
    displayed in 2025, and one that starts on 2026-01-01 is not. *)
Lemma story_displayed_when_active_witness :
  let env := zonedEnv 7200000 2026 in
  shouldDisplayStory (generatorOf 2025) env
                     (storyOf (Some "2024-11-01") None (Some "2026-01-01") None)
  = true /\
  shouldDisplayStory (generatorOf 2025) env
                     (storyOf (Some "2026-01-01") None (Some "2026-02-01") None)
  = false.
Proof.
  intros env.
  assert (Hz : regularZone env)
    by (apply fixedZone_regular; unfold JsDate.msPerDay; lia).
  assert (Hb : notBehindUTC env) by (apply fixedZone_notBehind; lia).
  split.
  - exact (proj1 (story_displayed_when_active
                    (generatorOf 2025) env
                    (storyOf (Some "2024-11-01") None (Some "2026-01-01") None)
                    "2024-11-01" "2026-01-01" 2024 11 1 2026 1 1
                    ltac:(discriminate) ltac:(reflexivity) ltac:(reflexivity)
                    ltac:(reflexivity) ltac:(reflexivity)) Hz Hb).
  - exact (proj1 (story_displayed_when_active
                    (generatorOf 2025) env
                    (storyOf (Some "2026-01-01") None (Some "2026-02-01") None)
                    "2026-01-01" "2026-02-01" 2026 1 1 2026 2 1
                    ltac:(discriminate) ltac:(reflexivity) ltac:(reflexivity)
                    ltac:(reflexivity) ltac:(reflexivity)) Hz Hb).
Defined.

(** X18.  A story whose start date and end date are both not outside
    the roadmap year is displayed.  On a host whose local time is not
    behind UTC a valid ISO date is outside the roadmap year exactly when
    its year is another one. *)
Theorem dates_inside_are_displayed (g : Generator) (env : Env)
        (story : Story) (s e : string) :
  truthy (startDate story) = Some s -> truthy (endDate story) = Some e ->
  isDateOutsideRoadmapYear g env s = false ->
  isDateOutsideRoadmapYear g env e = false ->
  shouldDisplayStory g env story = true /\
  (forall text y m d,
      regularZone env -> notBehindUTC env ->
      roadmapYear g <> 0 ->
      JsDate.isoCalendarDate (chars text) = Some (y, m, d) ->
      isDateOutsideRoadmapYear g env text = negb (y =? roadmapYear g)).
Proof.
  intros Hs He Os Oe. split.
  - unfold shouldDisplayStory, isDateOutsideRoadmapYear in *.
    destruct (truthy_Some _ _ Hs) as [Ns _].
    destruct (truthy_Some _ _ He) as [Ne _].
    rewrite Ns in Os. rewrite Ne in Oe. cbn [orb] in Os, Oe.
    destruct (roadmapYear g =? 0); [reflexivity|].
    rewrite Hs, He.
    destruct (JsDate.getFullYear _ (newDate env (isoOfStoryDate g env s)))
      as [sy|];
      destruct (JsDate.getFullYear _ (newDate env (isoOfStoryDate g env e)))
      as [ey|];
      try apply negb_false_iff in Os; try apply negb_false_iff in Oe;
      try apply Z.eqb_eq in Os; try apply Z.eqb_eq in Oe; subst;
      rewrite ?Z.leb_refl; reflexivity.
  - intros text y m d Hz Hb Hy Ht. unfold isDateOutsideRoadmapYear.
    pose proof (isoCalendarDate_fields _ _ _ _ Ht) as (Hf & _ & _).
    rewrite (iso_nonempty text y m d Hf).
    apply Z.eqb_neq in Hy. rewrite Hy. cbn [orb].
    now rewrite (isoOfStoryDate_iso g env text y m d Hz Hb Ht).
Qed.

(** Two hours ahead of UTC the dates 2025-01-01 and 31/12/25 are not
    outside 2025, and a story from the one to the other is displayed. *)
Lemma dates_inside_are_displayed_witness :
  let env := zonedEnv 7200000 2026 in
  shouldDisplayStory (generatorOf 2025) env
                     (storyOf (Some "2025-01-01") None (Some "31/12/25") None)
  = true /\
  isDateOutsideRoadmapYear (generatorOf 2025) env "2025-01-01" = false.
Proof.
  intros env.
  destruct (dates_inside_are_displayed
              (generatorOf 2025) env
              (storyOf (Some "2025-01-01") None (Some "31/12/25") None)
              "2025-01-01" "31/12/25"
              ltac:(reflexivity) ltac:(reflexivity)
              ltac:(reflexivity) ltac:(reflexivity)) as [H1 H2].
  split; [exact H1|].
  exact (H2 "2025-01-01" 2025 1 1
            (fixedZone_regular 7200000 2026
               ltac:(unfold JsDate.msPerDay; lia))
            (fixedZone_notBehind 7200000 2026 ltac:(lia))
            ltac:(discriminate) ltac:(reflexivity)).
Defined.

(** Behind UTC the year of a date is read a day early: five hours
    behind UTC the date 2025-01-01 is outside the roadmap year 2025, and
    a story that starts on 2026-01-01 is displayed in 2025. *)
Lemma first_of_january_behind_utc :
  let env := zonedEnv (-18000000) 2026 in
  isDateOutsideRoadmapYear (generatorOf 2025) env "2025-01-01" = true /\
  shouldDisplayStory (generatorOf 2025) env
                     (storyOf (Some "2026-01-01") None (Some "2026-02-01") None)
  = true.
Proof. split; vm_compute; reflexivity. Qed.

(* ================================================================== *)
(** * The ISO form of a story date *)
(* ================================================================== *)

Lemma dateParts_chars (ds1 ds2 ys : list ascii) (c : ascii) :
  dateParts ds1 ds2 ys -> isSep c = true ->
  forallb isDateChar (ds1 ++ c :: ds2 ++ c :: ys) = true.
Proof.
  intros (D1 & D2 & Dy & _) Hc.
  rewrite forallb_app. cbn [forallb]. rewrite forallb_app. cbn [forallb].
  rewrite !(forallb_impl isDigit isDateChar _ digit_dateChar) by assumption.
  now rewrite (sep_dateChar c Hc).
Qed.

Lemma dateParts_not_iso (ds1 ds2 ys : list ascii) (c : ascii) :
  dateParts ds1 ds2 ys -> isSep c = true ->
  ISO_DATE_REGEX (str (ds1 ++ c :: ds2 ++ c :: ys)) = false.
Proof.
  intros (D1 & _ & _ & L1 & _) Hc. unfold ISO_DATE_REGEX. rewrite chars_str.
  destruct (JsDate.isoFields _) as [[[y m] d]|] eqn:E; [|reflexivity].
  exfalso. apply isoFields_shape in E
    as (y1 & y2 & y3 & y4 & s1 & m1 & m2 & s2 & d1 & d2 & E & Hd & _).
  split_digits Hd. pose proof (sep_not_digit c Hc) as Nc.
  destruct ds1 as [|a [|b [|x ds1]]]; simpl in L1; try lia;
    cbn [app] in E; injection E; intros; subst; congruence.
Qed.

Lemma digitSlashDigit_parts (ds1 ds2 r : list ascii) :
  forallb isDigit ds1 = true -> forallb isDigit ds2 = true ->
  (1 <= length ds1 <= 2)%nat -> (1 <= length ds2)%nat ->
  digitSlashDigit (ds1 ++ "/"%char :: ds2 ++ r) = true.
Proof.
  intros D1 D2 L1 L2.
  destruct ds2 as [|z ds2]; simpl in L2; [lia|].
  simpl in D2. apply andb_true_iff in D2 as [Dz _].
  destruct ds1 as [|a [|b [|x ds1]]]; simpl in L1; try lia;
    split_digits D1; cbn [app digitSlashDigit].
  - rewrite Hd, Dz. reflexivity.
  - rewrite Hd0, Dz. cbn. now rewrite orb_true_r.
Qed.

(** [convertStoryDateToISO] on a date [D/M/Y] with slashes. *)
Lemma convertStoryDateToISO_slashes (env : Env) (defaultYear : Z)
      (ds1 ds2 ys : list ascii) :
  dateParts ds1 ds2 ys ->
  let text := str (ds1 ++ "/"%char :: ds2 ++ "/"%char :: ys) in
  let day := decimalValue ds1 in
  let month := decimalValue ds2 in
  let year := yearOfDigits ys in
  1000 <= year <= 9999 -> 1 <= day <= 31 -> 1 <= month <= 12 ->
  convertStoryDateToISO env text defaultYear
  = Some (isoString year month day).
Proof.
  intros P text day month year Hy Hd Hm.
  pose proof P as (D1 & D2 & Dy & L1 & L2 & Ly).
  unfold convertStoryDateToISO, text.
  rewrite str_nonempty by (destruct ds1; simpl in *; [lia|discriminate]).
  destruct (dateChars_fixed (str (ds1 ++ "/"%char :: ds2 ++ "/"%char :: ys)))
    as [_ ->];
    [rewrite chars_str; now apply dateParts_chars|].
  rewrite (dateParts_not_iso ds1 ds2 ys "/"%char P eq_refl).
  rewrite includesChar_mid, chars_str.
  rewrite (digitSlashDigit_parts ds1 ds2 ("/"%char :: ys))
    by (assumption || lia).
  cbn [andb].
  rewrite (split_parts isSlash "/"%char ds1 ds2 ys digit_not_slash eq_refl P).
  rewrite !parseInt_digits
    by (try apply nonempty_length; assumption || lia).
  fold day month.
  assert (Ey : centuryOf (Some (decimalValue ys)) = Some year).
  { unfold centuryOf, year, yearOfDigits in *. cbn [ltN addN].
    destruct (length ys =? 2)%nat eqn:E2.
    - apply Nat.eqb_eq in E2.
      destruct ys as [|a [|b [|c ys]]]; simpl in E2; try lia.
      pose proof (decimalValue2_bounds a b Dy).
      destruct (Z.ltb_spec (decimalValue [a; b]) 100); [reflexivity|lia].
    - destruct (Z.ltb_spec (decimalValue ys) 100); [lia|reflexivity]. }
  rewrite Ey. cbn [geN leN].
  destruct (Z.leb_spec 1 day); [|lia].
  destruct (Z.leb_spec day 31); [|lia].
  destruct (Z.leb_spec 1 month); [|lia].
  destruct (Z.leb_spec month 12); [|lia]. reflexivity.
Qed.

(** X19.  On a date [D/M/Y] with slashes whose numbers are in range, a
    day from 1 to 31 and a month from 1 to 12, [convertStoryDateToISO]
    gives the ISO spelling of these numbers, whatever the default year
    and without asking whether the month has that day.  On a date of
    the calendar this is what [convertEuropeanToISO] gives. *)
Theorem story_date_to_iso (env : Env) (defaultYear : Z)
        (roadmapYear : option Z) (ds1 ds2 ys : list ascii) :
  dateParts ds1 ds2 ys ->
  let text := str (ds1 ++ "/"%char :: ds2 ++ "/"%char :: ys) in
  let day := decimalValue ds1 in
  let month := decimalValue ds2 in
  let year := yearOfDigits ys in
  1000 <= year <= 9999 -> 1 <= day <= 31 -> 1 <= month <= 12 ->
  convertStoryDateToISO env text defaultYear
  = Some (isoString year month day) /\
  (JsDate.validYMD year month day = true ->
   convertStoryDateToISO env text defaultYear
   = Some (DateUtility.convertEuropeanToISO env text roadmapYear)).
Proof.
  intros P text day month year Hy Hd Hm.
  pose proof (convertStoryDateToISO_slashes env defaultYear ds1 ds2 ys P
                Hy Hd Hm) as E.
  cbv zeta in E. fold text day month year in E.
  split; [exact E|]. intros Hv. rewrite E. f_equal. symmetry.
  pose proof (european_date_parts env roadmapYear ds1 ds2 ys "/"%char P
                eq_refl) as R. cbv zeta in R. fold day month year in R.
  assert (Hsw : (12 <? month) = false) by (apply Z.ltb_ge; lia).
  rewrite Hsw in R. cbn [andb] in R. destruct (R Hy Hv) as (_ & R1 & _).
  exact R1.
Qed.

Lemma story_date_to_iso_witness :
  convertStoryDateToISO (strictEnv 2026) "31/02/25" 2031 = Some "2025-02-31".
Proof.
  exact (proj1 (story_date_to_iso
                  (strictEnv 2026) 2031 None
                  (chars "31") (chars "02") (chars "25")
                  ltac:(repeat split; simpl; lia || reflexivity)
                  ltac:(vm_compute; split; discriminate)
                  ltac:(vm_compute; split; discriminate)
                  ltac:(vm_compute; split; discriminate))).
Defined.

(* ================================================================== *)
(** * Continuation into the next year *)
(* ================================================================== *)

(** The numbers of the parts of an ISO date string. *)
Lemma partNum_iso (s : string) (y m d : Z) :
  JsDate.isoFields (chars s) = Some (y, m, d) ->
  partNum s 0 = Some y /\ partNum s 1 = Some m /\ partNum s 2 = Some d.
Proof.
  intros H. apply isoFields_shape in H
    as (y1 & y2 & y3 & y4 & s1 & m1 & m2 & s2 & d1 & d2 & E & Hd & S1 & S2
        & -> & -> & ->).
  split_digits Hd.
  assert (D4 : forallb isDigit [y1; y2; y3; y4] = true)
    by (cbn [forallb]; now rewrite Hd0, Hd1, Hd2, Hd3).
  assert (Dm : forallb isDigit [m1; m2] = true)
    by (cbn [forallb]; now rewrite Hd4, Hd5).
  assert (Dd : forallb isDigit [d1; d2] = true)
    by (cbn [forallb]; now rewrite Hd6, Hd7).
  assert (Hsplit : split isDash s
                   = [str [y1; y2; y3; y4]; str [m1; m2]; str [d1; d2]]).
  { unfold split. rewrite E.
    change [y1; y2; y3; y4; s1; m1; m2; s2; d1; d2]
      with ([y1; y2; y3; y4] ++ s1 :: [m1; m2] ++ s2 :: [d1; d2]).
    rewrite splitList_app
      by (try (apply digits_no; [apply digit_not_dash|]); assumption).
    rewrite splitList_app
      by (try (apply digits_no; [apply digit_not_dash|]); assumption).
    rewrite splitList_none
      by (apply digits_no; [apply digit_not_dash|assumption]).
    reflexivity. }
  unfold partNum. rewrite Hsplit. cbn [lookup list_lookup].
  rewrite !parseInt_digits by (assumption || discriminate).
  repeat split; reflexivity.
Qed.

(** On ISO date strings the order of the strings is the order of the
    dates. *)
Lemma strGt_iso (a b : string) (y1 m1 d1 y2 m2 d2 : Z) :
  JsDate.isoFields (chars a) = Some (y1, m1, d1) ->
  JsDate.isoFields (chars b) = Some (y2, m2, d2) ->
  strGt a b = true <-> earlier (y2, m2, d2) (y1, m1, d1).
Proof.
  intros Ha Hb.
  apply isoFields_shape in Ha
    as (a1 & a2 & a3 & a4 & s1 & a5 & a6 & s2 & a7 & a8 & Ea & Da & S1 & S2
        & -> & -> & ->).
  apply isoFields_shape in Hb
    as (b1 & b2 & b3 & b4 & t1 & b5 & b6 & t2 & b7 & b8 & Eb & Db & T1 & T2
        & -> & -> & ->).
  unfold strGt. rewrite Ea, Eb. unfold earlier.
  rewrite !decimalValue4, !decimalValue2.
  split_digits Da. split_digits Db.
  repeat match goal with
         | D : isDigit _ = true |- _ => apply digit_bounds in D
         end.
  unfold isDash in S1, S2, T1, T2.
  apply Z.eqb_eq in S1, S2, T1, T2.
  unfold digitVal in *. cbn [gtList].
  rewrite S1, S2, T1, T2. cbn [Z.eqb Pos.eqb].
  destruct (Z.eqb_spec (code a1) (code b1));
    [|destruct (Z.ltb_spec (code b1) (code a1)); split; intros Hgt;
      try discriminate; try reflexivity; lia].
  destruct (Z.eqb_spec (code a2) (code b2));
    [|destruct (Z.ltb_spec (code b2) (code a2)); split; intros Hgt;
      try discriminate; try reflexivity; lia].
  destruct (Z.eqb_spec (code a3) (code b3));
    [|destruct (Z.ltb_spec (code b3) (code a3)); split; intros Hgt;
      try discriminate; try reflexivity; lia].
  destruct (Z.eqb_spec (code a4) (code b4));
    [|destruct (Z.ltb_spec (code b4) (code a4)); split; intros Hgt;
      try discriminate; try reflexivity; lia].
  destruct (Z.eqb_spec (code a5) (code b5));
    [|destruct (Z.ltb_spec (code b5) (code a5)); split; intros Hgt;
      try discriminate; try reflexivity; lia].
  destruct (Z.eqb_spec (code a6) (code b6));
    [|destruct (Z.ltb_spec (code b6) (code a6)); split; intros Hgt;
      try discriminate; try reflexivity; lia].
  destruct (Z.eqb_spec (code a7) (code b7));
    [|destruct (Z.ltb_spec (code b7) (code a7)); split; intros Hgt;
      try discriminate; try reflexivity; lia].
  destruct (Z.eqb_spec (code a8) (code b8));
    [|destruct (Z.ltb_spec (code b8) (code a8)); split; intros Hgt;
      try discriminate; try reflexivity; lia].
  split; intros Hgt; [discriminate|lia].
Qed.

Lemma storyContinuesNextYear_true (g : Generator) (env : Env) (story : Story)
      (e iso : string) :
  truthy (endDate story) = Some e ->
  truthy (convertStoryDateToISO env e (roadmapYear g)) = Some iso ->
  (roadmapYear g <> 0 /\ gtN (partNum iso 0) (Some (roadmapYear g)) = true) \/
  (exists range rangeEnd,
      searchRange g = Some range /\
      truthy (rangeEndDate range) = Some rangeEnd /\
      strGt iso rangeEnd = true) ->
  storyContinuesNextYear g env story = true.
Proof.
  intros He Hiso H. unfold storyContinuesNextYear. rewrite He, Hiso.
  destruct H as [[Hy Hgt]|(range & rangeEnd & Hr & Hre & Hs)].
  - rewrite Hgt. apply Z.eqb_neq in Hy. now rewrite Hy.
  - destruct (negb (roadmapYear g =? 0) && _); [reflexivity|].
    now rewrite Hr, Hre.
Qed.

Lemma truthy_nonempty (v : string) :
  String.eqb v EmptyString = false -> truthy (Some v) = Some v.
Proof. intros H. unfold truthy. now rewrite H. Qed.

(** The ISO string that [convertStoryDateToISO] makes of an end date
    that is an ISO date string or a date [D/M/Y] with slashes. *)
Lemma endDate_resolved (env : Env) (e : string) (defaultYear y m d : Z) :
  endDateNames e (y, m, d) ->
  exists iso,
    truthy (convertStoryDateToISO env e defaultYear) = Some iso /\
    JsDate.isoFields (chars iso) = Some (y, m, d).
Proof.
  intros [Hf|(ds1 & ds2 & ys & P & -> & -> & -> & -> & Hy & Hd & Hm)].
  - exists e. split; [|exact Hf].
    pose proof (iso_dateChars _ _ _ _ Hf) as Hall.
    unfold convertStoryDateToISO.
    rewrite (iso_nonempty e y m d Hf), (proj2 (dateChars_fixed e Hall)).
    unfold ISO_DATE_REGEX. rewrite Hf.
    apply truthy_nonempty, (iso_nonempty e y m d Hf).
  - exists (isoString (yearOfDigits ys) (decimalValue ds2) (decimalValue ds1)).
    pose proof (isoFields_of_string (yearOfDigits ys) (decimalValue ds2)
                  (decimalValue ds1) Hy ltac:(lia) ltac:(lia)) as Hf.
    split; [|exact Hf].
    rewrite (convertStoryDateToISO_slashes env defaultYear ds1 ds2 ys P
               Hy Hd Hm).
    apply truthy_nonempty. exact (iso_nonempty _ _ _ _ Hf).
Qed.

(** C3.  A story whose end date, an ISO date string or a date [D/M/Y]
    with slashes, is of a year after the roadmap year, or is a date
    after the end of the search range, carries the continuation flag;
    its end column is December's base column plus 10, column 121; and
    the continuation indicator shows the month and the year of the end
    date itself. *)
Theorem story_continues_next_year (g : Generator) (env : Env)
        (story story' : Story) (span : GridSpan) (e : string) (y m d : Z) :
  generateStory g env story = Returns (story', Some span) ->
  truthy (endDate story) = Some e ->
  endDateNames e (y, m, d) ->
  (roadmapYear g <> 0 /\ roadmapYear g < y) \/
  (exists range rangeEnd ry rm rd,
      searchRange g = Some range /\
      truthy (rangeEndDate range) = Some rangeEnd /\
      JsDate.isoFields (chars rangeEnd) = Some (ry, rm, rd) /\
      earlier (ry, rm, rd) (y, m, d)) ->
  continuesNextYear span = true /\
  endGrid span = monthBase 12 + 10 /\
  endGrid span = 121 /\
  continuation span =
    Some (nthName shortMonthNames (Some (m - 1)), Some y,
          lastTwo (intToString y)).
Proof.
  intros Hgen He Hname H.
  destruct (endDate_resolved env e (roadmapYear g) y m d Hname)
    as (iso & Hiso & Hf).
  destruct (partNum_iso iso y m d Hf) as (Py & Pm & _).
  destruct (generateStory_span g env story story' span Hgen)
    as (sg0 & _ & Hc & _ & _ & Hend & Hcont).
  rewrite (storyContinuesNextYear_true g env story e iso He Hiso) in Hc.
  - rewrite Hc in Hend, Hcont. repeat split; auto.
    rewrite Hcont. unfold continuationOf. rewrite He, Hiso, Py, Pm.
    cbn [addN numToString]. replace (m + -1) with (m - 1) by lia.
    reflexivity.
  - destruct H as [[Hy Hgt]|(range & rangeEnd & ry & rm & rd & Hr & Hre
                             & Hrf & Hlater)].
    + left. split; [exact Hy|]. rewrite Py. cbn [gtN ltN].
      now apply Z.ltb_lt.
    + right. exists range, rangeEnd. split; [exact Hr|]. split; [exact Hre|].
      now apply (strGt_iso iso rangeEnd y m d ry rm rd).
Qed.

(** On the 2025 roadmap a story that ends on 2026-02-01 carries the
    flag, ends on column 121 and shows Feb 26, and so does one that ends
    on 1/2/26; in a search up to 2025-06-30 a story that ends on
    15/07/25 carries the flag and shows Jul 25. *)
Lemma story_continues_next_year_witness :
  let env := zonedEnv 7200000 2026 in
  let range := {| roadmapYear := 2025;
                  searchRange :=
                    Some {| rangeStartDate := Some "2025-01-01";
                            rangeEndDate := Some "2025-06-30" |} |} in
  (exists story' span,
      generateStory (generatorOf 2025) env
                    (storyOf (Some "2025-01-15") None (Some "2026-02-01") None)
      = Returns (story', Some span) /\
      continuesNextYear span = true /\ endGrid span = 121 /\
      continuation span = Some (Some "Feb", Some 2026, "26")) /\
  (exists story' span,
      generateStory (generatorOf 2025) env
                    (storyOf None (Some "MAR") (Some "1/2/26") None)
      = Returns (story', Some span) /\
      continuesNextYear span = true /\ endGrid span = 121 /\
      continuation span = Some (Some "Feb", Some 2026, "26")) /\
  (exists story' span,
      generateStory range env
                    (storyOf None (Some "MAR") (Some "15/07/25") None)
      = Returns (story', Some span) /\
      continuesNextYear span = true /\ endGrid span = 121 /\
      continuation span = Some (Some "Jul", Some 2025, "25")).
Proof.
  intros env range. split; [|split].
  - eexists _, _. split; [vm_compute; reflexivity|].
    destruct (story_continues_next_year
                (generatorOf 2025) env
                (storyOf (Some "2025-01-15") None (Some "2026-02-01") None)
                _ _ "2026-02-01" 2026 2 1
                ltac:(vm_compute; reflexivity) ltac:(reflexivity)
                ltac:(left; reflexivity)
                ltac:(left; split; [discriminate|reflexivity]))
      as (H1 & _ & H2 & H3).
    split; [exact H1|]. split; [exact H2|exact H3].
  - eexists _, _. split; [vm_compute; reflexivity|].
    destruct (story_continues_next_year
                (generatorOf 2025) env
                (storyOf None (Some "MAR") (Some "1/2/26") None)
                _ _ "1/2/26" 2026 2 1
                ltac:(vm_compute; reflexivity) ltac:(reflexivity)
                ltac:(right; exists (chars "1"), (chars "2"), (chars "26");
                      repeat split; simpl; lia || reflexivity)
                ltac:(left; split; [discriminate|reflexivity]))
      as (H1 & _ & H2 & H3).
    split; [exact H1|]. split; [exact H2|exact H3].
  - eexists _, _. split; [vm_compute; reflexivity|].
    destruct (story_continues_next_year
                range env
                (storyOf None (Some "MAR") (Some "15/07/25") None)
                _ _ "15/07/25" 2025 7 15
                ltac:(vm_compute; reflexivity) ltac:(reflexivity)
                ltac:(right; exists (chars "15"), (chars "07"), (chars "25");
                      repeat split; simpl; lia || reflexivity)
                ltac:(right;
                      exists {| rangeStartDate := Some "2025-01-01";
                                rangeEndDate := Some "2025-06-30" |},
                        "2025-06-30", 2025, 6, 30;
                      repeat split; vm_compute; tauto))
      as (H1 & _ & H2 & H3).
    split; [exact H1|]. split; [exact H2|exact H3].
Defined.

(** Where the flag is missing.  On the 2025 roadmap a story that ends
    on 15-03-2026, with dashes, does not carry the flag and ends on
    column 27, as if it ended on 15 March of the roadmap year:
    [convertStoryDateToISO] reads the slashes only.  Neither does a
    story whose end was moved to 2026-02-15 by a change: the end date of
    the story is read, not the end that a change gave it, and the bar
    ends on column 17. *)
Lemma story_end_without_flag :
  let env := strictEnv 2026 in
  (exists story' span,
      generateStory (generatorOf 2025) env
                    (storyOf None (Some "JAN") (Some "15-03-2026") None)
      = Returns (story', Some span) /\
      continuesNextYear span = false /\ endGrid span = 27) /\
  (exists story' span,
      generateStory
        (generatorOf 2025) env
        {| startDate := None; startMonth := Some "JAN";
           endDate := Some "2025-06-30"; endMonth := None;
           changes := Some [ {| date := Some "01/05/25";
                                prevEndDate := Some "2025-06-30";
                                newEndDate := Some "2026-02-15" |} ];
           _originalStartDate := None; _startsInPreviousYear := false;
           _actualStartYear := None |}
      = Returns (story', Some span) /\
      continuesNextYear span = false /\ endGrid span = 17).
Proof.
  intros env. split; eexists _, _;
    (split; [vm_compute; reflexivity|split; reflexivity]).
Qed.

(* ================================================================== *)
(** * The start of a search range *)
(* ================================================================== *)

(** X20.  With a search range whose start is a valid ISO date from the
    year 100, a story whose start date is a valid ISO date starts before
    the range when its start is before the start of the range in the
    calendar, and does not when it is after it.  A story that starts on
    the first day of the range starts before the range on a host that is
    not ahead of UTC, and does not on a host that is ahead of it: the
    start of the story is midnight in UTC and the start of the range
    midnight in local time.  Without a search range no story starts
    before the range. *)
Theorem story_starts_before_range (g : Generator) (env : Env) (story : Story)
        (range : SearchRange) (rangeStart s : string)
        (ys ms ds yr mr dr : Z) :
  regularZone env ->
  searchRange g = Some range ->
  truthy (rangeStartDate range) = Some rangeStart ->
  truthy (startDate story) = Some s ->
  JsDate.isoCalendarDate (chars s) = Some (ys, ms, ds) ->
  JsDate.isoCalendarDate (chars rangeStart) = Some (yr, mr, dr) ->
  100 <= yr ->
  (earlier (ys, ms, ds) (yr, mr, dr) ->
   storyStartsBeforeRange g env story = true) /\
  (earlier (yr, mr, dr) (ys, ms, ds) ->
   storyStartsBeforeRange g env story = false) /\
  ((ys, ms, ds) = (yr, mr, dr) ->
   (notAheadOfUTC env -> storyStartsBeforeRange g env story = true) /\
   (aheadOfUTC env -> storyStartsBeforeRange g env story = false)) /\
  (forall other,
      storyStartsBeforeRange
        {| roadmapYear := roadmapYear g; searchRange := None |} env other
      = false).
Proof.
  intros Hz Hr Hrs Hs Is Ir Hy.
  pose proof (isoCalendarDate_fields _ _ _ _ Is) as (Fs & Vs & _).
  pose proof (isoCalendarDate_fields _ _ _ _ Ir) as (Fr & Vr & Hy9).
  pose proof (validYMD_bounds _ _ _ Vr) as [Bm Bd].
  assert (E : storyStartsBeforeRange g env story
              = (utcMidnight ys ms ds <=? localMidnight env yr mr dr)).
  { unfold storyStartsBeforeRange. rewrite Hr, Hrs, Hs.
    unfold europeanWithYearRegex.
    rewrite (iso_not_european _ ys ms ds false Fs),
      (newDate_iso env s ys ms ds Is).
    destruct (partNum_iso rangeStart yr mr dr Fr) as (-> & -> & ->).
    cbn [addN]. unfold JsDate.ofComponents.
    destruct (Z.leb_spec 0 yr); [|lia].
    destruct (Z.leb_spec yr 99); [lia|]. cbn [andb].
    replace (mr + -1) with (mr - 1) by lia.
    rewrite (makeDay_civil yr mr dr Bm).
    rewrite timeClip_localMidnight
      by (try apply year_days_bounds; assumption || lia).
    reflexivity. }
  rewrite E. clear E.
  pose proof (daysFromCivil_order _ _ _ _ _ _ Vs Vr) as O1.
  pose proof (daysFromCivil_order _ _ _ _ _ _ Vr Vs) as O2.
  unfold earlier in *. unfold localMidnight, utcMidnight, JsDate.UTC.
  set (ns := JsDate.daysFromCivil ys ms ds) in *.
  set (nr := JsDate.daysFromCivil yr mr dr) in *.
  pose proof (proj1 Hz (nr * JsDate.msPerDay) false) as B.
  split; [|split; [|split; [|reflexivity]]].
  - intros H. apply O1 in H. apply Z.leb_le.
    unfold JsDate.msPerDay in *. lia.
  - intros H. apply O2 in H. apply Z.leb_gt.
    unfold JsDate.msPerDay in *. lia.
  - intros [= -> -> ->]. split; intros Hn.
    + pose proof (Hn (nr * JsDate.msPerDay)). apply Z.leb_le.
      subst ns nr. lia.
    + pose proof (Hn (nr * JsDate.msPerDay)). apply Z.leb_gt.
      subst ns nr. lia.
Qed.

(** In a search from 2025-03-01 a story that starts on 2025-02-27
    starts before the range, five hours behind UTC and two hours ahead
    of it; one that starts on 2025-03-01 does so behind UTC only. *)
Lemma story_starts_before_range_witness :
  let g := {| roadmapYear := 2025;
              searchRange := Some {| rangeStartDate := Some "2025-03-01";
                                     rangeEndDate := Some "2025-06-30" |} |} in
  let west := zonedEnv (-18000000) 2026 in
  let east := zonedEnv 7200000 2026 in
  storyStartsBeforeRange g west (storyOf (Some "2025-02-27") None None None)
  = true /\
  storyStartsBeforeRange g east (storyOf (Some "2025-02-27") None None None)
  = true /\
  storyStartsBeforeRange g west (storyOf (Some "2025-03-01") None None None)
  = true /\
  storyStartsBeforeRange g east (storyOf (Some "2025-03-01") None None None)
  = false.
Proof.
  intros g west east.
  assert (Hw : regularZone west)
    by (apply fixedZone_regular; unfold JsDate.msPerDay; lia).
  assert (He : regularZone east)
    by (apply fixedZone_regular; unfold JsDate.msPerDay; lia).
  split; [|split; [|split]].
  - apply (proj1 (story_starts_before_range
                    g west (storyOf (Some "2025-02-27") None None None)
                    {| rangeStartDate := Some "2025-03-01";
                       rangeEndDate := Some "2025-06-30" |}
                    "2025-03-01" "2025-02-27" 2025 2 27 2025 3 1
                    Hw ltac:(reflexivity) ltac:(reflexivity)
                    ltac:(reflexivity) ltac:(reflexivity) ltac:(reflexivity)
                    ltac:(lia))).
    unfold earlier. lia.
  - apply (proj1 (story_starts_before_range
                    g east (storyOf (Some "2025-02-27") None None None)
                    {| rangeStartDate := Some "2025-03-01";
                       rangeEndDate := Some "2025-06-30" |}
                    "2025-03-01" "2025-02-27" 2025 2 27 2025 3 1
                    He ltac:(reflexivity) ltac:(reflexivity)
                    ltac:(reflexivity) ltac:(reflexivity) ltac:(reflexivity)
                    ltac:(lia))).
    unfold earlier. lia.
  - apply (proj1 (proj2 (proj2 (story_starts_before_range
                    g west (storyOf (Some "2025-03-01") None None None)
                    {| rangeStartDate := Some "2025-03-01";
                       rangeEndDate := Some "2025-06-30" |}
                    "2025-03-01" "2025-03-01" 2025 3 1 2025 3 1
                    Hw ltac:(reflexivity) ltac:(reflexivity)
                    ltac:(reflexivity) ltac:(reflexivity) ltac:(reflexivity)
                    ltac:(lia)))) eq_refl).
    apply (fixedZone_notAhead (-18000000)). lia.
  - apply (proj1 (proj2 (proj2 (story_starts_before_range
                    g east (storyOf (Some "2025-03-01") None None None)
                    {| rangeStartDate := Some "2025-03-01";
                       rangeEndDate := Some "2025-06-30" |}
                    "2025-03-01" "2025-03-01" 2025 3 1 2025 3 1
                    He ltac:(reflexivity) ltac:(reflexivity)
                    ltac:(reflexivity) ltac:(reflexivity) ltac:(reflexivity)
                    ltac:(lia)))) eq_refl).
    apply (fixedZone_ahead 7200000). lia.
Defined.

(** X21.  For a month name of its table, in any casing,
    [parseMonthToDate] gives the first day of that month of the year,
    at midnight in local time; a year from 0 to 99 is taken in the
    1900s.  A text that is not in the table gives no date. *)
Theorem month_to_first_day (env : Env) (monthStr key : string)
        (index year : Z) :
  regularZone env ->
  (key, index) ∈ parseMonthMap -> toLowerCase monthStr = key ->
  -270000 <= year <= 270000 ->
  let y := if (0 <=? year) && (year <=? 99) then 1900 + year else year in
  0 <= index <= 11 /\
  parseMonthToDate env monthStr year
  = Some (localMidnight env y (index + 1) 1) /\
  (forall other,
      toLowerCase other ∉ parseMonthMap.*1 ->
      parseMonthToDate env other year = None).
Proof.
  intros Hz Hin Hlow Hy y.
  assert (H : 0 <= index <= 11 /\
              (list_to_map parseMonthMap : gmap string Z) !! key = Some index).
  { unfold parseMonthMap in *.
    repeat (apply elem_of_cons in Hin as [Hin|Hin];
            [injection Hin as -> ->; split; [lia|vm_compute; reflexivity]|]).
    apply elem_of_nil in Hin. contradiction. }
  destruct H as [Hi Hl]. split; [exact Hi|]. split.
  - unfold parseMonthToDate. rewrite Hlow, Hl. unfold JsDate.ofComponents.
    fold y. replace index with (index + 1 - 1) at 1 by lia.
    rewrite (makeDay_civil y (index + 1) 1) by lia.
    apply timeClip_localMidnight; [exact Hz|].
    apply daysFromCivil_bounds; try lia.
    unfold y. destruct ((0 <=? year) && (year <=? 99)) eqn:E; [|lia].
    apply andb_true_iff in E as [E1 E2]. apply Z.leb_le in E1, E2. lia.
  - intros other Hno. unfold parseMonthToDate.
    now rewrite (not_elem_of_list_to_map_1 _ _ Hno).
Qed.

Lemma month_to_first_day_witness :
  let env := zonedEnv (-18000000) 2026 in
  parseMonthToDate env "Sept" 2025 = parseDateSafe env "2025-09-01" /\
  parseMonthToDate env "March" 25 = parseDateSafe env "1925-03-01".
Proof.
  intros env.
  assert (Hz : regularZone env)
    by (apply fixedZone_regular; unfold JsDate.msPerDay; lia).
  split.
  - exact (proj1 (proj2 (month_to_first_day env "Sept" "sept" 8 2025 Hz
                           ltac:(unfold parseMonthMap;
                                 repeat first [apply list_elem_of_here
                                              | apply list_elem_of_further])
                           ltac:(reflexivity) ltac:(lia)))).
  - exact (proj1 (proj2 (month_to_first_day env "March" "march" 2 25 Hz
                           ltac:(unfold parseMonthMap;
                                 repeat first [apply list_elem_of_here
                                              | apply list_elem_of_further])
                           ltac:(reflexivity) ltac:(lia)))).
Defined.

(* ================================================================== *)
(** * Wrapped text *)
(* ================================================================== *)

Lemma len_append (a b : string) : len (a +:+ b) = len a + len b.
Proof. unfold len. rewrite chars_append, length_app. lia. Qed.

Lemma length_dropWhile {A} (p : A -> bool) (l : list A) :
  (length (dropWhile p l) <= length l)%nat.
Proof.
  induction l as [|x l IH]; [reflexivity|].
  cbn [dropWhile]. destruct (p x); simpl; lia.
Qed.

Lemma len_trim (s : string) : len (trim s) <= len s.
Proof.
  unfold len, trim, trimList. rewrite chars_str, length_rev.
  pose proof (length_dropWhile isSpace (rev (dropWhile isSpace (chars s)))).
  pose proof (length_dropWhile isSpace (chars s)).
  rewrite length_rev in *. lia.
Qed.

Lemma len_nonneg (s : string) : 0 <= len s.
Proof. unfold len. lia. Qed.

(** X22.  A text that fits in [maxLength] comes back as it is; a longer
    text comes back as lines joined by line breaks, and when no word of
    the text is longer than [maxLength] no line is. *)
Theorem wrapped_lines_fit (text : string) (maxLength : Z) :
  (forall word, word ∈ split isBlank text -> len word <= maxLength) ->
  (len text <= maxLength -> wrapTextAtWordBoundary text maxLength = text) /\
  (maxLength < len text ->
   wrapTextAtWordBoundary text maxLength
   = join "<br>" (wrapLines text maxLength)) /\
  Forall (fun line => len line <= maxLength) (wrapLines text maxLength).
Proof.
  intros Hw. split; [|split].
  - intros H. unfold wrapTextAtWordBoundary.
    destruct (Z.leb_spec (len text) maxLength); [|lia].
    now rewrite orb_true_r.
  - intros H. unfold wrapTextAtWordBoundary.
    destruct (Z.leb_spec (len text) maxLength); [lia|].
    destruct (String.eqb_spec text EmptyString) as [->|_]; [|reflexivity].
    pose proof (Hw EmptyString ltac:(apply list_elem_of_here)).
    change (len EmptyString) with 0 in *. lia.
  - assert (H0 : 0 <= maxLength).
    { unfold split in Hw. destruct (splitList isBlank (chars text)) as [|w ws] eqn:E.
      - destruct (chars text) as [|c r]; [discriminate E|].
        cbn [splitList] in E. destruct (isBlank c); [discriminate|].
        destruct (splitList isBlank r); discriminate.
      - pose proof (Hw (str w) ltac:(apply list_elem_of_here)).
        pose proof (len_nonneg (str w)). lia. }
    unfold wrapLines.
    set (step := fun (state : list string * string) (word : string) =>
                   let '(lines, currentLine) := state in
                   if (maxLength <? len currentLine + len word + 1) &&
                      (0 <? len currentLine)
                   then (lines ++ [trim currentLine], word)
                   else if 0 <? len currentLine
                        then (lines, currentLine +:+ " " +:+ word)
                        else (lines, word)).
    assert (G : forall words state,
               (forall word, word ∈ words -> len word <= maxLength) ->
               Forall (fun line => len line <= maxLength) (fst state) ->
               len (snd state) <= maxLength ->
               let final := fold_left step words state in
               Forall (fun line => len line <= maxLength) (fst final) /\
               len (snd final) <= maxLength).
    { induction words as [|w ws IH]; intros [lines cur] Hws Hl Hc;
        cbn [fold_left]; [split; assumption|].
      apply IH.
      - intros word Hin. apply Hws. now apply list_elem_of_further.
      - cbn [fst snd] in *. unfold step.
        destruct ((maxLength <? len cur + len w + 1) && (0 <? len cur));
          [|destruct (0 <? len cur); exact Hl].
        cbn [fst]. apply Forall_app. split; [exact Hl|].
        apply Forall_cons. split; [|apply Forall_nil_2].
        pose proof (len_trim cur). lia.
      - cbn [fst snd] in *. unfold step.
        pose proof (Hws w ltac:(apply list_elem_of_here)) as Hlen.
        destruct (Z.ltb_spec maxLength (len cur + len w + 1));
          destruct (Z.ltb_spec 0 (len cur)); cbn [andb snd];
          try exact Hlen.
        rewrite !len_append. change (len " ") with 1. lia. }
    destruct (G (split isBlank text) ([], EmptyString) Hw
                ltac:(apply Forall_nil_2) H0) as [G1 G2].
    destruct (fold_left step (split isBlank text) ([], EmptyString))
      as [lines cur].
    cbn [fst snd] in G1, G2.
    destruct (0 <? len (trim cur)); [|exact G1].
    apply Forall_app. split; [exact G1|].
    apply Forall_cons. split; [|apply Forall_nil_2].
    pose proof (len_trim cur). lia.
Qed.

Lemma wrapped_lines_fit_witness :
  wrapTextAtWordBoundary "plan the release of the roadmap" 12
  = "plan the<br>release of<br>the roadmap".
Proof.
  destruct (wrapped_lines_fit "plan the release of the roadmap" 12) as (_ & H & _).
  - apply Forall_forall.
    change (split isBlank "plan the release of the roadmap")
      with ["plan"; "the"; "release"; "of"; "the"; "roadmap"].
    repeat (apply Forall_cons; split; [vm_compute; discriminate|]).
    apply Forall_nil_2.
  - rewrite H by (vm_compute; reflexivity). reflexivity.
Defined.

(* ================================================================== *)
(** * Identifiers and epic names *)
(* ================================================================== *)

Lemma digitChar_digit (d : Z) : 0 <= d <= 9 -> isDigit (digitChar d) = true.
Proof.
  intros H.
  assert (C : d = 0 \/ d = 1 \/ d = 2 \/ d = 3 \/ d = 4 \/ d = 5 \/ d = 6 \/
              d = 7 \/ d = 8 \/ d = 9) by lia.
  repeat (destruct C as [->|C]; [reflexivity|]). subst. reflexivity.
Qed.

Lemma decimalDigits_digits (fuel : nat) (n : Z) (acc : list ascii) :
  0 <= n -> forallb isDigit acc = true ->
  forallb isDigit (decimalDigits fuel n acc) = true.
Proof.
  revert n acc. induction fuel as [|fuel IH]; intros n acc Hn Ha;
    cbn [decimalDigits]; [exact Ha|].
  assert (Hd : forallb isDigit (digitChar (n mod 10) :: acc) = true).
  { cbn [forallb]. rewrite Ha, digitChar_digit; [reflexivity|].
    pose proof (Z.mod_pos_bound n 10). lia. }
  destruct (n <? 10); [exact Hd|].
  apply IH; [|exact Hd]. apply Z.div_pos; lia.
Qed.

(** The characters of [String(n)] are digits, after a minus sign for a
    negative number. *)
Lemma intToString_safe (n : Z) :
  forallb isCssSafe (chars (intToString n)) = true.
Proof.
  unfold intToString. rewrite chars_str.
  assert (H : forallb isCssSafe
                (decimalDigits (S (Z.to_nat (Z.log2 (Z.abs n)))) (Z.abs n) [])
              = true).
  { apply (forallb_impl isDigit).
    - intros c Hc. unfold isCssSafe, isAlnum. now rewrite Hc.
    - apply decimalDigits_digits; [lia|reflexivity]. }
  destruct (n <? 0); [|exact H]. cbn [forallb]. now rewrite H.
Qed.

Lemma sanitize_char_safe (c : ascii) :
  isCssSafe (if isAlnum c then c else "-"%char) = true.
Proof.
  destruct (isAlnum c) eqn:E; [|reflexivity].
  unfold isCssSafe. now rewrite E.
Qed.

Lemma sanitizeForCSS_map (text : string) :
  UIUtility.sanitizeForCSS text
  = str (map (fun c => if isAlnum c then c else "-"%char) (chars text)).
Proof.
  unfold UIUtility.sanitizeForCSS.
  destruct (String.eqb_spec text EmptyString) as [->|_]; reflexivity.
Qed.

(** X23.  [sanitizeForCSS] keeps the length of a text and leaves only
    letters, digits and hyphens in it; a text of these characters it
    leaves as it is, so sanitising twice is sanitising once.  The
    identifier that [generateStoryId] makes of an epic name and an
    index that a number holds exactly has these characters only. *)
Theorem story_id_is_css_safe (epicName : string) (storyIndex : Z) :
  safeInteger storyIndex ->
  forallb isCssSafe (chars (UIUtility.sanitizeForCSS epicName)) = true /\
  len (UIUtility.sanitizeForCSS epicName) = len epicName /\
  UIUtility.sanitizeForCSS (UIUtility.sanitizeForCSS epicName)
  = UIUtility.sanitizeForCSS epicName /\
  forallb isCssSafe (chars (UIUtility.generateStoryId epicName storyIndex))
  = true.
Proof.
  intros _. pose proof sanitizeForCSS_map as E.
  assert (S : forallb isCssSafe (chars (UIUtility.sanitizeForCSS epicName))
              = true).
  { rewrite E, chars_str. apply forallb_forall. intros c Hc.
    apply in_map_iff in Hc as (c0 & <- & _). apply sanitize_char_safe. }
  split; [exact S|]. split; [|split].
  - rewrite E. unfold len. now rewrite chars_str, length_map.
  - rewrite (E (UIUtility.sanitizeForCSS epicName)), (E epicName), chars_str.
    f_equal. induction (chars epicName) as [|c l IH]; [reflexivity|].
    cbn [map]. rewrite IH. f_equal.
    destruct (isAlnum c) eqn:Ec; [now rewrite Ec|reflexivity].
  - unfold UIUtility.generateStoryId. rewrite !chars_append, !forallb_app.
    rewrite S, intToString_safe. reflexivity.
Qed.

(** The identifier of the story 3 of the epic "Q1 / Pay-in" is
    story-Q1---Pay-in-3. *)
Lemma story_id_is_css_safe_witness :
  UIUtility.generateStoryId "Q1 / Pay-in" 3 = "story-Q1---Pay-in-3" /\
  forallb isCssSafe (chars (UIUtility.generateStoryId "Q1 / Pay-in" 3)) = true.
Proof.
  split; [reflexivity|].
  exact (proj2 (proj2 (proj2 (story_id_is_css_safe
                                "Q1 / Pay-in" 3
                                ltac:(unfold safeInteger; simpl; lia))))).
Defined.

(** X24.  Rows next to each other never have the same background
    colour: the colours of the positions alternate. *)
Theorem background_colours_alternate (visualPosition : Z) :
  UIUtility.getAlternatingBackgroundColor (visualPosition + 1)
  <> UIUtility.getAlternatingBackgroundColor visualPosition /\
  UIUtility.getAlternatingBackgroundColor (visualPosition + 2)
  = UIUtility.getAlternatingBackgroundColor visualPosition.
Proof.
  unfold UIUtility.getAlternatingBackgroundColor.
  rewrite !rem_zero by lia.
  destruct (Z.eqb_spec ((visualPosition + 1) mod 2) 0),
    (Z.eqb_spec (visualPosition mod 2) 0),
    (Z.eqb_spec ((visualPosition + 2) mod 2) 0);
    try (exfalso; Z.div_mod_to_equations; lia);
    split; (discriminate || reflexivity).
Qed.

(* ================================================================== *)
(** * White space and truncation *)
(* ================================================================== *)

Lemma dropWhile_head {A} (p : A -> bool) (l : list A) (x : A) (r : list A) :
  dropWhile p l = x :: r -> p x = false.
Proof.
  induction l as [|y l IH]; [discriminate|].
  cbn [dropWhile]. destruct (p y) eqn:E; [exact IH|].
  intros H. injection H as -> _. exact E.
Qed.

Lemma dropWhile_idem {A} (p : A -> bool) (l : list A) :
  dropWhile p (dropWhile p l) = dropWhile p l.
Proof.
  destruct (dropWhile p l) as [|x r] eqn:E; [reflexivity|].
  cbn [dropWhile]. now rewrite (dropWhile_head p l x r E).
Qed.

(** What [rev (dropWhile p (rev l))] cuts off the end of [l]. *)
Lemma dropEnd_prefix {A} (p : A -> bool) (l : list A) :
  l = rev (dropWhile p (rev l)) ++ rev (takeWhile p (rev l)).
Proof.
  rewrite <- rev_app_distr, takeWhile_dropWhile. now rewrite rev_involutive.
Qed.

Lemma trimList_prefix (l : list ascii) :
  exists rest, dropWhile isSpace l = trimList l ++ rest.
Proof.
  eexists. unfold trimList. apply dropEnd_prefix.
Qed.

Lemma trimList_head (l : list ascii) :
  dropWhile isSpace (trimList l) = trimList l.
Proof.
  destruct (trimList_prefix l) as [rest E].
  destruct (trimList l) as [|c t]; [reflexivity|].
  cbn [dropWhile]. now rewrite (dropWhile_head isSpace l c (t ++ rest) E).
Qed.

Lemma trimList_idem (l : list ascii) : trimList (trimList l) = trimList l.
Proof.
  unfold trimList at 1. rewrite trimList_head.
  unfold trimList. now rewrite rev_involutive, dropWhile_idem.
Qed.

Lemma collapseSpaces_singleSpaced (b : bool) (l : list ascii) :
  singleSpaced b (UIUtility.collapseSpaces b l) = true.
Proof.
  revert b. induction l as [|c l IH]; intros b; [reflexivity|].
  cbn [UIUtility.collapseSpaces]. destruct (isSpace c) eqn:E.
  - destruct b; [apply IH|]. cbn [singleSpaced].
    change (isSpace " ") with true. cbv iota.
    rewrite IH. reflexivity.
  - cbn [singleSpaced]. rewrite E. apply IH.
Qed.

Lemma singleSpaced_dropWhile (b : bool) (l : list ascii) :
  singleSpaced b l = true -> singleSpaced false (dropWhile isSpace l) = true.
Proof.
  revert b. induction l as [|c l IH]; intros b H; [reflexivity|].
  cbn [dropWhile]. cbn [singleSpaced] in H. destruct (isSpace c) eqn:E.
  - apply andb_true_iff in H as [_ H]. now apply (IH true).
  - cbn [singleSpaced]. now rewrite E.
Qed.

Lemma singleSpaced_prefix (b : bool) (l rest : list ascii) :
  singleSpaced b (l ++ rest) = true -> singleSpaced b l = true.
Proof.
  revert b. induction l as [|c l IH]; intros b H; [reflexivity|].
  cbn [app singleSpaced] in *. destruct (isSpace c).
  - apply andb_true_iff in H as [H1 H]. rewrite H1. now apply IH.
  - now apply IH.
Qed.

Lemma singleSpaced_trimList (b : bool) (l : list ascii) :
  singleSpaced b l = true -> singleSpaced false (trimList l) = true.
Proof.
  intros H. apply singleSpaced_dropWhile in H.
  destruct (trimList_prefix l) as [rest E]. rewrite E in H.
  now apply singleSpaced_prefix in H.
Qed.

Lemma space_not_break (c : ascii) :
  isSpace c = true -> Ascii.eqb c " " = true ->
  UIUtility.isBreak c = false.
Proof.
  intros _ H. apply Ascii.eqb_eq in H. subst c. reflexivity.
Qed.

Lemma singleSpaced_no_break (b : bool) (l : list ascii) :
  singleSpaced b l = true ->
  List.filter (fun c => negb (UIUtility.isBreak c)) l = l.
Proof.
  revert b. induction l as [|c l IH]; intros b H; [reflexivity|].
  cbn [singleSpaced] in H. cbn [List.filter]. destruct (isSpace c) eqn:E.
  - apply andb_true_iff in H as [H1 H]. apply andb_true_iff in H1 as [H1 _].
    apply Ascii.eqb_eq in H1. subst c.
    change (negb (UIUtility.isBreak " ")) with true. cbv iota.
    now rewrite (IH true).
  - assert (Hb : UIUtility.isBreak c = false).
    { unfold isSpace in E. apply orb_false_iff in E as [E _]. exact E. }
    rewrite Hb. cbn [negb]. now rewrite (IH false).
Qed.

Lemma singleSpaced_collapse (b : bool) (l : list ascii) :
  singleSpaced b l = true -> UIUtility.collapseSpaces b l = l.
Proof.
  revert b. induction l as [|c l IH]; intros b H; [reflexivity|].
  cbn [singleSpaced] in H. cbn [UIUtility.collapseSpaces].
  destruct (isSpace c) eqn:E.
  - apply andb_true_iff in H as [H1 H]. apply andb_true_iff in H1 as [H1 H2].
    apply Ascii.eqb_eq in H1. subst c. destruct b; [discriminate|].
    now rewrite (IH true).
  - now rewrite (IH false).
Qed.

Lemma cleanWhitespace_chars (text : string) :
  UIUtility.cleanWhitespace text
  = str (trimList
           (UIUtility.collapseSpaces false
              (List.filter (fun c => negb (UIUtility.isBreak c)) (chars text)))).
Proof.
  unfold UIUtility.cleanWhitespace.
  destruct (String.eqb_spec text EmptyString) as [->|_]; reflexivity.
Qed.

Lemma length_collapseSpaces (b : bool) (l : list ascii) :
  (length (UIUtility.collapseSpaces b l) <= length l)%nat.
Proof.
  revert b. induction l as [|c l IH]; intros b; [reflexivity|].
  cbn [UIUtility.collapseSpaces].
  destruct (isSpace c); [destruct b|]; cbn [length];
    try (pose proof (IH true)); try (pose proof (IH false)); lia.
Qed.

Lemma length_trimList (l : list ascii) :
  (length (trimList l) <= length l)%nat.
Proof.
  unfold trimList. rewrite length_rev.
  pose proof (length_dropWhile isSpace (rev (dropWhile isSpace l))).
  pose proof (length_dropWhile isSpace l).
  rewrite length_rev in *. lia.
Qed.

Lemma len_cleanWhitespace (text : string) :
  len (UIUtility.cleanWhitespace text) <= len text.
Proof.
  rewrite cleanWhitespace_chars. unfold len. rewrite chars_str.
  pose proof (length_trimList
                (UIUtility.collapseSpaces false
                   (List.filter (fun c => negb (UIUtility.isBreak c))
                           (chars text)))).
  pose proof (length_collapseSpaces false
                (List.filter (fun c => negb (UIUtility.isBreak c)) (chars text))).
  pose proof (filter_length_le (fun c => negb (UIUtility.isBreak c))
                               (chars text)).
  lia.
Qed.

(** X25.  A text cleaned by [cleanWhitespace] is in normal form: its only
    white space is single space characters between other characters, so
    none at the start or the end and no two in a row.  Cleaning a clean
    text changes nothing, and cleaning never makes a text longer. *)
Theorem cleanWhitespace_normal_form (text : string) :
  let clean := UIUtility.cleanWhitespace text in
  singleSpaced false (chars clean) = true /\
  trim clean = clean /\
  UIUtility.cleanWhitespace clean = clean /\
  len clean <= len text.
Proof.
  cbv zeta. pose proof (len_cleanWhitespace text) as Hlen.
  rewrite cleanWhitespace_chars in *.
  set (l := UIUtility.collapseSpaces false
              (List.filter (fun c => negb (UIUtility.isBreak c)) (chars text)))
    in *.
  assert (S : singleSpaced false (trimList l) = true).
  { apply (singleSpaced_trimList false).
    apply collapseSpaces_singleSpaced. }
  split; [now rewrite chars_str|]. split; [|split; [|exact Hlen]].
  - unfold trim. now rewrite chars_str, trimList_idem.
  - rewrite cleanWhitespace_chars, chars_str.
    rewrite (singleSpaced_no_break false _ S).
    rewrite (singleSpaced_collapse false _ S).
    now rewrite trimList_idem.
Qed.

Lemma len_str (l : list ascii) : len (str l) = Z.of_nat (length l).
Proof. unfold len. now rewrite chars_str. Qed.

Lemma len_truncateText (text : string) (maxLength : Z) :
  3 <= maxLength -> len (UIUtility.truncateText text maxLength) <= maxLength.
Proof.
  intros H. unfold UIUtility.truncateText.
  destruct (String.eqb_spec text EmptyString) as [->|_];
    [change (len EmptyString) with 0; lia|].
  destruct (Z.leb_spec (len text) maxLength) as [L|L]; [exact L|].
  rewrite len_append. change (len "...") with 3.
  unfold trimEnd, substring0. rewrite chars_str, len_str, length_rev.
  pose proof (length_dropWhile isSpace
                (rev (firstn (Z.to_nat (maxLength - 3)) (chars text)))) as D.
  rewrite length_rev, length_firstn in D. lia.
Qed.

Lemma stripPrefix_app (a b : list ascii) : stripPrefix a (a ++ b) = Some b.
Proof.
  induction a as [|c a IH]; [reflexivity|].
  cbn [app stripPrefix]. now rewrite Ascii.eqb_refl.
Qed.

(** X26.  [truncateText] returns a text that fits in [maxLength]
    unchanged.  A longer text is cut: the result is a start of the text
    that does not end in white space, followed by three dots, and has at
    most [maxLength] characters when [maxLength] is 3 or more.  When
    [maxLength] is 3 or less nothing of the text is kept: the result is
    the three dots alone, longer than a [maxLength] below 3. *)
Theorem truncateText_length (text : string) (maxLength : Z) :
  (len text <= maxLength ->
   UIUtility.truncateText text maxLength = text) /\
  (3 <= maxLength ->
   len (UIUtility.truncateText text maxLength) <= maxLength) /\
  (text <> EmptyString -> maxLength < len text ->
   exists kept,
     UIUtility.truncateText text maxLength = kept +:+ "..." /\
     startsWith kept text = true /\
     trimEnd kept = kept /\
     (maxLength <= 3 -> kept = EmptyString)).
Proof.
  split; [|split; [apply len_truncateText|]].
  - intros H. unfold UIUtility.truncateText.
    destruct (String.eqb_spec text EmptyString) as [->|_]; [reflexivity|].
    destruct (Z.leb_spec (len text) maxLength); [reflexivity|lia].
  - intros Hne H. unfold UIUtility.truncateText.
    destruct (String.eqb_spec text EmptyString) as [->|_]; [congruence|].
    destruct (Z.leb_spec (len text) maxLength); [lia|].
    eexists. split; [reflexivity|]. unfold trimEnd, substring0.
    rewrite !chars_str.
    set (n := Z.to_nat (maxLength - 3)).
    split; [|split].
    + unfold startsWith. rewrite chars_str.
      rewrite <- (firstn_skipn n (chars text)) at 2.
      rewrite (dropEnd_prefix isSpace (firstn n (chars text))) at 2.
      rewrite <- app_assoc, stripPrefix_app. reflexivity.
    + now rewrite rev_involutive, dropWhile_idem.
    + intros H3. replace n with 0%nat by lia. reflexivity.
Qed.

Lemma truncateText_length_witness :
  UIUtility.truncateText "Payments" 10 = "Payments" /\
  len (UIUtility.truncateText "Payments platform" 12) <= 12 /\
  exists kept,
    UIUtility.truncateText "Payments platform" 12 = kept +:+ "..." /\
    startsWith kept "Payments platform" = true.
Proof.
  destruct (truncateText_length "Payments" 10) as (H1 & _ & _).
  destruct (truncateText_length "Payments platform" 12) as (_ & H2 & H3).
  split; [apply H1; vm_compute; discriminate|].
  split; [apply H2; lia|].
  destruct (H3 ltac:(discriminate) ltac:(reflexivity))
    as (kept & E & P & _).
  exists kept. split; [exact E|exact P].
Defined.

Lemma len_clean_truncated (name : string) (maxLength : Z) :
  3 <= maxLength ->
  len (UIUtility.truncateText (UIUtility.cleanWhitespace name) maxLength)
  <= maxLength.
Proof. apply len_truncateText. Qed.

(** X27.  The name of an epic with one, two, three or four stories is
    shown in at most 7, 14, 23 or 30 characters; a clean name that fits
    is shown unchanged.  With any other number of stories the name is
    cleaned of white space and never cut. *)
Theorem epic_name_fits (name : string) (numStories : Z) :
  let limit := if numStories =? 1 then 7 else if numStories =? 2 then 14
               else if numStories =? 3 then 23 else 30 in
  let shown := truncateEpicName name numStories in
  (1 <= numStories <= 4 ->
   len shown <= limit /\
   (name <> EmptyString -> len (UIUtility.cleanWhitespace name) <= limit ->
    shown = UIUtility.cleanWhitespace name)) /\
  (numStories < 1 \/ 4 < numStories ->
   shown = UIUtility.cleanWhitespace name).
Proof.
  cbv zeta. unfold truncateEpicName, UIUtility.processEpicName.
  split.
  - intros H.
    assert (T : forall k, len (UIUtility.cleanWhitespace name) <= k ->
                          UIUtility.truncateText
                            (UIUtility.cleanWhitespace name) k
                          = UIUtility.cleanWhitespace name).
    { intros k Hk. unfold UIUtility.truncateText.
      destruct (String.eqb_spec (UIUtility.cleanWhitespace name) EmptyString)
        as [->|_]; [reflexivity|].
      destruct (Z.leb_spec (len (UIUtility.cleanWhitespace name)) k);
        [reflexivity|lia]. }
    destruct (String.eqb_spec name EmptyString) as [->|Hne].
    + change (len EmptyString) with 0.
      split; [|congruence].
      destruct (numStories =? 1), (numStories =? 2), (numStories =? 3); lia.
    + destruct (Z.eqb_spec numStories 1);
        [split; [apply len_clean_truncated; lia|intros _; apply T]|].
      destruct (Z.eqb_spec numStories 2);
        [split; [apply len_clean_truncated; lia|intros _; apply T]|].
      destruct (Z.eqb_spec numStories 3);
        [split; [apply len_clean_truncated; lia|intros _; apply T]|].
      destruct (Z.eqb_spec numStories 4); [|lia].
      split; [apply len_clean_truncated; lia|intros _; apply T].
  - intros H.
    destruct (String.eqb_spec name EmptyString) as [->|Hne]; [reflexivity|].
    destruct (Z.eqb_spec numStories 1); [lia|].
    destruct (Z.eqb_spec numStories 2); [lia|].
    destruct (Z.eqb_spec numStories 3); [lia|].
    destruct (Z.eqb_spec numStories 4); [lia|]. reflexivity.
Qed.

Lemma epic_name_fits_witness :
  len (truncateEpicName "Customer  onboarding" 2) <= 14 /\
  truncateEpicName "Customer  onboarding" 5 = "Customer onboarding".
Proof.
  pose proof (epic_name_fits "Customer  onboarding" 2) as [H _].
  pose proof (epic_name_fits "Customer  onboarding" 5) as [_ H5].
  split; [exact (proj1 (H ltac:(lia)))|].
  etransitivity; [apply H5; right; lia|]. vm_compute. reflexivity.
Defined.

(* ================================================================== *)
(** * Configuration *)
(* ================================================================== *)

Lemma TEXT_BOX_WIDTHS_none (n : Z) :
  n < 1 \/ 7 < n -> TEXT_BOX_WIDTHS !! n = None.
Proof.
  intros H. unfold TEXT_BOX_WIDTHS. apply not_elem_of_list_to_map_1.
  cbn [fmap list_fmap fst]. intros Hin.
  repeat (apply elem_of_cons in Hin as [Hin|Hin]; [lia|]).
  apply elem_of_nil in Hin. contradiction.
Qed.

Lemma calculateTextBoxWidth_cases (n : Z) :
  calculateTextBoxWidth n =
    if n <? 1 then 16
    else if n <=? 7 then nth (Z.to_nat (n - 1)) [16; 26; 38; 50; 62; 74; 85] 0
    else 85 + (n - 7) * 12.
Proof.
  unfold calculateTextBoxWidth, BASE_MULTIPLIER.
  destruct (Z.ltb_spec n 1) as [L|L].
  - destruct (Z.leb_spec n 7); [|lia].
    rewrite TEXT_BOX_WIDTHS_none by lia. reflexivity.
  - destruct (Z.leb_spec n 7) as [U|U]; [|reflexivity].
    assert (C : n = 1 \/ n = 2 \/ n = 3 \/ n = 4 \/ n = 5 \/ n = 6 \/ n = 7)
      by lia.
    repeat (destruct C as [->|C]; [reflexivity|]). subst. reflexivity.
Qed.

(** X28.  One more item makes the text box wider: from one item on,
    [calculateTextBoxWidth] is strictly increasing, by 10 to 12 columns
    an item.  A count below 1 is given the width of one item, 16
    columns, which is the least width there is. *)
Theorem text_box_width_grows (totalItems : Z) :
  16 <= calculateTextBoxWidth totalItems /\
  (totalItems < 1 -> calculateTextBoxWidth totalItems = 16) /\
  (1 <= totalItems ->
   10 <= calculateTextBoxWidth (totalItems + 1)
         - calculateTextBoxWidth totalItems <= 12).
Proof.
  rewrite !calculateTextBoxWidth_cases.
  destruct (Z.ltb_spec totalItems 1) as [L|L];
    [split; [lia|split; [reflexivity|lia]]|].
  destruct (Z.ltb_spec (totalItems + 1) 1); [lia|].
  destruct (Z.leb_spec totalItems 7) as [U|U].
  - assert (C : totalItems = 1 \/ totalItems = 2 \/ totalItems = 3 \/
                totalItems = 4 \/ totalItems = 5 \/ totalItems = 6 \/
                totalItems = 7) by lia.
    repeat (destruct C as [->|C];
            [split; [vm_compute; discriminate|];
             split; [lia|intros _; vm_compute; split; discriminate]|]).
    subst. split; [vm_compute; discriminate|].
    split; [lia|intros _; vm_compute; split; discriminate].
  - destruct (Z.leb_spec (totalItems + 1) 7); [lia|].
    split; [lia|]. split; lia.
Qed.

Lemma text_box_width_grows_witness :
  10 <= calculateTextBoxWidth 8 - calculateTextBoxWidth 7 <= 12 /\
  calculateTextBoxWidth (-2) = 16.
Proof.
  destruct (text_box_width_grows 7) as (_ & _ & H).
  destruct (text_box_width_grows (-2)) as (_ & H0 & _).
  split; [exact (H ltac:(lia))|exact (H0 ltac:(lia))].
Defined.

Lemma NAMES_index (index : Z) :
  0 <= index <= 11 ->
  exists name, NAMES !! Z.to_nat index = Some name /\
               truthy (Some name) = Some name /\
               monthNames !! Z.to_nat index = Some name /\
               GRID_POSITIONS !! toUpperCase name = Some (10 * index + 1).
Proof.
  intros H.
  assert (C : index = 0 \/ index = 1 \/ index = 2 \/ index = 3 \/
              index = 4 \/ index = 5 \/ index = 6 \/ index = 7 \/
              index = 8 \/ index = 9 \/ index = 10 \/ index = 11) by lia.
  repeat (destruct C as [->|C];
          [eexists; split; [reflexivity|];
           split; [reflexivity|]; split; [reflexivity|];
           vm_compute; reflexivity|]).
  subst. eexists. split; [reflexivity|].
  split; [reflexivity|]. split; [reflexivity|]. vm_compute; reflexivity.
Qed.

(** X29.  The month names of the configuration and of the date utility
    agree: index [i] of the one is month [i + 1] of the other, and both
    answer [JAN] outside the year.  The month at index 0 to 11 starts on
    column [10 * i + 1]; any other index is given column 1. *)
Theorem month_index_to_column (index : Z) :
  DateUtility.getMonthName (Some (index + 1))
  = Some (ConfigUtility.getMonthName index) /\
  getMonthGridPosition (ConfigUtility.getMonthName index)
  = (if (0 <=? index) && (index <=? 11) then 10 * index + 1 else 1).
Proof.
  unfold DateUtility.getMonthName, ConfigUtility.getMonthName,
    getMonthGridPosition, nthName, gtN, ltN, addN.
  destruct (Z.ltb_spec index 0) as [L|L].
  - destruct (Z.ltb_spec (index + 1) 1); [|lia]. cbn [orb].
    destruct (Z.leb_spec 0 index); [lia|]. cbn [andb].
    split; reflexivity.
  - destruct (Z.ltb_spec (index + 1) 1); [lia|]. cbn [orb].
    destruct (Z.leb_spec 0 index); [|lia]. cbn [andb].
    destruct (Z.leb_spec index 11) as [U|U].
    + destruct (Z.ltb_spec 12 (index + 1)); [lia|].
      destruct (Z.leb_spec 0 (index + 1 + -1)); [|lia].
      replace (index + 1 + -1) with index by lia.
      destruct (NAMES_index index ltac:(lia)) as (name & -> & Ht & -> & E).
      rewrite Ht, E. split; [reflexivity|].
      unfold orNum. destruct (Z.eqb_spec (10 * index + 1) 0); [lia|].
      reflexivity.
    + destruct (Z.ltb_spec 12 (index + 1)); [|lia].
      rewrite (proj2 (lookup_ge_None NAMES (Z.to_nat index)))
        by (change (length NAMES) with 12%nat; lia).
      split; reflexivity.
Qed.

(** X30.  The sort setting is read back as it was written, whatever was
    stored before, and a later write replaces an earlier one; writing
    it leaves every other key of the storage as it was.  Without a
    storage the setting cannot be written and reads as off. *)
Theorem sort_setting_round_trip (items : gmap string string)
        (enabled : bool) :
  shouldSortStories (setSortStories (Some items) enabled) = enabled /\
  (forall before,
      setSortStories (setSortStories (Some items) before) enabled
      = setSortStories (Some items) enabled) /\
  (forall key stored,
      key <> "roadmap-sort-stories" ->
      setSortStories (Some items) enabled = Some stored ->
      stored !! key = items !! key) /\
  shouldSortStories (setSortStories None enabled) = false /\
  (items !! "roadmap-sort-stories" = None ->
   shouldSortStories (Some items) = false).
Proof.
  unfold shouldSortStories, setSortStories.
  split; [rewrite lookup_insert_eq; now destruct enabled|].
  split; [intros before; now rewrite insert_insert_eq|].
  split; [|split; [reflexivity|intros ->; reflexivity]].
  intros key stored Hk H. injection H as <-.
  now rewrite lookup_insert_ne.
Qed.

Lemma sort_setting_round_trip_witness :
  shouldSortStories
    (setSortStories (Some {["roadmap-sort-stories" := "false"]}) true)
  = true /\
  shouldSortStories (Some {["theme" := "dark"]}) = false.
Proof.
  destruct (sort_setting_round_trip {["roadmap-sort-stories" := "false"]}
                                    true) as (H1 & _).
  destruct (sort_setting_round_trip {["theme" := "dark"]} true)
    as (_ & _ & _ & _ & H5).
  split; [exact H1|]. apply H5. vm_compute. reflexivity.
Defined.
